(** * DODODATA: content aggregation and novelty tracking

    A shallow embedding of the Python sources

      - [image_search/image_service.py]  (class [MultiSourceImageSearch])
      - [extinct_facts/wikidata_service.py], [extinct_facts/facts_service.py]
      - [extinct_facts/views.py]
      - [image_search/views_new.py], [image_search/views_backup.py],
        [image_search/ai_image_generator.py]

    followed by the properties of the aggregation and novelty-tracking
    engine that the specification states about them.

    Conventions of the embedding.

    - A Python [str] is a [string]: its code points in the UTF-8 scheme
      (a lone surrogate too, which strict UTF-8 refuses to encode: that is
      where [quote] raises).
      [len] counts code points; [in], [replace], [strip] and [split]
      compare bytes, which in this scheme is comparing characters; white
      space is what [str.isspace] accepts.
      [str.lower] and [str.title] depend on the tables of the Unicode
      database and are inputs of the model (a [Py.casing]), known only on
      ASCII text.
    - A Python exception is a value of [exn]; a fallible computation returns
      [res A].  Code that also touches the network, the file system, the
      session store or the random generator runs in the monad [M S], which
      threads a state [S] and keeps it when an exception is raised.
    - What the network answers is an input: a [world] maps each URL to the
      response it gets.  Every request the code issues is appended to an
      event log, so that "no request was made" is a statement about the log.
    - [random.choice] reads the next number of a stream [rng : nat -> nat]
      and takes it modulo the length of the sequence; the state holds the
      position in the stream.
    - Calls to [logger] are not modelled, except where evaluating the
      message can raise. *)

From Stdlib Require Import ZArith Ascii String List Lia Bool DecimalString.
From stdpp Require Import base decidable option list gmap strings.

Open Scope string_scope.
Open Scope list_scope.
Open Scope Z_scope.

(** ** Python strings *)

Module Py.

Definition code (c : ascii) : nat := nat_of_ascii c.

Definition is_upper (c : ascii) : bool :=
  ((65 <=? code c) && (code c <=? 90))%nat.

Definition is_lower (c : ascii) : bool :=
  ((97 <=? code c) && (code c <=? 122))%nat.

Definition lower_char (c : ascii) : ascii :=
  if is_upper c then ascii_of_nat (code c + 32) else c.

Definition upper_char (c : ascii) : ascii :=
  if is_lower c then ascii_of_nat (code c - 32) else c.

(** [s.lower()] for a text whose cased characters are ASCII letters. *)
Fixpoint ascii_lower (s : string) : string :=
  match s with
  | EmptyString => EmptyString
  | String c s' => String (lower_char c) (ascii_lower s')
  end.

(** [s.title()] for such a text: a cased character that follows an
    uncased one is put in upper case, every other cased character in lower
    case. *)
Fixpoint ascii_title_from (previous_is_cased : bool) (s : string) : string :=
  match s with
  | EmptyString => EmptyString
  | String c s' =>
      if is_lower c then
        String (if previous_is_cased then c else upper_char c)
               (ascii_title_from true s')
      else if is_upper c then
        String (if previous_is_cased then lower_char c else c)
               (ascii_title_from true s')
      else String c (ascii_title_from false s')
  end.

Definition ascii_title (s : string) : string := ascii_title_from false s.

(** The text has ASCII characters only. *)
Fixpoint is_ascii (s : string) : bool :=
  match s with
  | EmptyString => true
  | String c s' => (code c <? 128)%nat && is_ascii s'
  end.

(** [str.lower] and [str.title].  They follow the case mappings of the
    Unicode database, which the model does not contain: they are inputs,
    of which it is known what they do on ASCII text. *)
Record casing := {
  lower : string -> string;
  title : string -> string;
  lower_ascii : forall s, is_ascii s = true -> lower s = ascii_lower s;
  title_ascii : forall s, is_ascii s = true -> title s = ascii_title s
}.

(** The case mappings that change ASCII letters only: Python's on every
    text without other cased characters. *)
Definition ascii_casing : casing :=
  {| lower := ascii_lower;
     title := ascii_title;
     lower_ascii := fun _ _ => eq_refl;
     title_ascii := fun _ _ => eq_refl |}.

(** [len(s)]: the number of code points, that is of the bytes that are
    not continuation bytes. *)
Fixpoint len_str (s : string) : nat :=
  match s with
  | EmptyString => 0
  | String c s' =>
      ((if (128 <=? code c) && (code c <? 192) then 0 else 1) + len_str s')%nat
  end.

(** [sub in s] *)
Fixpoint contains (sub s : string) : bool :=
  String.prefix sub s ||
  match s with
  | EmptyString => false
  | String _ s' => contains sub s'
  end.

Definition of_bytes (bytes : list nat) : string :=
  string_of_list_ascii (map ascii_of_nat bytes).

(** The UTF-8 encodings of the 29 code points for which [str.isspace]
    holds: U+0009..U+000D, U+001C..U+0020, U+0085, U+00A0, U+1680,
    U+2000..U+200A, U+2028, U+2029, U+202F, U+205F and U+3000. *)
Definition whitespace : list string :=
  map of_bytes
    [[9]; [10]; [11]; [12]; [13]; [28]; [29]; [30]; [31]; [32];
     [194; 133]; [194; 160]; [225; 154; 128];
     [226; 128; 128]; [226; 128; 129]; [226; 128; 130]; [226; 128; 131];
     [226; 128; 132]; [226; 128; 133]; [226; 128; 134]; [226; 128; 135];
     [226; 128; 136]; [226; 128; 137]; [226; 128; 138];
     [226; 128; 168]; [226; 128; 169]; [226; 128; 175];
     [226; 129; 159]; [227; 128; 128]]%nat.

(** What follows [sub] in [s], when [s] starts with [sub]. *)
Fixpoint after_prefix (sub s : string) : option string :=
  match sub with
  | EmptyString => Some s
  | String a sub' =>
      match s with
      | EmptyString => None
      | String b s' => if decide (a = b) then after_prefix sub' s' else None
      end
  end.

(** What follows the first character of [s], when it is one of
    [spaces]. *)
Fixpoint after_space (spaces : list string) (s : string) : option string :=
  match spaces with
  | [] => None
  | space :: others =>
      match after_prefix space s with
      | Some rest => Some rest
      | None => after_space others s
      end
  end.

(** [s] without its leading characters of [spaces]; [fuel] bounds the
    number of characters dropped. *)
Fixpoint drop_spaces (spaces : list string) (fuel : nat) (s : string)
  : string :=
  match fuel with
  | O => s
  | S fuel' =>
      match after_space spaces s with
      | Some rest => drop_spaces spaces fuel' rest
      | None => s
      end
  end.

Definition reverse (s : string) : string :=
  string_of_list_ascii (rev (list_ascii_of_string s)).

(** [s.lstrip()] *)
Definition lstrip (s : string) : string :=
  drop_spaces whitespace (String.length s) s.

(** [s.rstrip()]: the same on the reversed text; an encoding of a white
    space that ends the text is its last character. *)
Definition rstrip (s : string) : string :=
  reverse (drop_spaces (map reverse whitespace) (String.length s) (reverse s)).

(** [s.strip()] *)
Definition strip (s : string) : string := rstrip (lstrip s).

(** [s.split()]: the maximal runs of characters that are not white space;
    [word] is the run being read and [fuel] bounds the number of steps. *)
Fixpoint split_from (fuel : nat) (word : string) (s : string) : list string :=
  match fuel with
  | O => if decide (word = "") then [] else [word]
  | S fuel' =>
      match after_space whitespace s with
      | Some rest =>
          if decide (word = "") then split_from fuel' "" rest
          else word :: split_from fuel' "" rest
      | None =>
          match s with
          | EmptyString => if decide (word = "") then [] else [word]
          | String c s' => split_from fuel' (word +:+ String c "") s'
          end
      end
  end.

Definition split (s : string) : list string :=
  split_from (S (String.length s)) "" s.

(** [s.replace(old, new)] for a one-character [old] and [new]. *)
Fixpoint replace_char (old new : ascii) (s : string) : string :=
  match s with
  | EmptyString => EmptyString
  | String c s' =>
      String (if decide (c = old) then new else c) (replace_char old new s')
  end.

Fixpoint drop_string (n : nat) (s : string) : string :=
  match n, s with
  | O, _ => s
  | S n', String _ s' => drop_string n' s'
  | S _, EmptyString => EmptyString
  end.

(** [s.replace(old, "")] for a non-empty [old]: the occurrences are removed
    from left to right, without overlap.  [fuel] bounds the number of
    steps; [String.length s] steps suffice. *)
Fixpoint remove_from (fuel : nat) (old s : string) : string :=
  match fuel with
  | O => s
  | S fuel' =>
      match s with
      | EmptyString => EmptyString
      | String c s' =>
          if String.prefix old s
          then remove_from fuel' old (drop_string (String.length old) s)
          else String c (remove_from fuel' old s')
      end
  end.

Definition remove (old s : string) : string :=
  remove_from (String.length s) old s.

(** [str(n)] for an integer. *)
Definition str_of_Z (n : Z) : string := NilZero.string_of_int (Z.to_int n).

(** [len(l)] as a Python integer. *)
Definition len {A} (l : list A) : Z := Z.of_nat (length l).

(** [l[-n:]] for a positive [n]: the last [n] elements, all of [l] when it
    is shorter. *)
Definition last_n {A} (n : nat) (l : list A) : list A :=
  drop (length l - n)%nat l.

(** A value that is a [str] or [None]. *)
Inductive val := PyNone | PyStr (s : string).

#[global] Instance val_eq_dec : EqDecision val.
Proof. solve_decision. Defined.

#[global] Instance val_countable : Countable val.
Proof.
  refine (inj_countable'
            (fun v => match v with PyNone => None | PyStr s => Some s end)
            (fun o => match o with None => PyNone | Some s => PyStr s end) _).
  intros []; reflexivity.
Defined.

End Py.

(** ** Exceptions and effects *)

Inductive exn :=
  | KeyError | AttributeError | ValueError | IndexError | NameError
  | RequestException | JSONDecodeError | OSError
  | UnicodeDecodeError | UnicodeEncodeError.

#[global] Instance exn_eq_dec : EqDecision exn.
Proof. solve_decision. Defined.

Inductive res (A : Type) :=
  | Ret (a : A)
  | Raise (e : exn).
Arguments Ret {A} a.
Arguments Raise {A} e.

#[global] Instance res_ret : MRet res := fun _ a => Ret a.
#[global] Instance res_bind : MBind res := fun _ _ f m =>
  match m with Ret a => f a | Raise e => Raise e end.

(** A computation over a state [S] that may raise. *)
Definition M (S A : Type) : Type := S -> res A * S.

#[global] Instance M_ret {S} : MRet (M S) := fun _ a s => (Ret a, s).
#[global] Instance M_bind {S} : MBind (M S) := fun _ _ f m s =>
  match m s with
  | (Ret a, s') => f a s'
  | (Raise e, s') => (Raise e, s')
  end.

Definition lift {S A} (r : res A) : M S A := fun s => (r, s).
Definition raise {S A} (e : exn) : M S A := lift (Raise e).
Definition get {S} : M S S := fun s => (Ret s, s).
Definition put {S} (s : S) : M S unit := fun _ => (Ret tt, s).

(** [try: body  except Exception as e: handler e] *)
Definition try_except {S A} (body : M S A) (handler : exn -> M S A) : M S A :=
  fun s =>
    match body s with
    | (Ret a, s') => (Ret a, s')
    | (Raise e, s') => handler e s'
    end.

(** ** image_search/image_service.py *)

Module ImageService.

(** An image dict.  ['url'] and ['title'] are the keys the service reads:
    [None] is an absent key, [Some PyNone] a key bound to [None].  Every
    dict the service builds itself binds both to a [str]; a provider's JSON
    can bind ['title'] to [null]. *)
Record image := {
  url : option Py.val;
  thumbnail : string;
  title : option Py.val;
  source : string;
  source_url : string;
  author : string;
  width : Z;
  height : Z
}.

(** The [content-length] header as [int] reads it: absent or empty (falsy),
    a numeral, or a text that [int] refuses. *)
Inductive length_header :=
  | LengthFalsy
  | LengthInt (n : Z)
  | LengthBad.

(** The answer to a HEAD request; [content_type = None] is an absent
    header. *)
Record response := {
  status_code : Z;
  content_type : option string;
  content_length : length_header
}.

(** What the network answers.  [head u = None]: the request raises
    (timeout, refused connection, malformed URL).  The three providers that
    are fetched over the network return the list their method returns: the
    mapped items, or [[]] after a failure. *)
Record world := {
  head : string -> option response;
  search_unsplash : string -> list image;
  search_reddit : string -> list image;
  search_wikimedia : string -> list image
}.

(** One event per call of [self.session.head]. *)
Inductive event := EvHead (u : Py.val).

Definition log := list event.

(** [image['url']] *)
Definition getitem_url (image : image) : res Py.val :=
  match url image with
  | Some u => Ret u
  | None => Raise KeyError
  end.

(** [image.get('title', '')] *)
Definition get_title (image : image) : Py.val :=
  match title image with
  | Some t => t
  | None => Py.PyStr ""
  end.

(** [v.lower()] on a value that may be [None]. *)
Definition val_lower (c : Py.casing) (v : Py.val) : res string :=
  match v with
  | Py.PyStr s => Ret (Py.lower c s)
  | Py.PyNone => Raise AttributeError
  end.

(** [self.session.head(u, timeout=5)] *)
Definition session_head (w : world) (u : Py.val) : M log response :=
  fun l =>
    (match u with
     | Py.PyStr s =>
         match head w s with
         | Some r => Ret r
         | None => Raise RequestException
         end
     | Py.PyNone => Raise RequestException
     end, l ++ [EvHead u]).

Definition image_types : list string :=
  ["image/jpeg"; "image/jpg"; "image/png"; "image/gif"; "image/webp"].

(** [content_length and int(content_length) < 5000] *)
Definition too_small (h : length_header) : res bool :=
  match h with
  | LengthFalsy => Ret false
  | LengthInt n => Ret (n <? 5000)
  | LengthBad => Raise ValueError
  end.

(** [any(word in title_words for word in query_words if len(word) > 2)] *)
Definition relevant (query_words : list string) (title_words : string) : bool :=
  existsb (fun word => Py.contains word title_words)
          (filter (fun word => (2 < Py.len_str word)%nat) query_words).

Definition validate_image (c : Py.casing) (w : world) (image : image)
    (query : string) : M log bool :=
  try_except
    (u ← lift (getitem_url image);
     response ← session_head w u;
     if negb (status_code response =? 200) then mret false else
     let content_type := Py.lower c (default "" (content_type response)) in
     if negb (existsb (fun img_type => Py.contains img_type content_type)
                      image_types)
     then mret false else
     small ← lift (too_small (content_length response));
     if (small : bool) then mret false else
     let query_words := Py.split (Py.lower c query) in
     title_words ← lift (val_lower c (get_title image));
     if negb (relevant query_words title_words) then mret false else
     mret true)
    (fun e =>
       (* the handler formats image['url'] into its log message *)
       _ ← lift (getitem_url image);
       mret false).

(** [remove_duplicates]: the loop over [images], with the set of URLs seen
    and the list built so far. *)
Fixpoint remove_duplicates_loop (images : list image)
    (seen_urls : gset Py.val) (unique_images : list image)
  : res (list image) :=
  match images with
  | [] => Ret unique_images
  | image :: rest =>
      u ← getitem_url image;
      if decide (u ∈ seen_urls)
      then remove_duplicates_loop rest seen_urls unique_images
      else remove_duplicates_loop rest ({[u]} ∪ seen_urls)
                                  (unique_images ++ [image])
  end.

Definition remove_duplicates (images : list image) : res (list image) :=
  remove_duplicates_loop images ∅ [].

Definition curated (c : Py.casing) (query : string)
    (photo kind page who : string) : image :=
  {| url := Some (Py.PyStr
       ("https://images.unsplash.com/photo-" +:+ photo +:+ "?w=800"));
     thumbnail := "https://images.unsplash.com/photo-" +:+ photo +:+ "?w=400";
     title := Some (Py.PyStr (Py.title c query +:+ " - " +:+ kind));
     source := "Curated Collection";
     source_url := "https://unsplash.com/photos/" +:+ page;
     author := who;
     width := 800;
     height := 600 |}.

Definition any_in (words : list string) (s : string) : bool :=
  existsb (fun word => Py.contains word s) words.

Definition nature_words : list string :=
  ["butterfly"; "bird"; "flower"; "nature"; "animal"].
Definition technology_words : list string :=
  ["computer"; "technology"; "laptop"; "phone"; "tech"].
Definition landscape_words : list string :=
  ["mountain"; "landscape"; "sunset"; "ocean"; "forest"].

Definition get_curated_images (c : Py.casing) (query : string) : list image :=
  let query_lower := Py.lower c query in
  if any_in nature_words query_lower then
    [curated c query "1444927714506-8492d94b5ba0" "Nature Photography"
             "butterfly" "Nature Photographer"]
  else if any_in technology_words query_lower then
    [curated c query "1518709268805-4e9042af2176" "Technology"
             "technology" "Tech Photographer"]
  else if any_in landscape_words query_lower then
    [curated c query "1506905925346-21bda4d32df4" "Landscape"
             "landscape" "Landscape Photographer"]
  else [].

(** [search_pixabay] and [search_pexels] build sample data from the query
    and issue no request. *)
Definition search_pixabay (c : Py.casing) (query : string) : list image :=
  let query_clean := Py.lower c (Py.replace_char " " "-" query) in
  map (fun i : Z =>
         let stem := "https://cdn.pixabay.com/photo/2023/0"
                     +:+ Py.str_of_Z (i + 1) +:+ "/15/12/00/" +:+ query_clean
                     +:+ "-" +:+ Py.str_of_Z (1000000 + i) in
         {| url := Some (Py.PyStr (stem +:+ ".jpg"));
            thumbnail := stem +:+ "_640.jpg";
            title := Some (Py.PyStr
                       (Py.title c query +:+ " - High Quality Photo"));
            source := "Pixabay";
            source_url := "https://pixabay.com/photos/" +:+ query_clean
                          +:+ "-" +:+ Py.str_of_Z (1000000 + i) +:+ "/";
            author := "Pixabay Photographer " +:+ Py.str_of_Z (i + 1);
            width := 1920;
            height := 1280 |})
      [0; 1; 2].

Definition search_pexels (c : Py.casing) (query : string) : list image :=
  let query_clean := Py.lower c (Py.replace_char " " "-" query) in
  map (fun i : Z =>
         let photo_id := 2000000 + i in
         let stem := "https://images.pexels.com/photos/"
                     +:+ Py.str_of_Z photo_id +:+ "/" +:+ query_clean
                     +:+ ".jpeg?auto=compress&cs=tinysrgb" in
         {| url := Some (Py.PyStr (stem +:+ "&w=1260&h=750&dpr=1"));
            thumbnail := stem +:+ "&w=350&h=200&dpr=1";
            title := Some (Py.PyStr
                       (Py.title c query +:+ " - Professional Photography"));
            source := "Pexels";
            source_url := "https://www.pexels.com/photo/" +:+ query_clean
                          +:+ "-" +:+ Py.str_of_Z photo_id +:+ "/";
            author := "Professional Photographer " +:+ Py.str_of_Z (i + 1);
            width := 1260;
            height := 750 |})
      [0; 1].

(** The validation loop of [search_images]: the bound [max_results] is
    tested after an image has been appended. *)
Fixpoint validate_loop (c : Py.casing) (w : world) (query : string)
    (max_results : Z) (unique_images validated_images : list image)
  : M log (list image) :=
  match unique_images with
  | [] => mret validated_images
  | image :: rest =>
      ok ← validate_image c w image query;
      if (ok : bool) then
        let validated_images := validated_images ++ [image] in
        if max_results <=? Py.len validated_images
        then mret validated_images
        else validate_loop c w query max_results rest validated_images
      else validate_loop c w query max_results rest validated_images
  end.

(** The fallback loop: the bound is tested before each append. *)
Fixpoint fallback_loop (max_results : Z)
    (fallback_images validated_images : list image) : list image :=
  match fallback_images with
  | [] => validated_images
  | image :: rest =>
      if max_results <=? Py.len validated_images then validated_images
      else fallback_loop max_results rest (validated_images ++ [image])
  end.

(** [search_images] from the point where the list [sources] of the five
    providers' results has been built. *)
Definition search_images_from (c : Py.casing) (w : world)
    (sources : list (list image)) (query : string) (max_results : Z)
  : M log (list image) :=
  let all_images :=
    concat (filter (fun source_results => source_results <> []) sources) in
  unique_images ← lift (remove_duplicates all_images);
  validated_images ← validate_loop c w query max_results unique_images [];
  if Py.len validated_images <? 5
  then mret (fallback_loop max_results (get_curated_images c query)
                           validated_images)
  else mret validated_images.

Definition search_images (c : Py.casing) (w : world) (query : string)
    (max_results : Z) : M log (list image) :=
  search_images_from c w
    [search_unsplash w query; search_pixabay c query; search_pexels c query;
     search_reddit w query; search_wikimedia w query]
    query max_results.

End ImageService.

(** ** extinct_facts: state shared by the service and the views *)

Module Extinct.

(** The state a request of the [extinct_facts] application runs in:
    how many numbers of the random stream have been drawn, the attribute
    [recent_facts] of the request's [WikidataService] instance, and the
    consumer's session dict, whose values are lists of titles. *)
Record state := {
  draws : nat;
  recent_facts : list string;
  session : gmap string (list string)
}.

Definition set_recent_facts (l : list string) : M state unit :=
  fun s => (Ret tt, {| draws := draws s; recent_facts := l;
                       session := session s |}).

(** [request.session.get(key, [])] *)
Definition session_get (key : string) : M state (list string) :=
  fun s => (Ret (default [] (session s !! key)), s).

(** [request.session[key] = value] *)
Definition session_set (key : string) (value : list string) : M state unit :=
  fun s => (Ret tt, {| draws := draws s; recent_facts := recent_facts s;
                       session := <[key := value]> (session s) |}).

(** [random.choice(seq)]: the element at the next number of the stream,
    modulo [len(seq)]; [IndexError] on an empty sequence. *)
Definition choice {A} (rng : nat -> nat) (seq : list A) : M state A :=
  fun s =>
    match seq !! (rng (draws s) mod length seq)%nat with
    | Some x => (Ret x, {| draws := S (draws s);
                           recent_facts := recent_facts s;
                           session := session s |})
    | None => (Raise IndexError, s)
    end.

End Extinct.

(** ** extinct_facts/wikidata_service.py *)

Module WikidataService.
Import Extinct.

Record fact := {
  title : string;
  description : string;
  image_suggestion : string
}.

Definition _get_programming_language_facts : list fact := [
  {| title :=
       "💻 Python Programming Language";
     description :=
       "Python was created by Guido van Rossum and first released in 1991. Named after the British comedy group Monty Python, it emphasizes code readability and simplicity. Python has become one of the most popular programming languages, especially in data science, AI, and web development. Its philosophy includes 'The Zen of Python' with principles like 'Beautiful is better than ugly' and 'Simple is better than complex'.";
     image_suggestion :=
       "Python programming language logo code" |};
  {| title :=
       "☕ Java Programming Language";
     description :=
       "Java was developed by James Gosling at Sun Microsystems and released in 1995. Originally called Oak, it was designed with the principle 'write once, run anywhere' (WORA). Java revolutionized programming with its platform independence through the Java Virtual Machine. It remains one of the most widely used programming languages in enterprise applications and Android development.";
     image_suggestion :=
       "Java programming language coffee cup logo" |};
  {| title :=
       "🌐 JavaScript";
     description :=
       "JavaScript was created by Brendan Eich in just 10 days in 1995 while working at Netscape. Despite its name, it has no relation to Java. Originally designed to make web pages interactive, JavaScript has evolved to become a full-stack programming language. It's now used for web development, mobile apps, desktop applications, and even server-side programming with Node.js.";
     image_suggestion :=
       "JavaScript code on computer screen" |};
  {| title :=
       "🔧 C Programming Language";
     description :=
       "C was developed by Dennis Ritchie at Bell Labs between 1969 and 1973. It's considered the foundation of modern programming languages, with many languages like C++, Java, and Python borrowing concepts from C. The famous book 'The C Programming Language' by Kernighan and Ritchie is often called the 'K&R' and is considered the bible of C programming. C is still widely used in system programming and embedded systems.";
     image_suggestion :=
       "C programming language vintage computer terminal" |};
  {| title :=
       "🦀 Rust Programming Language";
     description :=
       "Rust was originally developed by Mozilla Research, with the first stable release in 2015. It focuses on safety, speed, and concurrency without a garbage collector. Rust prevents common programming errors like null pointer dereferences and buffer overflows at compile time. It's increasingly used in system programming, web assembly, and blockchain development. The language mascot is Ferris the Crab.";
     image_suggestion :=
       "Rust programming language crab mascot" |}
].

Definition _get_computer_scientist_facts : list fact := [
  {| title :=
       "🧠 Alan Turing";
     description :=
       "Alan Turing (1912-1954) is considered the father of computer science and artificial intelligence. He created the Turing Test to determine if a machine can exhibit intelligent behavior equivalent to a human. During WWII, he helped break the Enigma code, significantly shortening the war. The Turing Award, often called the 'Nobel Prize of Computing,' is named in his honor. His work laid the theoretical foundation for modern computers.";
     image_suggestion :=
       "Alan Turing portrait with Enigma machine" |};
  {| title :=
       "👩‍💻 Ada Lovelace";
     description :=
       "Ada Lovelace (1815-1852) is often considered the world's first computer programmer. She wrote the first algorithm intended to be processed by Charles Babbage's Analytical Engine in 1843. Her notes on the engine include what is recognized as the first computer program. She envisioned that computers could go beyond pure calculation to create music and art. The Ada programming language is named in her honor.";
     image_suggestion :=
       "Ada Lovelace portrait with mathematical equations" |};
  {| title :=
       "🖥️ Steve Jobs";
     description :=
       "Steve Jobs (1955-2011) co-founded Apple Inc. and revolutionized personal computing, mobile phones, and digital media. He introduced the Apple II, Macintosh, iPod, iPhone, and iPad, each transforming their respective industries. Known for his perfectionism and attention to design, Jobs believed in making technology accessible and beautiful. His famous Stanford commencement speech included the phrase 'Stay hungry, stay foolish.'";
     image_suggestion :=
       "Steve Jobs presenting iPhone on stage" |};
  {| title :=
       "🌐 Tim Berners-Lee";
     description :=
       "Tim Berners-Lee invented the World Wide Web in 1989 while working at CERN. He created the first web browser, web server, and website. Remarkably, he chose not to patent his invention, believing the web should be free for everyone. He founded the World Wide Web Consortium (W3C) to oversee the web's development. He continues to advocate for an open, decentralized web and digital rights.";
     image_suggestion :=
       "Tim Berners-Lee with early web browser" |};
  {| title :=
       "🔍 Larry Page & Sergey Brin";
     description :=
       "Larry Page and Sergey Brin co-founded Google in 1998 while PhD students at Stanford University. They developed the PageRank algorithm that became the foundation of Google's search engine. Their innovation was ranking web pages based on their relevance and authority rather than just keyword matching. Google started in a garage and grew to become one of the world's most valuable companies, revolutionizing how we access information.";
     image_suggestion :=
       "Google founders Larry Page Sergey Brin early office" |}
].

Definition _get_ai_technology_facts : list fact := [
  {| title :=
       "🤖 ChatGPT";
     description :=
       "ChatGPT was released by OpenAI in November 2022 and became the fastest-growing consumer application in history, reaching 100 million users in just 2 months. It's based on the GPT (Generative Pre-trained Transformer) architecture and can engage in human-like conversations, write code, create content, and solve problems. The technology represents a breakthrough in natural language processing and has sparked widespread discussion about AI's role in society.";
     image_suggestion :=
       "ChatGPT interface conversation artificial intelligence" |};
  {| title :=
       "🧠 Neural Networks";
     description :=
       "Artificial neural networks are inspired by biological neural networks in animal brains. The concept was first introduced in 1943 by Warren McCulloch and Walter Pitts. Modern deep learning neural networks can have millions or billions of parameters and are used in image recognition, natural language processing, and game playing. The 2024 Nobel Prize in Physics was awarded to Geoffrey Hinton and John Hopfield for their foundational work on neural networks.";
     image_suggestion :=
       "Neural network diagram brain connections" |};
  {| title :=
       "🎯 Machine Learning";
     description :=
       "Machine Learning is a subset of AI that enables computers to learn and improve from experience without being explicitly programmed. The term was coined by Arthur Samuel in 1959. ML algorithms can identify patterns in data and make predictions or decisions. Applications include recommendation systems (Netflix, Spotify), fraud detection, medical diagnosis, and autonomous vehicles. The field has exploded with the availability of big data and powerful computing.";
     image_suggestion :=
       "Machine learning algorithms data visualization" |};
  {| title :=
       "👁️ Computer Vision";
     description :=
       "Computer Vision enables machines to interpret and understand visual information from the world. Early work began in the 1960s, but modern computer vision uses deep learning to achieve human-level performance in many tasks. Applications include facial recognition, medical imaging, autonomous vehicles, and augmented reality. The ImageNet competition, started in 2010, significantly advanced the field by providing large datasets for training.";
     image_suggestion :=
       "Computer vision image recognition technology" |};
  {| title :=
       "🗣️ Natural Language Processing";
     description :=
       "Natural Language Processing (NLP) combines computational linguistics with machine learning to help computers understand human language. Early NLP systems were rule-based, but modern systems use statistical and neural approaches. Breakthrough applications include machine translation (Google Translate), voice assistants (Siri, Alexa), and text generation. The Transformer architecture, introduced in 2017, revolutionized NLP and led to models like GPT and BERT.";
     image_suggestion :=
       "Natural language processing text analysis" |}
].

Definition _get_software_company_facts : list fact := [
  {| title :=
       "🏢 Microsoft Corporation";
     description :=
       "Microsoft was founded by Bill Gates and Paul Allen in 1975, starting in a garage in Albuquerque, New Mexico. The company revolutionized personal computing with MS-DOS and Windows operating systems. Microsoft Office became the standard for productivity software. Under Satya Nadella's leadership since 2014, Microsoft has transformed into a cloud-first company with Azure becoming a major competitor to Amazon Web Services.";
     image_suggestion :=
       "Microsoft headquarters campus Redmond Washington" |};
  {| title :=
       "🍎 Apple Inc.";
     description :=
       "Apple was founded in 1976 by Steve Jobs, Steve Wozniak, and Ronald Wayne in Jobs' parents' garage. The company introduced the Apple II, one of the first successful personal computers. After Jobs returned in 1997, Apple launched revolutionary products: iMac, iPod, iPhone, and iPad. Apple became the world's most valuable company and changed multiple industries including computers, music, phones, and tablets.";
     image_suggestion :=
       "Apple Park headquarters Cupertino California" |};
  {| title :=
       "🔍 Google (Alphabet)";
     description :=
       "Google was founded in 1998 by Larry Page and Sergey Brin while they were PhD students at Stanford. Starting as a search engine, Google now dominates web search with over 90% market share. The company expanded into email (Gmail), mobile operating systems (Android), cloud computing, and artificial intelligence. Google's parent company Alphabet was created in 2015 to organize its various businesses.";
     image_suggestion :=
       "Google headquarters Mountain View California colorful" |}
].

Definition _get_computing_milestone_facts : list fact := [
  {| title :=
       "💾 The First Computer Bug";
     description :=
       "The term 'computer bug' originated in 1947 when Admiral Grace Hopper found an actual moth trapped in a Harvard Mark II computer, causing it to malfunction. She taped the moth in her logbook with the note 'First actual case of bug being found.' This incident popularized the terms 'bug' and 'debugging' in computing. Grace Hopper was also instrumental in developing the first compiler and the COBOL programming language.";
     image_suggestion :=
       "Grace Hopper computer bug moth logbook" |};
  {| title :=
       "🌐 The First Website";
     description :=
       "The world's first website was created by Tim Berners-Lee in 1991 at CERN. The site, info.cern.ch, explained what the World Wide Web was and how to use it. It contained information about hypertext, technical details, and how to create web pages. The site is still online today and represents the humble beginning of the web that now contains billions of pages.";
     image_suggestion :=
       "First website CERN Tim Berners-Lee 1991" |};
  {| title :=
       "📧 The First Email";
     description :=
       "The first email was sent by Ray Tomlinson in 1971 between two computers sitting side by side. He chose the @ symbol to separate the user name from the computer name, a convention still used today. The message was a test and likely said something like 'QWERTYUIOP.' This simple innovation revolutionized communication and laid the foundation for modern digital messaging.";
     image_suggestion :=
       "Ray Tomlinson first email 1971 computer terminal" |}
].

Definition max_recent : Z := 5.

(** [WikidataService()] *)
Definition init : M state unit := set_recent_facts [].

(** [_add_to_recent]: an empty title is not recorded; beyond [max_recent]
    entries the oldest one is popped. *)
Definition _add_to_recent (title : string) : M state unit :=
  if decide (title = "") then mret tt
  else
    s ← get;
    let recent := recent_facts s ++ [title] in
    if max_recent <? Py.len recent
    then set_recent_facts (tail recent)
    else set_recent_facts recent.

Definition all_facts : list fact :=
  _get_programming_language_facts ++ _get_computer_scientist_facts ++
  _get_ai_technology_facts ++ _get_software_company_facts ++
  _get_computing_milestone_facts.

Section Random.
Variable rng : nat -> nat.

(** The loop [for attempt in range(10)] of [get_fallback_it_ai_fact];
    [None] when it ends without returning. *)
Fixpoint draw_loop (attempts : nat) : M state (option fact) :=
  match attempts with
  | O => mret None
  | S attempts' =>
      fact ← choice rng all_facts;
      s ← get;
      if decide (title fact ∈ recent_facts s)
      then draw_loop attempts'
      else (_ ← _add_to_recent (title fact); mret (Some fact))
  end.

Definition get_fallback_it_ai_fact : M state fact :=
  found ← draw_loop 10;
  match found with
  | Some fact => mret fact
  | None => choice rng all_facts
  end.

Definition get_it_ai_fact : M state fact :=
  try_except get_fallback_it_ai_fact (fun _ => get_fallback_it_ai_fact).

End Random.
End WikidataService.

(** ** extinct_facts/facts_service.py *)

Module FactsService.
Import Extinct.

Section Random.
Variable rng : nat -> nat.

(** [FactsService()] creates its [WikidataService]. *)
Definition init : M state unit := WikidataService.init.

(** A fact dict has three keys and so is truthy: the [else] branch of
    [if fact_data] is never taken. *)
Definition get_extinct_fact : M state WikidataService.fact :=
  try_except
    (WikidataService.get_it_ai_fact rng)
    (fun _ => WikidataService.get_fallback_it_ai_fact rng).

End Random.
End FactsService.

(** ** extinct_facts/views.py *)

Module FactsViews.
Import Extinct.

(** A REST response: the JSON body and the HTTP status. *)
Record response (A : Type) := Response { body : A; status : Z }.
Arguments Response {A} body status.
Arguments body {A} r.
Arguments status {A} r.

Record news := {
  title : string;
  description : string;
  url : string
}.

Definition fallback_news : list news := [
  {| title :=
       "🚀 OpenAI Releases GPT-4 Turbo with Vision";
     description :=
       "OpenAI has announced GPT-4 Turbo, featuring improved performance, lower costs, and the ability to process images alongside text. The new model offers a 128K context window and represents a significant advancement in multimodal AI capabilities.";
     url :=
       "https://openai.com/blog/gpt-4-turbo" |};
  {| title :=
       "🤖 DeepSeek Releases Open-Source AI Models";
     description :=
       "DeepSeek has released a series of open-source AI models that rival GPT-4 performance while being freely available. Their DeepSeek-V2 model shows impressive capabilities in coding, mathematics, and reasoning tasks.";
     url :=
       "https://github.com/deepseek-ai" |};
  {| title :=
       "⚡ Python 3.12 Introduces New Features";
     description :=
       "Python 3.12 brings significant performance improvements, better error messages, and new syntax features. The release includes enhanced f-string capabilities, improved type hints, and up to 11% faster execution.";
     url :=
       "https://docs.python.org/3.12/whatsnew/3.12.html" |};
  {| title :=
       "🔧 JavaScript ES2024 Features Released";
     description :=
       "The latest ECMAScript 2024 specification introduces new array methods, improved regex support, and better async/await handling. Notable additions include Array.prototype.toSorted() and enhanced temporal API support.";
     url :=
       "https://tc39.es/ecma262/" |};
  {| title :=
       "🌟 GitHub Copilot Gets Major Updates";
     description :=
       "GitHub Copilot now features improved code suggestions, better context awareness, and support for more programming languages. The AI assistant can now understand larger codebases and provide more accurate suggestions.";
     url :=
       "https://github.blog/changelog/label/copilot/" |};
  {| title :=
       "🏛️ H1B Visa Processing Delays Impact Tech Hiring";
     description :=
       "Significant delays in H1B visa processing are affecting tech company hiring plans for 2024. Companies are reporting 6-12 month delays in visa approvals, forcing them to reconsider international hiring strategies and remote work arrangements.";
     url :=
       "https://www.uscis.gov/working-in-the-united-states/temporary-workers/h-1b-specialty-occupations" |};
  {| title :=
       "💼 Remote Work Tax Laws Create Compliance Challenges";
     description :=
       "New multi-state tax regulations are creating compliance challenges for IT professionals working remotely. Companies are implementing new payroll systems to handle complex tax obligations across different jurisdictions.";
     url :=
       "https://www.irs.gov/newsroom/faqs-for-individuals-working-remotely" |};
  {| title :=
       "⚖️ EU AI Act Implementation Affects Global Tech Companies";
     description :=
       "The European Union's AI Act implementation is forcing global tech companies to redesign their AI systems for compliance. The regulations include strict requirements for high-risk AI applications and transparency obligations.";
     url :=
       "https://digital-strategy.ec.europa.eu/en/policies/regulatory-framework-ai" |};
  {| title :=
       "🔒 Cybersecurity Regulations Tighten for Financial Tech";
     description :=
       "New cybersecurity regulations specifically targeting fintech companies require enhanced security measures and incident reporting. IT departments are implementing new security frameworks to meet compliance requirements.";
     url :=
       "https://www.cisa.gov/cybersecurity" |};
  {| title :=
       "🌐 Data Privacy Laws Expand Globally";
     description :=
       "New data privacy regulations similar to GDPR are being implemented worldwide, affecting how tech companies handle user data. IT teams are updating privacy policies, data handling procedures, and user consent mechanisms.";
     url :=
       "https://gdpr.eu/what-is-gdpr/" |}
].

Definition current_policy_news : list news := [
  {| title :=
       "🏛️ H1B Visa Fee Increases Impact Tech Workers";
     description :=
       "Recent policy changes have increased H1B visa application fees significantly, affecting thousands of IT professionals. The new fee structure includes higher base fees and additional charges for premium processing, impacting both employers and visa applicants in the tech industry.";
     url :=
       "https://www.uscis.gov/working-in-the-united-states/temporary-workers/h-1b-specialty-occupations" |};
  {| title :=
       "📋 New I-94 Digital Requirements for Tech Professionals";
     description :=
       "Updated I-94 digital entry requirements now affect how international tech workers track their legal status. The changes include new online verification systems and updated documentation requirements for maintaining legal work status in the US.";
     url :=
       "https://i94.cbp.dhs.gov/" |};
  {| title :=
       "💼 Remote Work Tax Implications for IT Workers";
     description :=
       "New tax regulations affect IT professionals working remotely across state lines. Recent IRS guidance clarifies tax obligations for remote workers, particularly impacting software developers and IT consultants working for companies in different states.";
     url :=
       "https://www.irs.gov/newsroom/faqs-for-individuals-working-remotely" |};
  {| title :=
       "🔒 GDPR Compliance Updates Affect IT Departments";
     description :=
       "Recent GDPR enforcement actions have resulted in significant fines for tech companies, highlighting the importance of data privacy compliance. IT departments are implementing new protocols to ensure compliance with evolving privacy regulations.";
     url :=
       "https://gdpr.eu/what-is-gdpr/" |};
  {| title :=
       "⚖️ AI Regulation Bills Impact Software Development";
     description :=
       "Proposed AI regulation legislation could significantly impact how software developers build and deploy AI systems. The bills include requirements for AI transparency, bias testing, and accountability measures that will affect development workflows.";
     url :=
       "https://www.congress.gov/search?q=artificial+intelligence" |};
  {| title :=
       "🌐 Net Neutrality Changes Affect Tech Infrastructure";
     description :=
       "Recent net neutrality policy changes impact how tech companies manage their infrastructure and content delivery. The changes affect bandwidth allocation, content prioritization, and infrastructure investment decisions for IT departments.";
     url :=
       "https://www.fcc.gov/restoring-internet-freedom" |};
  {| title :=
       "💳 Cryptocurrency Regulation Updates for Tech Companies";
     description :=
       "New cryptocurrency regulations affect tech companies involved in blockchain development, digital payments, and crypto-related services. The updates include compliance requirements for exchanges, wallet providers, and DeFi platforms.";
     url :=
       "https://www.sec.gov/spotlight/cybersecurity-enforcement-actions" |};
  {| title :=
       "🏢 Corporate Tax Changes Impact Tech Startups";
     description :=
       "Recent corporate tax policy changes specifically affect tech startups and software companies. The changes include modifications to R&D tax deductions, startup expense treatments, and international tax obligations for tech businesses.";
     url :=
       "https://www.irs.gov/businesses/small-businesses-self-employed/business-taxes" |}
].

(** The three live feeds, as their functions return them: an item, or
    [None] after a failure or when nothing qualifies. *)
Record world := {
  fetch_hacker_news : option news;
  fetch_github_trending : option news;
  fetch_dev_to_articles : option news
}.

(** [recent.append(title)], then [recent = recent[-k:]] when it has grown
    beyond [k] entries: how both views record a served title. *)
Definition record_served (k : nat) (recent : list string) (title : string)
  : list string :=
  let recent := recent ++ [title] in
  if Z.of_nat k <? Py.len recent then Py.last_n k recent else recent.

Section Random.
Variable rng : nat -> nat.

Definition max_attempts : Z := 10.

Definition error_fact : WikidataService.fact :=
  {| WikidataService.title := "Error";
     WikidataService.description :=
       "Sorry, we couldn't fetch an extinct fact right now. Please try again later.";
     WikidataService.image_suggestion := "Error icon" |}.

(** The loop [for attempt in range(max_attempts)] of [get_extinct_fact];
    [fact_data] is the variable the loop assigns, [None] while unbound.
    The service always returns a dict, so the [isinstance] branch is
    never taken. *)
Fixpoint attempt_loop (attempts : list Z) (recent_facts : list string)
    (fact_data : option WikidataService.fact)
  : M state (option WikidataService.fact) :=
  match attempts with
  | [] => mret fact_data
  | attempt :: rest =>
      fact_data ← FactsService.get_extinct_fact rng;
      let fact_title := WikidataService.title fact_data in
      if negb (bool_decide (fact_title ∈ recent_facts))
         || (attempt =? max_attempts - 1)
      then
        _ ← session_set "recent_facts" (record_served 5 recent_facts fact_title);
        mret (Some fact_data)
      else attempt_loop rest recent_facts (Some fact_data)
  end.

Definition get_extinct_fact : M state (response WikidataService.fact) :=
  try_except
    (_ ← FactsService.init;
     recent_facts ← session_get "recent_facts";
     fact_data ← attempt_loop (map Z.of_nat (seq 0 10)) recent_facts None;
     match fact_data with
     | Some fact_data => mret (Response fact_data 200)
     | None => raise NameError
     end)
    (fun _ => mret (Response error_fact 500)).

Definition fetch_it_policy_news : M state (option news) :=
  try_except
    (item ← choice rng current_policy_news; mret (Some item))
    (fun _ => mret None).

(** [news and news.get('title') not in recent_news]: a news dict has three
    keys and so is truthy. *)
Definition is_valid (recent_news : list string) (item : option news) : bool :=
  match item with
  | Some item => negb (bool_decide (title item ∈ recent_news))
  | None => false
  end.

Definition fetch_tech_news (w : world) (recent_news : list string)
  : M state (option news) :=
  try_except
    (policy ← fetch_it_policy_news;
     let sources := [fetch_hacker_news w; fetch_github_trending w;
                     fetch_dev_to_articles w; policy] in
     let valid_news := omap id (filter (is_valid recent_news) sources) in
     match valid_news with
     | [] => mret None
     | _ => item ← choice rng valid_news; mret (Some item)
     end)
    (fun _ => mret None).

Definition get_fallback_news (recent_news : list string)
  : M state (response news) :=
  let available_news :=
    filter (fun item => title item ∉ recent_news) fallback_news in
  available_news ←
    (match available_news with
     | [] => _ ← session_set "recent_news" []; mret fallback_news
     | _ => mret available_news
     end);
  selected_news ← choice rng available_news;
  recent_news ← session_get "recent_news";
  _ ← session_set "recent_news" (record_served 10 recent_news (title selected_news));
  mret (Response selected_news 200).

Definition get_latest_news (w : world) : M state (response news) :=
  try_except
    (recent_news ← session_get "recent_news";
     news_data ← fetch_tech_news w recent_news;
     match news_data with
     | Some news_data =>
         _ ← session_set "recent_news"
               (record_served 10 recent_news (title news_data));
         mret (Response news_data 200)
     | None => get_fallback_news recent_news
     end)
    (fun _ => get_fallback_news []).

End Random.
End FactsViews.

(** ** image_search: requests, responses and the outside world *)

Module Web.

(** A parsed JSON document; an object lists its members in document
    order. *)
#[local] Unset Elimination Schemes.
Inductive json :=
  | JNull
  | JBool (b : bool)
  | JNumber (n : Z)
  | JString (s : string)
  | JArray (items : list json)
  | JObject (members : list (string * json)).
#[local] Set Elimination Schemes.

(** A request, as far as the views read it: what [json.loads(request.body)]
    evaluates to.  It is the parsed document, or the exception raised:
    [JSONDecodeError] for a text that is not JSON, [UnicodeDecodeError] for
    bytes that are no UTF-8 text, or whatever reading the body raises. *)
Record request := { parsed : res json }.

Definition json_loads (r : request) : res json := parsed r.

(** The binding of [key] in an object; of two members with the same name
    the later one counts. *)
Fixpoint lookup_member (key : string) (members : list (string * json))
  : option json :=
  match members with
  | [] => None
  | (k, v) :: rest =>
      match lookup_member key rest with
      | Some v' => Some v'
      | None => if decide (k = key) then Some v else None
      end
  end.

(** [data.get('query', '').strip()]: only a dict has [get], only a [str]
    has [strip]. *)
Definition query_of (data : json) : res string :=
  match data with
  | JObject members =>
      match default (JString "") (lookup_member "query" members) with
      | JString s => Ret (Py.strip s)
      | _ => Raise AttributeError
      end
  | _ => Raise AttributeError
  end.

(** An image dict of the generators; [details] holds the keys that only
    [AIImageGenerator] sets. *)
Record details := {
  thumbnail : string;
  author : string;
  width : Z;
  height : Z
}.

Record image := {
  url : string;
  title : string;
  source : string;
  source_url : string;
  prompt : string;
  extra : option details
}.

Inductive body :=
  | Error (error : string)
  | Results (query : string) (total_results : Z) (images : list image).

Record response := Response { content : body; status : Z }.

Record get_response := { status_code : Z; payload : string }.

(** The library functions and the outside world the generators call:
    the salted [hash] of a [str]; [hashlib.md5(s.encode()).hexdigest()];
    URL quoting, which encodes its argument and so raises
    [UnicodeEncodeError] on a text that UTF-8 cannot encode (one with a
    lone surrogate, which a JSON escape can produce); the answer to a GET
    ([None]: the request raises); whether a path can be created or written;
    and [settings.BASE_DIR].  Every call of [md5_hexdigest] in the
    generators comes after a call of [quote] on a text with the same
    prompt has returned, so that its own [encode] cannot raise. *)
Record env := {
  hash : string -> Z;
  md5_hexdigest : string -> string;
  quote : string -> res string;
  http_get : string -> option get_response;
  writable : string -> bool;
  base_dir : string
}.

(** One event per request sent and per file-system call. *)
Inductive event :=
  | EvGet (url : string)
  | EvMakedirs (path : string)
  | EvWrite (path : string) (data : string).

Definition log := list event.

Definition requests_get (e : env) (url : string) : M log get_response :=
  fun l =>
    (match http_get e url with
     | Some r => Ret r
     | None => Raise RequestException
     end, l ++ [EvGet url]).

Definition makedirs (e : env) (path : string) : M log unit :=
  fun l => (if writable e path then Ret tt else Raise OSError,
            l ++ [EvMakedirs path]).

Definition write_file (e : env) (path data : string) : M log unit :=
  fun l => (if writable e path then Ret tt else Raise OSError,
            l ++ [EvWrite path data]).

(** [os.path.join] on relative components. *)
Definition path_join (a b : string) : string := a +:+ "/" +:+ b.

(** [range(n)] *)
Definition range (n : Z) : list Z := map Z.of_nat (seq 0 (Z.to_nat n)).

End Web.

(** ** image_search/views_new.py *)

Module ViewsNew.
Import Web.

Section Env.
Variable e : env.

(** The prompt of the [i]-th image. *)
Definition variation_prompt (prompt : string) (i : Z) : string :=
  prompt +:+ ", high quality, detailed, professional, masterpiece, variation "
         +:+ Py.str_of_Z (i + 1).

(** One round of the loop [for i in range(6)]: download and save the
    [i]-th variation; a failure of the download or of the file system
    leaves [images] as it is.  The URL is built before the inner [try]. *)
Definition generate_one (prompt : string) (i : Z) (images : list image)
  : M log (list image) :=
  let variation_prompt := variation_prompt prompt i in
  let seed := hash e (prompt +:+ "_" +:+ Py.str_of_Z i) mod 1000000 in
  quoted ← lift (quote e variation_prompt);
  let pollinations_url :=
    "https://image.pollinations.ai/prompt/" +:+ quoted
      +:+ "?seed=" +:+ Py.str_of_Z seed +:+ "&width=512&height=512" in
  try_except
    (image_response ← requests_get e pollinations_url;
     if status_code image_response =? 200 then
       let filename_hash :=
         md5_hexdigest e (prompt +:+ "_" +:+ Py.str_of_Z i +:+ "_"
                                 +:+ Py.str_of_Z seed) in
       let filename := "pollinations_" +:+ filename_hash +:+ ".jpg" in
       let static_dir :=
         path_join (path_join (base_dir e) "static") "generated_images" in
       _ ← makedirs e static_dir;
       let filepath := path_join static_dir filename in
       _ ← write_file e filepath (payload image_response);
       mret (images ++
               [{| url := "/static/generated_images/" +:+ filename;
                   title := "AI Generated: " +:+ prompt;
                   source := "Pollinations.ai (Stable Diffusion)";
                   source_url := pollinations_url;
                   prompt := variation_prompt;
                   extra := None |}])
     else mret images)
    (fun _ => mret images).

Fixpoint generate_loop (prompt : string) (indices : list Z)
    (images : list image) : M log (list image) :=
  match indices with
  | [] => mret images
  | i :: rest =>
      images ← generate_one prompt i images;
      generate_loop prompt rest images
  end.

Definition search_images (r : request) : M log response :=
  try_except
    (data ← lift (json_loads r);
     prompt ← lift (query_of data);
     if decide (prompt = "") then
       mret (Response (Error "Please provide a prompt for image generation") 400)
     else
       images ← generate_loop prompt (range 6) [];
       match images with
       | [] =>
           mret (Response
                   (Error "Failed to generate any images. Please try again.") 500)
       | _ => mret (Response (Results prompt (Py.len images) images) 200)
       end)
    (fun ex =>
       match ex with
       | JSONDecodeError =>
           mret (Response (Error "Invalid JSON in request body") 400)
       | _ =>
           mret (Response
                   (Error "An unexpected error occurred. Please try again.") 500)
       end).

End Env.
End ViewsNew.

(** ** image_search/ai_image_generator.py *)

Module AIImageGenerator.
Import Web.

Section Env.
Variable e : env.

Definition images_dir : string := path_join "static" "generated_images".

(** [AIImageGenerator()] creates the directory of generated images. *)
Definition init : M log unit := makedirs e images_dir.

Definition enhance_prompt (prompt : string) : string :=
  let quality_terms := "high quality, detailed, professional, masterpiece" in
  let enhanced := prompt +:+ ", " +:+ quality_terms in
  let enhanced := Py.remove "explicit" (Py.remove "NSFW" enhanced) in
  Py.strip enhanced.

(** The inner [try] of both generator loops, once the request URL, the
    file name and the dict to append are known: download, save, append; a
    failure leaves [images] as it is.  The URL is built, and the prompt
    quoted, before the inner [try]: an exception of [quote] ends the loop
    and reaches the [except] of the method. *)
Definition fetch_and_save (url image_filename : string) (item : image)
    (images : list image) : M log (list image) :=
  try_except
    (response ← requests_get e url;
     if status_code response =? 200 then
       let image_path := path_join images_dir image_filename in
       _ ← write_file e image_path (payload response);
       mret (images ++ [item])
     else mret images)
    (fun _ => mret images).

(** The prompt of the [i]-th image of [generate_with_pollinations]. *)
Definition varied_prompt (enhanced_prompt : string) (i : Z) : string :=
  enhanced_prompt +:+ ", variation " +:+ Py.str_of_Z (i + 1)
                  +:+ ", high quality, detailed".

Definition pollinations_one (prompt enhanced_prompt : string) (i : Z)
    (images : list image) : M log (list image) :=
  let varied_prompt := varied_prompt enhanced_prompt i in
  let seed := Z.abs (hash e (prompt +:+ "_" +:+ Py.str_of_Z i)) mod 1000000 in
  quoted ← lift (quote e varied_prompt);
  let url :=
    "https://image.pollinations.ai/prompt/" +:+ quoted
      +:+ "?seed=" +:+ Py.str_of_Z seed +:+ "&width=512&height=512" in
  let image_filename :=
    "pollinations_" +:+ md5_hexdigest e (prompt +:+ "_" +:+ Py.str_of_Z i)
                    +:+ ".jpg" in
  fetch_and_save url image_filename
    {| Web.url := "/static/generated_images/" +:+ image_filename;
       title := "AI Generated: " +:+ prompt;
       source := "Pollinations.ai (Stable Diffusion)";
       source_url := url;
       Web.prompt := varied_prompt;
       extra := Some {| thumbnail := "/static/generated_images/" +:+ image_filename;
                        author := "AI Generated";
                        width := 512; height := 512 |} |}
    images.

Fixpoint pollinations_loop (prompt enhanced_prompt : string)
    (indices : list Z) (images : list image) : M log (list image) :=
  match indices with
  | [] => mret images
  | i :: rest =>
      images ← pollinations_one prompt enhanced_prompt i images;
      pollinations_loop prompt enhanced_prompt rest images
  end.

Definition generate_with_pollinations (prompt : string) (num_images : Z)
  : M log (list image) :=
  try_except
    (pollinations_loop prompt (enhance_prompt prompt) (range num_images) [])
    (fun _ => mret []).

(** The artistic styles, each with [style.split(',')[0]]. *)
Definition styles : list (string * string) :=
  [("photorealistic, high detail, 4k", "photorealistic");
   ("digital art, vibrant colors, artistic", "digital art");
   ("oil painting style, classical art", "oil painting style");
   ("watercolor painting, soft colors", "watercolor painting");
   ("pencil sketch, black and white", "pencil sketch");
   ("anime style, manga art", "anime style")].

(** The prompt of a variation in the given style. *)
Definition styled_prompt (prompt style : string) : string :=
  prompt +:+ ", " +:+ style.

Definition variation_one (prompt : string) (i : Z) (images : list image)
  : M log (list image) :=
  match styles !! Z.to_nat (i mod Py.len styles) with
  | None => raise IndexError
  | Some (style, style_name) =>
      let styled_prompt := styled_prompt prompt style in
      let seed :=
        Z.abs (hash e (styled_prompt +:+ "_" +:+ Py.str_of_Z i)) mod 1000000 in
      quoted ← lift (quote e styled_prompt);
      let url :=
        "https://image.pollinations.ai/prompt/" +:+ quoted
          +:+ "?seed=" +:+ Py.str_of_Z seed +:+ "&width=512&height=512" in
      let image_filename :=
        "variation_"
          +:+ md5_hexdigest e (styled_prompt +:+ "_" +:+ Py.str_of_Z i)
          +:+ ".jpg" in
      fetch_and_save url image_filename
        {| Web.url := "/static/generated_images/" +:+ image_filename;
           title := "AI Generated: " +:+ prompt +:+ " (" +:+ style_name +:+ ")";
           source := "AI Variation Generator";
           source_url := url;
           Web.prompt := styled_prompt;
           extra := Some {| thumbnail :=
                              "/static/generated_images/" +:+ image_filename;
                            author := "AI Generated";
                            width := 512; height := 512 |} |}
        images
  end.

Fixpoint variations_loop (prompt : string) (indices : list Z)
    (images : list image) : M log (list image) :=
  match indices with
  | [] => mret images
  | i :: rest =>
      images ← variation_one prompt i images;
      variations_loop prompt rest images
  end.

Definition generate_variations (prompt : string) (num_images : Z)
  : M log (list image) :=
  try_except
    (variations_loop prompt (range num_images) [])
    (fun _ => mret []).

Definition generate_images (prompt : string) (num_images : Z)
  : M log (list image) :=
  pollinations_images ← generate_with_pollinations prompt num_images;
  let generated_images := pollinations_images in
  generated_images ←
    (if Py.len generated_images <? num_images then
       let remaining := num_images - Py.len generated_images in
       variation_images ← generate_variations prompt remaining;
       mret (generated_images ++ variation_images)
     else mret generated_images);
  mret (take (Z.to_nat num_images) generated_images).

End Env.
End AIImageGenerator.

(** ** image_search/views_backup.py *)

Module ViewsBackup.
Import Web.

Section Env.
Variable e : env.

Definition search_images (r : request) : M log response :=
  try_except
    (data ← lift (json_loads r);
     prompt ← lift (query_of data);
     if decide (prompt = "") then
       mret (Response (Error "Prompt parameter is required") 400)
     else
       _ ← AIImageGenerator.init e;
       images ← AIImageGenerator.generate_images e prompt 6;
       mret (Response (Results prompt (Py.len images) images) 200))
    (fun _ =>
       mret (Response (Error "Failed to generate images. Please try again.") 500)).

End Env.
End ViewsBackup.

(** ** Auxiliary definitions for the proofs *)

Module Aux.

(** What the loop of [remove_duplicates] appends to [unique_images] when
    every image has a URL: the images whose URL is neither in [seen] nor
    carried by an earlier image. *)
Fixpoint kept (seen : gset Py.val) (images : list ImageService.image)
  : list ImageService.image :=
  match images with
  | [] => []
  | image :: rest =>
      match ImageService.url image with
      | Some u =>
          if decide (u ∈ seen) then kept seen rest
          else image :: kept ({[u]} ∪ seen) rest
      | None => []
      end
  end.

Definition has_url (image : ImageService.image) : Prop :=
  is_Some (ImageService.url image).

(** The first image of a list with a given URL. *)
Definition first_with (u : Py.val) (images : list ImageService.image)
  : option ImageService.image :=
  snd <$> list_find (fun image => ImageService.url image = Some u) images.

(** The verdict of [validate_image] on an image whose URL is [u], as one
    boolean expression: reachable with status 200, an image content type,
    not too small, and relevant to the query. *)
Definition verdict (c : Py.casing) (w : ImageService.world)
    (image : ImageService.image) (query : string) (u : Py.val) : bool :=
  match u with
  | Py.PyNone => false
  | Py.PyStr s =>
      match ImageService.head w s with
      | None => false
      | Some r =>
          (ImageService.status_code r =? 200)
          && existsb (fun img_type =>
                        Py.contains img_type
                          (Py.lower c
                             (default "" (ImageService.content_type r))))
                     ImageService.image_types
          && match ImageService.content_length r with
             | ImageService.LengthFalsy => true
             | ImageService.LengthInt n => negb (n <? 5000)
             | ImageService.LengthBad => false
             end
          && match ImageService.get_title image with
             | Py.PyStr t =>
                 ImageService.relevant (Py.split (Py.lower c query))
                                       (Py.lower c t)
             | Py.PyNone => false
             end
      end
  end.

(** The query names one of the topics [get_curated_images] has images
    for. *)
Definition has_curated_topic (c : Py.casing) (query : string) : bool :=
  ImageService.any_in
    (ImageService.nature_words ++ ImageService.technology_words
       ++ ImageService.landscape_words)
    (Py.lower c query).

(** The consumer's novelty window stored under [key]. *)
Definition window (key : string) (s : Extinct.state) : list string :=
  default [] (Extinct.session s !! key).

(** The state after one number of the random stream has been drawn. *)
Definition drawn (s : Extinct.state) : Extinct.state :=
  {| Extinct.draws := S (Extinct.draws s);
     Extinct.recent_facts := Extinct.recent_facts s;
     Extinct.session := Extinct.session s |}.

(** The state with [value] stored under [key] in the session. *)
Definition stored (key : string) (value : list string) (s : Extinct.state)
  : Extinct.state :=
  {| Extinct.draws := Extinct.draws s;
     Extinct.recent_facts := Extinct.recent_facts s;
     Extinct.session := <[key := value]> (Extinct.session s) |}.

(** The state in which the request's service instance has just been
    created. *)
Definition fresh_service (s : Extinct.state) : Extinct.state :=
  {| Extinct.draws := Extinct.draws s;
     Extinct.recent_facts := [];
     Extinct.session := Extinct.session s |}.

(** The facts that [n] successive calls of [FactsService.get_extinct_fact]
    return from state [s], and the state they leave. *)
Fixpoint service_draws (rng : nat -> nat) (n : nat) (s : Extinct.state)
  : list WikidataService.fact * Extinct.state :=
  match n with
  | O => ([], s)
  | S n' =>
      match FactsService.get_extinct_fact rng s with
      | (Ret fact, s1) =>
          let (facts, s2) := service_draws rng n' s1 in (fact :: facts, s2)
      | (Raise _, s1) => ([], s1)
      end
  end.

(** The titles served by [n] successive requests of the view
    [get_extinct_fact] by one consumer, and the state they leave. *)
Fixpoint facts_run (rng : nat -> nat) (n : nat) (s : Extinct.state)
  : list string * Extinct.state :=
  match n with
  | O => ([], s)
  | S n' =>
      match FactsViews.get_extinct_fact rng s with
      | (Ret r, s1) =>
          let (titles, s2) := facts_run rng n' s1 in
          (WikidataService.title (FactsViews.body r) :: titles, s2)
      | (Raise _, s1) => ([], s1)
      end
  end.

End Aux.

(** ** Sample inputs *)

Module Samples.

Definition duplicated : list ImageService.image :=
  ImageService.search_pixabay Py.ascii_casing "owl"
    ++ ImageService.search_pexels Py.ascii_casing "owl"
    ++ ImageService.search_pixabay Py.ascii_casing "owl".

Definition photo (link title : string) : ImageService.image :=
  {| ImageService.url := Some (Py.PyStr link);
     ImageService.thumbnail := link;
     ImageService.title := Some (Py.PyStr title);
     ImageService.source := "Unsplash";
     ImageService.source_url := link;
     ImageService.author := "A. Photographer";
     ImageService.width := 800;
     ImageService.height := 600 |}.

(** A network on which every HEAD request is answered with a large JPEG
    and the three fetched providers find nothing. *)
Definition jpeg_world : ImageService.world :=
  {| ImageService.head := fun _ =>
       Some {| ImageService.status_code := 200;
               ImageService.content_type := Some "image/jpeg";
               ImageService.content_length := ImageService.LengthInt 250000 |};
     ImageService.search_unsplash := fun _ => [];
     ImageService.search_reddit := fun _ => [];
     ImageService.search_wikimedia := fun _ => [] |}.

(** A network on which every request fails. *)
Definition dead_world : ImageService.world :=
  {| ImageService.head := fun _ => None;
     ImageService.search_unsplash := fun _ => [];
     ImageService.search_reddit := fun _ => [];
     ImageService.search_wikimedia := fun _ => [] |}.

(** A random stream that yields 0, 1, 2, ... *)
Definition counting : nat -> nat := fun n => n.

(** A random stream that always yields 0. *)
Definition zeros : nat -> nat := fun _ => 0%nat.

(** A random stream that yields 0 ten times and 1 from then on. *)
Definition ten_zeros : nat -> nat := fun n => if (n <? 10)%nat then 0%nat else 1%nat.

Definition python_title : string := "💻 Python Programming Language".

(** A consumer who has just been served the Python fact. *)
Definition served_python : Extinct.state :=
  {| Extinct.draws := 0;
     Extinct.recent_facts := [];
     Extinct.session := {[ "recent_facts" := [python_title] ]} |}.

(** A service instance that has just returned the Python fact. *)
Definition returned_python : Extinct.state :=
  {| Extinct.draws := 0;
     Extinct.recent_facts := [python_title];
     Extinct.session := ∅ |}.

(** A consumer whose news window holds the title of every curated
    fallback item. *)
Definition saturated_news : Extinct.state :=
  {| Extinct.draws := 0;
     Extinct.recent_facts := [];
     Extinct.session :=
       {[ "recent_news" := FactsViews.title <$> FactsViews.fallback_news ]} |}.

(** A network on which the three live feeds fail. *)
Definition no_feeds : FactsViews.world :=
  {| FactsViews.fetch_hacker_news := None;
     FactsViews.fetch_github_trending := None;
     FactsViews.fetch_dev_to_articles := None |}.

(** A consumer whose news window holds every title the policy feed and
    the curated fallback list can yield. *)
Definition seen_all_news : Extinct.state :=
  {| Extinct.draws := 0;
     Extinct.recent_facts := [];
     Extinct.session :=
       {[ "recent_news" :=
            FactsViews.title
              <$> (FactsViews.current_policy_news ++ FactsViews.fallback_news) ]} |}.

(** An outside world in which every download and every write succeeds. *)
Definition generous : Web.env :=
  {| Web.hash := fun s => Z.of_nat (String.length s) * 7919;
     Web.md5_hexdigest := fun s => s;
     Web.quote := fun s => Ret s;
     Web.http_get := fun _ =>
       Some {| Web.status_code := 200; Web.payload := "JFIF" |};
     Web.writable := fun _ => true;
     Web.base_dir := "/srv/dododata" |}.

(** A query of white space only: a space, a tab, a no-break space
    (U+00A0), an em space (U+2003) and an ideographic space (U+3000). *)
Definition blank : string :=
  Py.of_bytes [32; 9; 194; 160; 226; 128; 131; 227; 128; 128]%nat.

(** The prompt "owl" followed by the lone surrogate U+D800, which a JSON
    escape can produce and UTF-8 cannot encode. *)
Definition lone_surrogate : string :=
  Py.of_bytes [111; 119; 108; 237; 160; 128]%nat.

Definition post (query : string) : Web.request :=
  {| Web.parsed := Ret (Web.JObject [("query", Web.JString query)]) |}.

End Samples.

(** ** Closed forms used by the further properties *)

Module Closed.

(** The verdict of [validate_image] on an image dict, [false] when it has
    no URL to probe. *)
Definition accepts (c : Py.casing) (w : ImageService.world) (query : string)
    (image : ImageService.image) : bool :=
  match ImageService.url image with
  | Some u => Aux.verdict c w image query u
  | None => false
  end.

#[global] Instance res_eq_dec {A} `{EqDecision A} : EqDecision (res A).
Proof. solve_decision. Defined.

(** [validate_image] returns [True] for the image. *)
Definition accepted (c : Py.casing) (w : ImageService.world) (query : string)
    (image : ImageService.image) : Prop :=
  (ImageService.validate_image c w image query []).1 = Ret true.

#[global] Instance accepted_dec c w query image :
  Decision (accepted c w query image).
Proof. unfold accepted. apply _. Defined.

(** The URLs of a list of images, in order. *)
Definition urls (images : list ImageService.image) : list Py.val :=
  omap ImageService.url images.

(** How many accepted images the validation loop of [search_images] still
    takes when it holds [validated] ones: it tests the bound only after an
    append, so it takes at least one. *)
Definition needed (max_results : Z) (validated : list ImageService.image)
  : nat :=
  Z.to_nat (Z.max 1 (max_results - Py.len validated)).

(** The result of [search_images] in terms of the deduplicated candidates
    [unique]: the first accepted candidates, then, when these are fewer
    than five, curated images up to [max_results]. *)
Definition selection (c : Py.casing) (w : ImageService.world)
    (query : string) (max_results : Z) (unique : list ImageService.image)
  : list ImageService.image :=
  let validated :=
    take (needed max_results []) (filter (accepts c w query) unique) in
  if Py.len validated <? 5
  then validated
         ++ take (Z.to_nat max_results - length validated)
                 (ImageService.get_curated_images c query)
  else validated.

(** Three providers' results: a fox photo, nothing, and the same URL
    again with a second photo. *)
Definition fox_sources : list (list ImageService.image) :=
  [[Samples.photo "https://images.example.org/fox.jpg" "Red fox at dawn"];
   [];
   [Samples.photo "https://images.example.org/fox.jpg" "Fox (duplicate)";
    Samples.photo "https://images.example.org/cub.jpg" "Fox cub";
    Samples.photo "https://images.example.org/owl.jpg" "Barn owl"]].

(** A provider result with a dict that has no ['url'] key. *)
Definition broken_sources : list (list ImageService.image) :=
  [[Samples.photo "https://images.example.org/fox.jpg" "Red fox at dawn"];
   [{| ImageService.url := None;
       ImageService.thumbnail := "";
       ImageService.title := Some (Py.PyStr "Fox without a link");
       ImageService.source := "Reddit r/pics";
       ImageService.source_url := "https://reddit.com";
       ImageService.author := "Reddit User";
       ImageService.width := 800;
       ImageService.height := 600 |}]].

(** The titles served by successive calls of [get_latest_news], one per
    network state in [worlds], and the state they leave. *)
Fixpoint latest_news_run (rng : nat -> nat) (worlds : list FactsViews.world)
    (s : Extinct.state) : list string * Extinct.state :=
  match worlds with
  | [] => ([], s)
  | w :: rest =>
      match FactsViews.get_latest_news rng w s with
      | (Ret r, s1) =>
          let (titles, s2) := latest_news_run rng rest s1 in
          (FactsViews.title (FactsViews.body r) :: titles, s2)
      | (Raise _, s1) => ([], s1)
      end
  end.

Definition is_get (ev : Web.event) : bool :=
  match ev with Web.EvGet _ => true | _ => false end.

(** The number of downloads recorded in an event log. *)
Definition count_gets (l : list Web.event) : nat :=
  length (filter is_get l).

(** An outside world in which every download fails. *)
Definition offline : Web.env :=
  {| Web.hash := fun s => Z.of_nat (String.length s) * 7919;
     Web.md5_hexdigest := fun s => s;
     Web.quote := fun s => Ret s;
     Web.http_get := fun _ => None;
     Web.writable := fun _ => true;
     Web.base_dir := "/srv/dododata" |}.

(** The text holds a surrogate code point (U+D800 to U+DFFF): the byte
    237 followed by a byte from 160 on. *)
Fixpoint has_surrogate (s : string) : bool :=
  match s with
  | String a ((String b _) as rest) =>
      ((Py.code a =? 237)%nat && (160 <=? Py.code b)%nat) || has_surrogate rest
  | _ => false
  end.

(** An outside world in which every download and every write succeeds and
    [quote], as the library's, refuses a text with a surrogate. *)
Definition strict : Web.env :=
  {| Web.hash := fun s => Z.of_nat (String.length s) * 7919;
     Web.md5_hexdigest := fun s => s;
     Web.quote := fun s =>
       if has_surrogate s then Raise UnicodeEncodeError else Ret s;
     Web.http_get := fun _ =>
       Some {| Web.status_code := 200; Web.payload := "JFIF" |};
     Web.writable := fun _ => true;
     Web.base_dir := "/srv/dododata" |}.

(** The value a computation returned, [d] if it raised. *)
Definition returned {A} (d : A) (r : res A) : A :=
  match r with Ret a => a | Raise _ => d end.

(** A consumer with an empty session. *)
Definition newcomer : Extinct.state :=
  {| Extinct.draws := 0;
     Extinct.recent_facts := [];
     Extinct.session := ∅ |}.

End Closed.

(** * Properties *)

(** ** The monads *)

Lemma res_bind_ret {A B} (a : A) (f : A -> res B) : (Ret a ≫= f) = f a.
Proof. reflexivity. Qed.

Lemma res_bind_raise {A B} (e : exn) (f : A -> res B) :
  (Raise e ≫= f) = Raise e.
Proof. reflexivity. Qed.

(** Unfold the operations of [M] and [res] and reduce the matches on
    constructors that appear, without unfolding the program's functions. *)
Ltac run :=
  unfold try_except, mbind, M_bind, res_bind, mret, M_ret, res_ret, lift,
    raise, get, put in *;
  cbv beta iota.

(** ** Deduplication *)

Section RemoveDuplicates.
Import ImageService Aux.

Implicit Types (images unique : list image) (seen : gset Py.val).

Lemma not_elem_of_add seen (u v : Py.val) :
  u ∉ {[v]} ∪ seen ↔ u ≠ v ∧ u ∉ seen.
Proof. rewrite elem_of_union, elem_of_singleton. tauto. Qed.

Lemma loop_kept images : ∀ seen unique,
  Forall has_url images →
  remove_duplicates_loop images seen unique = Ret (unique ++ kept seen images).
Proof.
  induction images as [|image rest IH]; intros seen unique Hall; simpl.
  - by rewrite app_nil_r.
  - apply Forall_cons in Hall as [[u Hu] Hrest].
    unfold getitem_url. rewrite Hu. simpl.
    destruct (decide (u ∈ seen)).
    + by apply IH.
    + rewrite IH by done. by rewrite <- app_assoc.
Qed.

Lemma loop_raises images : ∀ seen unique,
  ¬ Forall has_url images →
  remove_duplicates_loop images seen unique = Raise KeyError.
Proof.
  induction images as [|image rest IH]; intros seen unique Hnot; simpl.
  - destruct Hnot. constructor.
  - unfold getitem_url. destruct (url image) as [u|] eqn:Hu; [|done].
    rewrite res_bind_ret.
    assert (¬ Forall has_url rest).
    { intros H. apply Hnot. constructor; [by exists u | done]. }
    destruct (decide (u ∈ seen)); by apply IH.
Qed.

Lemma kept_sublist images : ∀ seen, kept seen images `sublist_of` images.
Proof.
  induction images as [|image rest IH]; intros seen; simpl; [done|].
  destruct (url image) as [u|]; [|apply sublist_nil_l].
  destruct (decide (u ∈ seen)).
  - by apply sublist_cons.
  - by apply sublist_skip.
Qed.

Lemma kept_fresh images : ∀ seen image u,
  image ∈ kept seen images → url image = Some u → u ∉ seen.
Proof.
  induction images as [|x rest IH]; intros seen image u; simpl.
  - by intros ?%elem_of_nil.
  - destruct (url x) as [v|] eqn:Hv; [|by intros ?%elem_of_nil].
    destruct (decide (v ∈ seen)).
    + apply IH.
    + intros [->|Hin]%elem_of_cons Hu.
      * congruence.
      * specialize (IH _ _ _ Hin Hu). by apply not_elem_of_add in IH as [_ ?].
Qed.

Lemma kept_NoDup images : ∀ seen, NoDup (url <$> kept seen images).
Proof.
  induction images as [|x rest IH]; intros seen; simpl; [constructor|].
  destruct (url x) as [v|] eqn:Hv; [|constructor].
  destruct (decide (v ∈ seen)); [apply IH|].
  rewrite fmap_cons. constructor; [|apply IH].
  rewrite Hv. intros (y & Hy & Hin)%list_elem_of_fmap.
  symmetry in Hy. pose proof (kept_fresh _ _ _ _ Hin Hy) as Hf.
  by apply not_elem_of_add in Hf as [? _].
Qed.

Lemma first_with_cons u x images :
  first_with u (x :: images) =
  if decide (url x = Some u) then Some x else first_with u images.
Proof.
  unfold first_with. simpl. destruct (decide (url x = Some u)); [done|].
  by destruct (list_find _ images) as [[]|].
Qed.

Lemma first_with_nil u : first_with u [] = None.
Proof. done. Qed.

Lemma kept_first_seen images : ∀ seen u,
  u ∈ seen → first_with u (kept seen images) = None.
Proof.
  induction images as [|x rest IH]; intros seen u Hu; simpl; [done|].
  destruct (url x) as [v|] eqn:Hv; [|done].
  destruct (decide (v ∈ seen)); [by apply IH|].
  rewrite first_with_cons, Hv.
  destruct (decide (Some v = Some u)) as [[= ->]|]; [done|].
  apply IH. apply elem_of_union. by right.
Qed.

Lemma kept_first images : ∀ seen u,
  Forall has_url images → u ∉ seen →
  first_with u (kept seen images) = first_with u images.
Proof.
  induction images as [|x rest IH]; intros seen u Hall Hu; simpl; [done|].
  apply Forall_cons in Hall as [[v Hv] Hrest]. rewrite Hv.
  destruct (decide (v ∈ seen)) as [Hin|Hnin].
  - rewrite (first_with_cons u x), Hv.
    destruct (decide (Some v = Some u)) as [[= ->]|]; [done|].
    by apply IH.
  - rewrite !first_with_cons, Hv.
    destruct (decide (Some v = Some u)) as [|Hne]; [done|].
    apply IH; [done|]. apply not_elem_of_add. split; [congruence|done].
Qed.

Lemma kept_length images : ∀ seen, (length (kept seen images) ≤ length images)%nat.
Proof. intros seen. apply sublist_length, kept_sublist. Qed.

Lemma kept_all images : ∀ seen,
  Forall has_url images →
  length (kept seen images) = length images →
  NoDup (url <$> images) ∧
  ∀ x u, x ∈ images → url x = Some u → u ∉ seen.
Proof.
  induction images as [|x rest IH]; intros seen Hall Hlen; simpl in *.
  - split; [constructor|]. by intros ?? ?%elem_of_nil.
  - apply Forall_cons in Hall as [[v Hv] Hrest]. rewrite Hv in Hlen.
    destruct (decide (v ∈ seen)) as [Hin|Hnin].
    + pose proof (kept_length rest seen). lia.
    + simpl in Hlen. assert (length (kept ({[v]} ∪ seen) rest) = length rest)
        as Hlen' by lia.
      destruct (IH _ Hrest Hlen') as [Hnodup Hfresh]. split.
      * constructor; [|done].
        rewrite Hv. intros (y & Hy & Hy')%list_elem_of_fmap.
        symmetry in Hy. specialize (Hfresh _ _ Hy' Hy).
        by apply not_elem_of_add in Hfresh as [? _].
      * intros y u [->|Hy]%elem_of_cons Hu.
        -- congruence.
        -- specialize (Hfresh _ _ Hy Hu).
           by apply not_elem_of_add in Hfresh as [_ ?].
Qed.

Lemma kept_id images : ∀ seen,
  Forall has_url images →
  NoDup (url <$> images) →
  (∀ x u, x ∈ images → url x = Some u → u ∉ seen) →
  kept seen images = images.
Proof.
  induction images as [|x rest IH]; intros seen Hall Hnodup Hfresh; simpl;
    [done|].
  apply Forall_cons in Hall as [[v Hv] Hrest]. rewrite Hv.
  rewrite fmap_cons in Hnodup. apply NoDup_cons in Hnodup as [Hx Hnodup].
  destruct (decide (v ∈ seen)) as [Hin|Hnin].
  - exfalso. eapply Hfresh; [apply elem_of_cons; by left | done | done].
  - f_equal. apply IH; [done..|].
    intros y u Hy Hu. apply not_elem_of_add. split.
    + intros ->. apply Hx. rewrite Hv, <- Hu. by apply list_elem_of_fmap_2.
    + eapply Hfresh; [apply elem_of_cons; by right | done].
Qed.

Lemma kept_has_url images seen :
  Forall has_url images → Forall has_url (kept seen images).
Proof.
  intros Hall. apply Forall_forall. intros x Hx.
  eapply (proj1 (Forall_forall _ _) Hall), elem_of_sublist;
    [done | apply kept_sublist].
Qed.

Lemma remove_duplicates_kept images :
  Forall has_url images → remove_duplicates images = Ret (kept ∅ images).
Proof. intros Hall. unfold remove_duplicates. by rewrite loop_kept. Qed.

(** C5.  On a list in which every image has a URL, [remove_duplicates]
    returns a list that (1) is a subsequence of the input, so the kept
    images keep their relative order, (2) carries every URL at most once,
    (3) for every URL holds the very image that comes first with that URL in
    the input (and none when the input has none), and (4) is strictly
    shorter than the input as soon as the input repeats a URL, while an
    input without a repeated URL is returned unchanged. *)
Theorem remove_duplicates_keeps_first_occurrences images :
  Forall has_url images →
  ∃ unique,
    remove_duplicates images = Ret unique ∧
    unique `sublist_of` images ∧
    NoDup (url <$> unique) ∧
    (∀ u, first_with u unique = first_with u images) ∧
    (¬ NoDup (url <$> images) → (length unique < length images)%nat) ∧
    (NoDup (url <$> images) → unique = images).
Proof.
  intros Hall. exists (kept ∅ images).
  split; [by apply remove_duplicates_kept|].
  split; [apply kept_sublist|].
  split; [apply kept_NoDup|].
  split; [intros u; apply kept_first; [done | apply not_elem_of_empty]|].
  split.
  - intros Hdup. pose proof (kept_length images ∅) as Hle.
    destruct (decide (length (kept ∅ images) = length images)) as [Heq|];
      [|lia].
    destruct Hdup. by apply (kept_all images ∅).
  - intros Hnodup. apply kept_id; [done..|].
    intros ????. apply not_elem_of_empty.
Qed.

(** C6.  [remove_duplicates] is idempotent: running it on its own result
    gives that result again; when the first run raises [KeyError], so does
    the composition. *)
Theorem remove_duplicates_idempotent images :
  (remove_duplicates images ≫= remove_duplicates) = remove_duplicates images.
Proof.
  destruct (decide (Forall has_url images)) as [Hall|Hnot].
  - rewrite remove_duplicates_kept by done. simpl.
    rewrite remove_duplicates_kept by by apply kept_has_url.
    f_equal. apply kept_id.
    + by apply kept_has_url.
    + apply kept_NoDup.
    + intros ????. apply not_elem_of_empty.
  - unfold remove_duplicates. by rewrite loop_raises.
Qed.

End RemoveDuplicates.

Lemma remove_duplicates_keeps_first_occurrences_witness :
  ∃ unique,
    ImageService.remove_duplicates Samples.duplicated = Ret unique ∧
    unique `sublist_of` Samples.duplicated ∧
    NoDup (ImageService.url <$> unique) ∧
    (∀ u, Aux.first_with u unique = Aux.first_with u Samples.duplicated) ∧
    (¬ NoDup (ImageService.url <$> Samples.duplicated) →
     (length unique < length Samples.duplicated)%nat) ∧
    (NoDup (ImageService.url <$> Samples.duplicated) →
     unique = Samples.duplicated).
Proof.
  apply (remove_duplicates_keeps_first_occurrences Samples.duplicated).
  repeat constructor; eexists; reflexivity.
Defined.


(** ** Validation *)

Section Validation.
Import ImageService Aux.
Variable c : Py.casing.

(** [validate_image] in closed form: without a ['url'] key the handler's
    own message raises [KeyError] and nothing is probed; otherwise the URL
    is probed once and the verdict is [verdict]. *)
Lemma validate_image_eq w image query l :
  validate_image c w image query l =
  match url image with
  | Some u => (Ret (verdict c w image query u), l ++ [EvHead u])
  | None => (Raise KeyError, l)
  end.
Proof.
  unfold validate_image, verdict, getitem_url, session_head, too_small,
    val_lower.
  run.
  destruct (url image) as [u|]; [|done].
  destruct u as [|link]; [done|]. run.
  destruct (head w link) as [r|]; [|done]. run.
  destruct (status_code r =? 200); [|done]. run.
  destruct (existsb _ image_types); [|done]. run.
  destruct (content_length r) as [|n|]; run; [| |done].
  - destruct (get_title image) as [|t]; [done|]. run.
    by destruct (relevant _ _).
  - destruct (n <? 5000); run; [done|].
    destruct (get_title image) as [|t]; [done|]. run.
    by destruct (relevant _ _).
Qed.

Lemma relevant_false (words : list string) (t : string) :
  relevant words t = false ↔
  ∀ word, word ∈ words → (2 < Py.len_str word)%nat →
          Py.contains word t = false.
Proof.
  unfold relevant. split.
  - intros Hex word Hin Hlen.
    destruct (Py.contains word t) eqn:Hc; [|done].
    assert (existsb (fun word => Py.contains word t)
              (filter (fun word => (2 < Py.len_str word)%nat) words) = true)
      as Htrue; [|congruence].
    apply existsb_exists. exists word. split; [|done].
    apply list_elem_of_In, list_elem_of_filter. done.
  - intros Hall.
    destruct (existsb _ _) eqn:Hex; [|done].
    apply existsb_exists in Hex as (word & Hin & Hc).
    apply list_elem_of_In, list_elem_of_filter in Hin as [Hlen Hin].
    rewrite (Hall word Hin Hlen) in Hc. done.
Qed.

Lemma validate_image_irrelevant w image query l :
  (∀ word t, word ∈ Py.split (Py.lower c query) →
             (2 < Py.len_str word)%nat →
             get_title image = Py.PyStr t →
             Py.contains word (Py.lower c t) = false) →
  (validate_image c w image query l).1 =
  match url image with
  | Some _ => Ret false
  | None => Raise KeyError
  end.
Proof.
  intros Hnone. rewrite validate_image_eq.
  destruct (url image) as [u|]; [|done]. simpl. f_equal.
  unfold verdict. destruct u as [|link]; [done|].
  destruct (head w link) as [r|]; [|done].
  destruct (get_title image) as [|t] eqn:Ht.
  - by rewrite andb_false_r.
  - assert (relevant (Py.split (Py.lower c query)) (Py.lower c t) = false) as ->.
    { apply relevant_false. intros word Hin Hlen. by eapply Hnone. }
    by rewrite andb_false_r.
Qed.

(** C7.  When no word of the lower-cased query that is longer than two
    characters (code points) occurs in the lower-cased title,
    [validate_image] does not accept: it returns [False] for every answer
    of the network (and, for a dict without a ['url'] key, leaves with
    [KeyError]).  Shorter query words are not looked at, so their occurring
    in the title changes nothing.  Lower-casing is [str.lower], whatever it
    does beyond ASCII. *)
Theorem validate_image_rejects_irrelevant w image query l :
  (∀ word t, word ∈ Py.split (Py.lower c query) →
             (2 < Py.len_str word)%nat →
             get_title image = Py.PyStr t →
             Py.contains word (Py.lower c t) = false) →
  (validate_image c w image query l).1 =
  match url image with
  | Some _ => Ret false
  | None => Raise KeyError
  end.
Proof. apply validate_image_irrelevant. Qed.

(** C8 (as amended).  [validate_image] has no structural check and starts
    with the probe: for every image dict with a ['url'] key it calls
    [session.head] exactly once, whatever the title, and for a dict without
    that key it calls nothing.  An image whose title is empty is rejected
    whatever the probe answers (a dict without ['url'] leaves with
    [KeyError]). *)
Theorem validate_image_probes_first w image query l :
  (validate_image c w image query l).2 =
    l ++ match url image with Some u => [EvHead u] | None => [] end
  ∧ (get_title image = Py.PyStr "" →
     (validate_image c w image query l).1 =
     match url image with
     | Some _ => Ret false
     | None => Raise KeyError
     end).
Proof.
  split.
  - rewrite validate_image_eq. destruct (url image); simpl; [done|].
    by rewrite app_nil_r.
  - intros Ht. apply validate_image_irrelevant.
    intros word t Hin Hlen Ht'. rewrite Ht in Ht'. injection Ht' as <-.
    rewrite Py.lower_ascii by done.
    destruct word; [simpl in Hlen; lia | done].
Qed.

End Validation.

Lemma validate_image_rejects_irrelevant_witness :
  (ImageService.validate_image Py.ascii_casing Samples.jpeg_world
     (Samples.photo "https://images.example.org/fox.jpg" "A red fox at dawn")
     "an ox in blue" []).1 = Ret false.
Proof.
  apply (validate_image_rejects_irrelevant Py.ascii_casing Samples.jpeg_world
           (Samples.photo "https://images.example.org/fox.jpg"
                          "A red fox at dawn")
           "an ox in blue" []).
  intros word t Hin Hlen [= <-].
  vm_compute in Hin.
  repeat (apply elem_of_cons in Hin as [->|Hin];
          [first [reflexivity | vm_compute in Hlen; lia]|]).
  by apply elem_of_nil in Hin.
Defined.

(** C8, counterexample.  An image with an empty title fails the structural
    check of the specification, yet [validate_image] probes its URL before
    it turns the image down. *)
Lemma validate_image_probes_empty_title :
  ImageService.get_title
    (Samples.photo "https://images.example.org/fox.jpg" "") = Py.PyStr ""
  ∧ ImageService.validate_image Py.ascii_casing Samples.jpeg_world
      (Samples.photo "https://images.example.org/fox.jpg" "") "red fox" []
    = (Ret false,
       [ImageService.EvHead (Py.PyStr "https://images.example.org/fox.jpg")]).
Proof. split; reflexivity. Qed.

Lemma validate_image_probes_first_witness :
  (ImageService.validate_image Py.ascii_casing Samples.dead_world
     (Samples.photo "https://images.example.org/fox.jpg" "") "red fox" []).2
  = [ImageService.EvHead (Py.PyStr "https://images.example.org/fox.jpg")]
  ∧ (ImageService.validate_image Py.ascii_casing Samples.dead_world
       (Samples.photo "https://images.example.org/fox.jpg" "") "red fox" []).1
    = Ret false.
Proof.
  destruct (validate_image_probes_first Py.ascii_casing Samples.dead_world
              (Samples.photo "https://images.example.org/fox.jpg" "")
              "red fox" []) as [Hlog Hverdict].
  split; [exact Hlog | exact (Hverdict eq_refl)].
Defined.


(** ** Aggregation *)

Section Aggregation.
Import ImageService Aux Closed.
Variable c : Py.casing.

Implicit Types (images unique validated : list image) (l : log).

Lemma fallback_loop_eq max_results fallback_images : ∀ validated_images,
  fallback_loop max_results fallback_images validated_images =
  validated_images ++
    take (Z.to_nat max_results - length validated_images) fallback_images.
Proof.
  induction fallback_images as [|image rest IH]; intros validated; simpl.
  - by rewrite take_nil, app_nil_r.
  - unfold Py.len. destruct (Z.leb_spec max_results (Z.of_nat (length validated))).
    + replace (Z.to_nat max_results - length validated)%nat with 0%nat by lia.
      by rewrite app_nil_r.
    + rewrite IH, length_app. simpl.
      replace (Z.to_nat max_results - length validated)%nat
        with (S (Z.to_nat max_results - (length validated + 1)))%nat by lia.
      simpl. by rewrite <- app_assoc.
Qed.

Lemma has_curated_topic_spec query :
  get_curated_images c query <> [] ↔ has_curated_topic c query = true.
Proof.
  unfold get_curated_images, has_curated_topic, any_in.
  rewrite !existsb_app.
  destruct (existsb _ nature_words); [done|].
  destruct (existsb _ technology_words); [done|].
  destruct (existsb _ landscape_words); [done|].
  simpl. split; [by intros [] | done].
Qed.

Lemma accepts_validate w query image l u :
  url image = Some u →
  validate_image c w image query l = (Ret (accepts c w query image), l ++ [EvHead u]).
Proof.
  intros Hu. rewrite validate_image_eq. unfold accepts. by rewrite Hu.
Qed.

Lemma urls_cons image u images :
  url image = Some u → urls (image :: images) = u :: urls images.
Proof. intros Hu. unfold urls. simpl. by rewrite Hu. Qed.

(** The validation loop in closed form. *)
Lemma validate_loop_eq w query max_results unique : ∀ validated l,
  Forall has_url unique →
  ∃ n, validate_loop c w query max_results unique validated l =
       (Ret (validated
               ++ take (needed max_results validated)
                       (filter (accepts c w query) unique)),
        l ++ (EvHead <$> take n (urls unique))).
Proof.
  induction unique as [|image rest IH]; intros validated l Hall.
  - exists 0%nat. simpl. run. rewrite filter_nil, take_nil.
    by rewrite !app_nil_r.
  - apply Forall_cons in Hall as [[u Hu] Hrest].
    rewrite (urls_cons _ _ _ Hu).
    cbn [validate_loop]. run. rewrite (accepts_validate _ _ _ _ _ Hu).
    destruct (accepts c w query image) eqn:Hacc.
    + rewrite filter_cons_True by (by apply Is_true_true_2).
      unfold needed, Py.len. rewrite length_app. simpl.
      destruct (Z.leb_spec max_results (Z.of_nat (length validated + 1))).
      * exists 1%nat.
        replace (Z.to_nat (Z.max 1 (max_results - Z.of_nat (length validated))))
          with 1%nat by lia.
        done.
      * destruct (IH (validated ++ [image]) (l ++ [EvHead u]) Hrest) as [n ->].
        exists (S n). unfold needed, Py.len. rewrite length_app. simpl.
        replace (Z.to_nat (Z.max 1 (max_results - Z.of_nat (length validated))))
          with (S (Z.to_nat (Z.max 1
                  (max_results - Z.of_nat (length validated + 1))))) by lia.
        simpl. by rewrite <- !app_assoc.
    + rewrite filter_cons_False by (by apply Is_true_false_2).
      destruct (IH validated (l ++ [EvHead u]) Hrest) as [n ->].
      exists (S n). simpl. by rewrite <- app_assoc.
Qed.

(** Empty provider results contribute nothing to the concatenation. *)
Lemma concat_nonempty (sources : list (list image)) :
  concat (filter (fun source_results => source_results <> []) sources)
  = concat sources.
Proof.
  induction sources as [|source_results rest IH]; [done|].
  destruct source_results as [|image others].
  - rewrite filter_cons_False by (intros Hne; by apply Hne). done.
  - rewrite filter_cons_True by done. simpl. by rewrite IH.
Qed.

Lemma remove_duplicates_has_url images unique :
  remove_duplicates images = Ret unique →
  Forall has_url images ∧ unique = kept ∅ images.
Proof.
  intros Hrun. destruct (decide (Forall has_url images)) as [Hall|Hnot].
  - split; [done|]. rewrite remove_duplicates_kept in Hrun by done.
    by injection Hrun.
  - unfold remove_duplicates in Hrun. by rewrite loop_raises in Hrun.
Qed.

(** [search_images] in closed form, once the candidates deduplicate. *)
Lemma search_images_from_eq w sources query max_results l unique :
  remove_duplicates (concat sources) = Ret unique →
  ∃ n, search_images_from c w sources query max_results l =
       (Ret (selection c w query max_results unique),
        l ++ (EvHead <$> take n (urls unique))).
Proof.
  intros Hunique. unfold search_images_from. rewrite concat_nonempty, Hunique.
  run.
  destruct (remove_duplicates_has_url _ _ Hunique) as [Hall ->].
  destruct (validate_loop_eq w query max_results (kept ∅ (concat sources))
              [] l (kept_has_url _ _ Hall)) as [n ->].
  exists n. unfold selection. simpl.
  destruct (_ <? 5); [|done].
  by rewrite fallback_loop_eq.
Qed.

Lemma search_images_from_raises w sources query max_results l :
  ¬ Forall has_url (concat sources) →
  search_images_from c w sources query max_results l = (Raise KeyError, l).
Proof.
  intros Hnot. unfold search_images_from, remove_duplicates.
  rewrite concat_nonempty, loop_raises by done. by run.
Qed.

(** The validation loop when no candidate is accepted: every candidate is
    probed and none is kept. *)
Lemma validate_loop_rejects w query max_results unique : ∀ validated l,
  Forall has_url unique →
  Forall (fun image => ¬ accepted c w query image) unique →
  validate_loop c w query max_results unique validated l =
    (Ret validated, l ++ (EvHead <$> urls unique)).
Proof.
  induction unique as [|image rest IH]; intros validated l Hall Hnone.
  - simpl. run. by rewrite app_nil_r.
  - apply Forall_cons in Hall as [[u Hu] Hrest].
    apply Forall_cons in Hnone as [Hfirst Hnone].
    rewrite (urls_cons _ _ _ Hu).
    cbn [validate_loop]. run. rewrite (accepts_validate _ _ _ _ _ Hu).
    destruct (accepts c w query image) eqn:Hacc.
    + destruct Hfirst. unfold accepted.
      by rewrite (accepts_validate _ _ _ _ _ Hu), Hacc.
    + rewrite IH by done. simpl. by rewrite <- app_assoc.
Qed.

Lemma take_curated_nonempty query max_results :
  take (Z.to_nat max_results) (get_curated_images c query) <> [] ↔
  0 < max_results ∧ has_curated_topic c query = true.
Proof.
  rewrite <- has_curated_topic_spec.
  destruct (get_curated_images c query) as [|image rest].
  - rewrite take_nil. split; [done | by intros [_ []]].
  - destruct (Z.to_nat max_results) as [|n] eqn:Hn; simpl.
    + split; [done | intros [? _]; lia].
    + split; [|done]. intros _. split; [lia | done].
Qed.

(** C1 (as amended).  When none of the distinct candidates that the five
    providers return is accepted by [validate_image] (as on a network where
    the three fetched providers fail and no probe is answered),
    [search_images] probes each of them once and returns the curated images
    of the query, cut to [max_results].  That list is non-empty exactly
    when [max_results] is at least 1 and the lower-cased query contains one
    of the curated topic words. *)
Theorem search_images_without_accepted_candidate w query max_results l unique :
  remove_duplicates
    (search_unsplash w query ++ search_pixabay c query
       ++ search_pexels c query ++ search_reddit w query
       ++ search_wikimedia w query) = Ret unique →
  Forall (fun image => ¬ accepted c w query image) unique →
  search_images c w query max_results l =
    (Ret (take (Z.to_nat max_results) (get_curated_images c query)),
     l ++ (EvHead <$> urls unique))
  ∧ (take (Z.to_nat max_results) (get_curated_images c query) <> [] ↔
     0 < max_results ∧ has_curated_topic c query = true).
Proof.
  intros Hunique Hnone. split; [|apply take_curated_nonempty].
  unfold search_images, search_images_from. rewrite concat_nonempty.
  cbn [concat]. rewrite app_nil_r, Hunique. run.
  destruct (remove_duplicates_has_url _ _ Hunique) as [Hall ->].
  rewrite validate_loop_rejects by (done || by apply kept_has_url).
  simpl. by rewrite fallback_loop_eq, Nat.sub_0_r.
Qed.

End Aggregation.

(** C1, counterexample.  On a network where every request fails, the three
    fetched providers return nothing and the five sample items of
    [search_pixabay] and [search_pexels] are probed and turned down; the
    query names no curated topic, and the result of [search_images] is
    empty. *)
Lemma search_images_can_be_empty :
  ImageService.search_unsplash Samples.dead_world "vintage car" = []
  ∧ ImageService.search_reddit Samples.dead_world "vintage car" = []
  ∧ ImageService.search_wikimedia Samples.dead_world "vintage car" = []
  ∧ ImageService.search_images Py.ascii_casing Samples.dead_world
      "vintage car" 20 []
    = (Ret [],
       ImageService.EvHead
         <$> Closed.urls
               (ImageService.search_pixabay Py.ascii_casing "vintage car"
                  ++ ImageService.search_pexels Py.ascii_casing "vintage car")).
Proof. split_and!; reflexivity. Qed.

Lemma search_images_without_accepted_candidate_witness :
  ImageService.search_images Py.ascii_casing Samples.dead_world
    "Monarch Butterfly" 20 [] =
    (Ret (take (Z.to_nat 20)
               (ImageService.get_curated_images Py.ascii_casing
                  "Monarch Butterfly")),
     [] ++ (ImageService.EvHead
              <$> Closed.urls
                    (ImageService.search_pixabay Py.ascii_casing
                       "Monarch Butterfly"
                     ++ ImageService.search_pexels Py.ascii_casing
                          "Monarch Butterfly")))
  ∧ (take (Z.to_nat 20)
          (ImageService.get_curated_images Py.ascii_casing "Monarch Butterfly")
       <> [] ↔
     0 < 20 ∧ Aux.has_curated_topic Py.ascii_casing "Monarch Butterfly" = true).
Proof.
  apply (search_images_without_accepted_candidate Py.ascii_casing
           Samples.dead_world "Monarch Butterfly" 20 []
           (ImageService.search_pixabay Py.ascii_casing "Monarch Butterfly"
              ++ ImageService.search_pexels Py.ascii_casing
                   "Monarch Butterfly")).
  - reflexivity.
  - apply (bool_decide_unpack _). vm_compute. exact I.
Defined.

(** ** The novelty window *)

Section Window.
Import Extinct FactsViews Aux.

Lemma last_n_length {A} (k : nat) (l : list A) :
  (length (Py.last_n k l) ≤ k)%nat.
Proof. unfold Py.last_n. rewrite length_drop. lia. Qed.

Lemma last_n_all {A} (k : nat) (l : list A) :
  (length l ≤ k)%nat → Py.last_n k l = l.
Proof.
  intros Hle. unfold Py.last_n.
  by replace (length l - k)%nat with 0%nat by lia.
Qed.

Lemma last_n_app {A} (k : nat) (l : list A) (x : A) :
  Py.last_n (S k) (l ++ [x]) = Py.last_n k l ++ [x].
Proof.
  unfold Py.last_n. rewrite length_app. simpl.
  replace (length l + 1 - S k)%nat with (length l - k)%nat by lia.
  rewrite drop_app_le by lia. done.
Qed.

Lemma last_n_last_n {A} (k : nat) (l : list A) (x : A) :
  Py.last_n k (Py.last_n k l ++ [x]) = Py.last_n k (l ++ [x]).
Proof.
  destruct k as [|k].
  - unfold Py.last_n. by rewrite !Nat.sub_0_r, !drop_all.
  - rewrite !last_n_app. f_equal.
    unfold Py.last_n. rewrite drop_drop, length_drop. f_equal. lia.
Qed.

(** A record keeps the last [k] titles of the window extended by the new
    one. *)
Lemma record_served_eq (k : nat) recent (title : string) :
  record_served k recent title = Py.last_n k (recent ++ [title]).
Proof.
  unfold record_served, Py.len.
  destruct (Z.ltb_spec (Z.of_nat k) (Z.of_nat (length (recent ++ [title]))));
    [done|].
  rewrite last_n_all; [done | lia].
Qed.

Lemma record_served_length (k : nat) recent (title : string) :
  (length (record_served k recent title) ≤ k)%nat.
Proof. rewrite record_served_eq. apply last_n_length. Qed.

Lemma oldest_evicted k (titles : list string) oldest :
  NoDup titles → (k < length titles)%nat → head titles = Some oldest →
  oldest ∉ Py.last_n k titles.
Proof.
  destruct titles as [|t rest]; [done|]. intros Hnodup Hlen [= ->].
  apply NoDup_cons in Hnodup as [Hfresh _].
  unfold Py.last_n. simpl in *.
  replace (S (length rest) - k)%nat with (S (length rest - k))%nat by lia.
  simpl. intros Hin. apply Hfresh.
  eapply elem_of_sublist; [done | apply sublist_drop].
Qed.

Lemma last_n_absorb {A} (k : nat) (l m : list A) :
  Py.last_n k (Py.last_n k l ++ m) = Py.last_n k (l ++ m).
Proof.
  unfold Py.last_n. rewrite !length_app, length_drop.
  destruct (decide (k ≤ length l)%nat) as [Hle|Hgt].
  - replace (length l - (length l - k) + length m - k)%nat with (length m)
      by lia.
    replace (length l + length m - k)%nat
      with ((length l - k) + length m)%nat by lia.
    rewrite <- drop_drop, (drop_app_le l m) by lia. done.
  - replace (length l - k)%nat with 0%nat by lia.
    by rewrite Nat.sub_0_r.
Qed.


End Window.

(** ** The facts service and its view *)

Section Facts.
Import Extinct Aux.
Variable rng : nat -> nat.

Lemma choice_ok {A} (seq : list A) (s : state) :
  seq <> [] → ∃ x, x ∈ seq ∧ choice rng seq s = (Ret x, drawn s).
Proof.
  intros Hne. unfold choice.
  assert (rng (draws s) mod length seq < length seq)%nat as Hlt.
  { apply Nat.mod_upper_bound. by destruct seq. }
  apply lookup_lt_is_Some in Hlt as [x Hx]. rewrite Hx.
  exists x. split; [by eapply list_elem_of_lookup_2 | done].
Qed.

Lemma all_facts_nonempty : WikidataService.all_facts <> [].
Proof. intros H. apply (f_equal length) in H. vm_compute in H. lia. Qed.

Lemma add_to_recent_ok title s :
  ∃ s', WikidataService._add_to_recent title s = (Ret tt, s')
        ∧ session s' = session s ∧ draws s' = draws s.
Proof.
  unfold WikidataService._add_to_recent, set_recent_facts.
  destruct (decide (title = "")); run; [by eexists|].
  destruct (_ <? _); by eexists.
Qed.

Lemma draw_loop_ok attempts : ∀ s,
  ∃ found s', WikidataService.draw_loop rng attempts s = (Ret found, s')
    ∧ session s' = session s
    ∧ ∀ fact, found = Some fact → fact ∈ WikidataService.all_facts.
Proof.
  induction attempts as [|attempts IH]; intros s; simpl.
  - exists None, s. by split_and!.
  - destruct (choice_ok WikidataService.all_facts s all_facts_nonempty)
      as (fact & Hin & Hchoice).
    run. rewrite Hchoice.
    destruct (decide (_ ∈ recent_facts (drawn s))).
    + destruct (IH (drawn s)) as (found & s' & -> & Hs & Hfound).
      exists found, s'. by split_and!.
    + destruct (add_to_recent_ok (WikidataService.title fact) (drawn s))
        as (s' & -> & Hs & _).
      exists (Some fact), s'. split_and!; [done..|]. by intros ? [= <-].
Qed.

Lemma get_fallback_it_ai_fact_ok s :
  ∃ fact s', WikidataService.get_fallback_it_ai_fact rng s = (Ret fact, s')
    ∧ session s' = session s ∧ fact ∈ WikidataService.all_facts.
Proof.
  unfold WikidataService.get_fallback_it_ai_fact. run.
  destruct (draw_loop_ok 10 s) as (found & s' & -> & Hs & Hfound).
  destruct found as [fact|].
  - exists fact, s'. split_and!; [done..|]. by apply Hfound.
  - destruct (choice_ok WikidataService.all_facts s' all_facts_nonempty)
      as (fact & Hin & ->).
    exists fact, (drawn s'). by split_and!.
Qed.

Lemma service_get_extinct_fact_ok s :
  ∃ fact s', FactsService.get_extinct_fact rng s = (Ret fact, s')
    ∧ session s' = session s ∧ fact ∈ WikidataService.all_facts.
Proof.
  unfold FactsService.get_extinct_fact, WikidataService.get_it_ai_fact. run.
  destruct (get_fallback_it_ai_fact_ok s) as (fact & s' & -> & Hs & Hin).
  by exists fact, s'.
Qed.

Lemma service_draws_ok n : ∀ s facts s',
  service_draws rng n s = (facts, s') →
  length facts = n ∧ session s' = session s
  ∧ ∀ fact, fact ∈ facts → fact ∈ WikidataService.all_facts.
Proof.
  induction n as [|n IH]; intros s facts s'; simpl.
  - intros [= <- <-]. split_and!; [done..|]. by intros ? ?%elem_of_nil.
  - destruct (service_get_extinct_fact_ok s) as (fact & s1 & -> & Hs1 & Hin).
    destruct (service_draws rng n s1) as [facts' s2] eqn:Hrest.
    intros [= <- <-]. destruct (IH _ _ _ Hrest) as (Hlen & Hs2 & Hall).
    split_and!; [simpl; lia | congruence |].
    intros f [->|Hf]%elem_of_cons; [done | by apply Hall].
Qed.

(** One round of the view's loop, given what the service returns. *)
Lemma attempt_loop_cons attempt rest recent fact_data s fact s1 :
  FactsService.get_extinct_fact rng s = (Ret fact, s1) →
  FactsViews.attempt_loop rng (attempt :: rest) recent fact_data s =
  if negb (bool_decide (WikidataService.title fact ∈ recent)) || (attempt =? 9)
  then (Ret (Some fact),
        stored "recent_facts"
          (FactsViews.record_served 5 recent (WikidataService.title fact)) s1)
  else FactsViews.attempt_loop rng rest recent (Some fact) s1.
Proof.
  intros Hcall. simpl. run. rewrite Hcall.
  change (FactsViews.max_attempts - 1) with 9.
  by destruct (negb _ || _).
Qed.

(** The loop records as soon as it reaches the attempt numbered 9. *)
Lemma attempt_loop_records attempts : ∀ recent fact_data s,
  9 ∈ attempts →
  ∃ fact s1, fact ∈ WikidataService.all_facts ∧ session s1 = session s
    ∧ FactsViews.attempt_loop rng attempts recent fact_data s =
      (Ret (Some fact),
       stored "recent_facts"
         (FactsViews.record_served 5 recent (WikidataService.title fact)) s1).
Proof.
  induction attempts as [|attempt rest IH]; intros recent fact_data s Hin.
  - by apply elem_of_nil in Hin.
  - destruct (service_get_extinct_fact_ok s) as (fact & s1 & Hcall & Hs1 & Hf).
    rewrite (attempt_loop_cons _ _ _ _ _ _ _ Hcall).
    destruct (negb _ || _) eqn:Haccept.
    + by exists fact, s1.
    + apply orb_false_iff in Haccept as [_ Hne%Z.eqb_neq].
      apply elem_of_cons in Hin as [Heq|Hin]; [congruence|].
      destruct (IH recent (Some fact) s1 Hin) as (fact' & s2 & ? & Hs2 & ->).
      exists fact', s2. split_and!; [done | congruence | done].
Qed.

(** The view always answers 200 with a curated fact and records its title
    in the session window. *)
Lemma get_extinct_fact_ok s :
  ∃ fact s1, fact ∈ WikidataService.all_facts ∧ session s1 = session s
    ∧ FactsViews.get_extinct_fact rng s =
      (Ret (FactsViews.Response fact 200),
       stored "recent_facts"
         (FactsViews.record_served 5 (window "recent_facts" s)
            (WikidataService.title fact)) s1).
Proof.
  unfold FactsViews.get_extinct_fact, FactsService.init, WikidataService.init,
    set_recent_facts, session_get. run.
  set (s0 := {| draws := draws s; recent_facts := []; session := session s |}).
  destruct (attempt_loop_records (map Z.of_nat (seq 0 10))
              (default [] (session s0 !! "recent_facts")) None s0)
    as (fact & s1 & Hin & Hs1 & ->).
  { apply list_elem_of_fmap. exists 9%nat. split; [done|].
    apply list_elem_of_In, in_seq. lia. }
  by exists fact, s1.
Qed.

(** When the facts drawn in the remaining rounds all collide with the
    window, the loop ends on the last of them. *)
Lemma attempt_loop_collide n : ∀ a recent fact_data s facts s',
  (a + n = 10)%nat → (0 < n)%nat →
  service_draws rng n s = (facts, s') →
  (∀ fact, fact ∈ facts → WikidataService.title fact ∈ recent) →
  ∃ fact, last facts = Some fact
    ∧ FactsViews.attempt_loop rng (map Z.of_nat (seq a n)) recent fact_data s =
      (Ret (Some fact),
       stored "recent_facts"
         (FactsViews.record_served 5 recent (WikidataService.title fact)) s').
Proof.
  induction n as [|n IH]; intros a recent fact_data s facts s' Ha Hn; [lia|].
  simpl. destruct (service_get_extinct_fact_ok s) as (fact & s1 & Hcall & _ & _).
  rewrite Hcall.
  destruct (service_draws rng n s1) as [facts' s2] eqn:Hrest.
  intros [= <- <-] Hcollide.
  pose proof (attempt_loop_cons (Z.of_nat a) (map Z.of_nat (seq (S a) n))
                recent fact_data s fact s1 Hcall) as Hstep.
  simpl in Hstep. rewrite Hstep. clear Hstep.
  destruct n as [|n].
  - assert (a = 9)%nat as -> by lia. simpl in Hrest.
    injection Hrest as <- <-. exists fact. split; [done|].
    by rewrite orb_true_r.
  - assert ((Z.of_nat a =? 9) = false) as -> by (apply Z.eqb_neq; lia).
    rewrite bool_decide_eq_true_2
      by (apply Hcollide, elem_of_cons; by left).
    simpl negb. simpl orb. cbv iota.
    destruct (IH (S a) recent (Some fact) s1 facts' s2) as (fact' & Hlast & ->);
      [lia | lia | done | |].
    { intros f Hf. apply Hcollide, elem_of_cons. by right. }
    exists fact'. split; [|done].
    pose proof (service_draws_ok _ _ _ _ Hrest) as (Hlen & _ & _).
    destruct facts' as [|f0 rest]; [done|]. done.
Qed.

End Facts.

(** ** The news views *)

Section News.
Import Extinct FactsViews Aux.
Variable rng : nat -> nat.
Implicit Types (recent : list string) (s : state).

Lemma current_policy_news_nonempty : current_policy_news <> [].
Proof. intros H. apply (f_equal length) in H. vm_compute in H. lia. Qed.

Lemma fallback_news_nonempty : fallback_news <> [].
Proof. intros H. apply (f_equal length) in H. vm_compute in H. lia. Qed.

Lemma fetch_it_policy_news_ok s :
  ∃ item, fetch_it_policy_news rng s = (Ret (Some item), drawn s).
Proof.
  unfold fetch_it_policy_news. run.
  destruct (choice_ok rng current_policy_news s current_policy_news_nonempty)
    as (item & _ & ->).
  by exists item.
Qed.

Lemma valid_news_fresh recent (sources : list (option news)) item :
  item ∈ omap id (filter (is_valid recent) sources) → title item ∉ recent.
Proof.
  intros (found & Hin & Hsome)%list_elem_of_omap. simpl in Hsome. subst found.
  apply list_elem_of_filter in Hin as [Hvalid _]. simpl in Hvalid.
  apply negb_prop_elim in Hvalid. intros Hrecent. apply Hvalid.
  by apply bool_decide_pack.
Qed.

Lemma fetch_tech_news_ok w recent s :
  ∃ found s', fetch_tech_news rng w recent s = (Ret found, s')
    ∧ session s' = session s
    ∧ ∀ item, found = Some item → title item ∉ recent.
Proof.
  unfold fetch_tech_news. run.
  destruct (fetch_it_policy_news_ok s) as (policy & ->).
  set (valid_news := omap id (filter (is_valid recent) _)).
  assert (∀ item, item ∈ valid_news → title item ∉ recent) as Hfresh
    by apply valid_news_fresh.
  destruct valid_news as [|first others] eqn:Hvalid.
  - exists None, (drawn s). by split_and!.
  - destruct (choice_ok rng (first :: others) (drawn s)) as (item & Hin & ->);
      [done|].
    exists (Some item), (drawn (drawn s)). split_and!; [done..|].
    intros ? [= <-]. by apply Hfresh.
Qed.

(** [get_fallback_news] when some curated item is still unseen: it serves
    one of the unseen items and records it. *)
Lemma get_fallback_news_available recent s :
  filter (fun item => title item ∉ recent) fallback_news <> [] →
  ∃ item, item ∈ fallback_news ∧ (title item ∉ recent)
    ∧ get_fallback_news rng recent s =
      (Ret (Response item 200),
       stored "recent_news"
         (record_served 10 (window "recent_news" s) (title item)) (drawn s)).
Proof.
  intros Hne. unfold get_fallback_news, session_get, session_set. run.
  destruct (filter _ fallback_news) as [|first others] eqn:Havailable; [done|].
  run. destruct (choice_ok rng (first :: others) s) as (item & Hin & ->);
    [done|].
  rewrite <- Havailable in Hin. apply list_elem_of_filter in Hin as [? ?].
  by exists item.
Qed.

(** [get_fallback_news] on a total collision: the session window is reset
    and then holds the served title alone. *)
Lemma get_fallback_news_reset recent s :
  filter (fun item => title item ∉ recent) fallback_news = [] →
  ∃ item, item ∈ fallback_news
    ∧ get_fallback_news rng recent s =
      (Ret (Response item 200),
       stored "recent_news" [title item] (drawn (stored "recent_news" [] s))).
Proof.
  intros Hnone. unfold get_fallback_news, session_get, session_set. run.
  rewrite Hnone. run.
  destruct (choice_ok rng fallback_news (stored "recent_news" [] s)
              fallback_news_nonempty) as (item & Hin & Hchoice).
  unfold stored in Hchoice at 1. simpl in Hchoice. rewrite Hchoice.
  exists item. split; [done|]. simpl. by rewrite lookup_insert_eq.
Qed.

Lemma total_collision recent :
  (∀ item, item ∈ fallback_news → title item ∈ recent) ↔
  filter (fun item => title item ∉ recent) fallback_news = [].
Proof.
  split.
  - intros Hall.
    destruct (filter _ fallback_news) as [|item others] eqn:Havailable;
      [done|].
    assert (item ∈ filter (fun item => title item ∉ recent) fallback_news)
      as [Hfresh Hin]%list_elem_of_filter
      by (rewrite Havailable; apply elem_of_cons; by left).
    destruct Hfresh. by apply Hall.
  - intros Hnone item Hin.
    destruct (decide (title item ∈ recent)) as [|Hfresh]; [done|].
    destruct (filter_nil_not_elem_of _ _ _ Hnone Hfresh Hin).
Qed.

Lemma window_stored key value s : window key (stored key value s) = value.
Proof. unfold window, stored. simpl. by rewrite lookup_insert_eq. Qed.

(** [get_latest_news] answers 200 and stores a window of at most ten
    titles; the served title was in the consumer's window only if the live
    fetch found nothing and every curated fallback item was in it. *)
Lemma get_latest_news_ok w s :
  ∃ r s1 stored_window,
    get_latest_news rng w s = (Ret r, stored "recent_news" stored_window s1)
    ∧ status r = 200
    ∧ (length stored_window ≤ 10)%nat
    ∧ (title (body r) ∈ window "recent_news" s →
       (fetch_tech_news rng w (window "recent_news" s) s).1 = Ret None
       ∧ body r ∈ fallback_news
       ∧ ∀ item, item ∈ fallback_news → title item ∈ window "recent_news" s).
Proof.
  unfold get_latest_news, session_get, session_set. run.
  fold (window "recent_news" s).
  destruct (fetch_tech_news_ok w (window "recent_news" s) s)
    as (found & s' & Hfetch & Hs' & Hfresh).
  rewrite Hfetch. destruct found as [item|]; run.
  - exists (Response item 200), s', (record_served 10 (window "recent_news" s) (title item)).
    split_and!; [done | done | apply record_served_length |].
    intros Hin. by destruct (Hfresh item eq_refl).
  - assert (window "recent_news" s' = window "recent_news" s) as Hwindow
      by (unfold window; by rewrite Hs').
    destruct (decide (filter (fun item => title item ∉ window "recent_news" s)
                             fallback_news = [])) as [Hnone|Hsome].
    + destruct (get_fallback_news_reset (window "recent_news" s) s' Hnone)
        as (item & Hin & ->).
      exists (Response item 200), (drawn (stored "recent_news" [] s')),
        [title item].
      split_and!; [done | done | simpl; lia |].
      intros _. split_and!; [done | done |]. by apply total_collision.
    + destruct (get_fallback_news_available (window "recent_news" s) s' Hsome)
        as (item & Hin & Hfresh' & ->).
      exists (Response item 200), (drawn s'),
        (record_served 10 (window "recent_news" s') (title item)).
      split_and!; [done | done | apply record_served_length |].
      simpl. intros Hrepeat. by destruct Hfresh'.
Qed.

Lemma no_valid_news recent (sources : list (option news)) item :
  omap id (filter (is_valid recent) sources) = [] →
  Some item ∈ sources → title item ∈ recent.
Proof.
  intros Hnone Hin.
  destruct (decide (title item ∈ recent)) as [|Hfresh]; [done|].
  assert (item ∈ omap id (filter (is_valid recent) sources)) as Hvalid.
  { apply list_elem_of_omap. exists (Some item). split; [|done].
    apply list_elem_of_filter. split; [|done]. simpl.
    apply negb_prop_intro. intros Hseen. apply Hfresh.
    by apply bool_decide_unpack in Hseen. }
  rewrite Hnone in Hvalid. by apply elem_of_nil in Hvalid.
Qed.

Lemma valid_news_source recent (sources : list (option news)) item :
  item ∈ omap id (filter (is_valid recent) sources) → Some item ∈ sources.
Proof.
  intros (found & Hin & Hsome)%list_elem_of_omap. simpl in Hsome. subst found.
  by apply list_elem_of_filter in Hin as [_ ?].
Qed.

(** What [fetch_tech_news] returns, in terms of its four candidates. *)
Lemma fetch_tech_news_cases w recent s :
  ∃ policy found s',
    policy ∈ current_policy_news
    ∧ fetch_tech_news rng w recent s = (Ret found, s')
    ∧ session s' = session s
    ∧ match found with
      | Some item =>
          Some item ∈ [fetch_hacker_news w; fetch_github_trending w;
                       fetch_dev_to_articles w; Some policy]
          ∧ title item ∉ recent
      | None =>
          ∀ item, Some item ∈ [fetch_hacker_news w; fetch_github_trending w;
                               fetch_dev_to_articles w; Some policy] →
                  title item ∈ recent
      end.
Proof.
  unfold fetch_tech_news, fetch_it_policy_news. run.
  destruct (choice_ok rng current_policy_news s current_policy_news_nonempty)
    as (policy & Hpolicy & ->).
  run.
  set (sources := [fetch_hacker_news w; fetch_github_trending w;
                   fetch_dev_to_articles w; Some policy]).
  destruct (omap id (filter (is_valid recent) sources))
    as [|first others] eqn:Hvalid.
  - exists policy, None, (drawn s). split_and!; [done..|].
    intros item Hin. by eapply no_valid_news.
  - destruct (choice_ok rng (first :: others) (drawn s)) as (item & Hin & ->);
      [done|].
    exists policy, (Some item), (drawn (drawn s)).
    rewrite <- Hvalid in Hin. split_and!; [done..| |].
    + by eapply valid_news_source.
    + by eapply valid_news_fresh.
Qed.

Lemma news_titles_distinct :
  NoDup (title <$> (current_policy_news ++ fallback_news)).
Proof. apply (bool_decide_unpack _). vm_compute. exact I. Qed.

(** A window with the title of a policy item and of every fallback item
    has more than ten entries. *)
Lemma crowded_window recent policy :
  policy ∈ current_policy_news → title policy ∈ recent →
  (∀ item, item ∈ fallback_news → title item ∈ recent) →
  (10 < length recent)%nat.
Proof.
  intros Hpolicy Hseen Hall.
  pose proof news_titles_distinct as Hdistinct.
  rewrite fmap_app in Hdistinct.
  apply NoDup_app in Hdistinct as (_ & Hdisjoint & Hfallback).
  assert (NoDup (title policy :: (title <$> fallback_news))) as Hnodup.
  { constructor; [|done]. apply Hdisjoint. by apply list_elem_of_fmap_2. }
  apply NoDup_submseteq with (k := recent) in Hnodup.
  - apply submseteq_length in Hnodup. cbn [length] in Hnodup.
    rewrite length_fmap in Hnodup.
    change (length fallback_news) with 10%nat in Hnodup. lia.
  - intros t [->|(item & -> & Hin)%list_elem_of_fmap]%elem_of_cons;
      [done | by apply Hall].
Qed.

(** One request on a window of at most ten titles. *)
Lemma get_latest_news_step w s :
  (length (window "recent_news" s) ≤ 10)%nat →
  ∃ r s1,
    get_latest_news rng w s =
      (Ret r, stored "recent_news"
                (record_served 10 (window "recent_news" s) (title (body r))) s1)
    ∧ status r = 200
    ∧ title (body r) ∉ window "recent_news" s.
Proof.
  intros Hlen. unfold get_latest_news, session_get, session_set. run.
  fold (window "recent_news" s).
  destruct (fetch_tech_news_cases w (window "recent_news" s) s)
    as (policy & found & s' & Hpolicy & -> & Hs' & Hfound).
  destruct found as [item|]; run.
  - exists (Response item 200), s'. by destruct Hfound.
  - assert (window "recent_news" s' = window "recent_news" s) as Hwindow
      by (unfold window; by rewrite Hs').
    destruct (decide (filter (fun item => title item ∉ window "recent_news" s)
                             fallback_news = [])) as [Hnone|Hsome].
    + pose proof (proj2 (total_collision _) Hnone) as Hall.
      assert (10 < length (window "recent_news" s))%nat; [|lia].
      apply (crowded_window _ policy Hpolicy); [|done].
      apply Hfound. do 3 (apply elem_of_cons; right). apply elem_of_cons. by left.
    + destruct (get_fallback_news_available (window "recent_news" s) s' Hsome)
        as (item & Hin & Hfresh & ->).
      exists (Response item 200), (drawn s'). rewrite Hwindow. by split_and!.
Qed.

(** C10.  Whatever titles were shown recently, [fetch_tech_news] returns
    [None] or an item whose title is not among them.  So when
    [get_latest_news] serves a title of the consumer's window, the live
    fetch had returned [None] and the item comes from the curated fallback
    list. *)
Theorem fetch_tech_news_never_repeats w recent s :
  (∃ found s', fetch_tech_news rng w recent s = (Ret found, s')
     ∧ ∀ item, found = Some item → title item ∉ recent)
  ∧ (∃ r s', get_latest_news rng w s = (Ret r, s')
       ∧ (title (body r) ∈ window "recent_news" s →
          (fetch_tech_news rng w (window "recent_news" s) s).1 = Ret None
          ∧ body r ∈ fallback_news)).
Proof.
  split.
  - destruct (fetch_tech_news_ok w recent s) as (found & s' & ? & _ & ?).
    by exists found, s'.
  - destruct (get_latest_news_ok w s) as (r & s1 & ? & -> & _ & _ & Hrepeat).
    eexists r, _. split; [done|]. intros Hin.
    by destruct (Hrepeat Hin) as (? & ? & _).
Qed.

End News.

(** ** Total collision, bounded draws and capacity *)

Section Novelty.
Import Extinct Aux Closed.



(** One request of the facts view: it answers 200 with a curated fact and
    stores the window it read, extended by the served title and cut to its
    last five entries. *)
Lemma get_extinct_fact_step (rng : nat -> nat) s :
  ∃ fact s',
    fact ∈ WikidataService.all_facts
    ∧ FactsViews.get_extinct_fact rng s =
        (Ret (FactsViews.Response fact 200), s')
    ∧ window "recent_facts" s' =
        Py.last_n 5 (window "recent_facts" s ++ [WikidataService.title fact]).
Proof.
  destruct (get_extinct_fact_ok rng s) as (fact & s1 & Hin & _ & ->).
  eexists fact, _. split_and!; [done..|].
  by rewrite window_stored, record_served_eq.
Qed.

(** One request of the news view on a window within capacity. *)
Lemma get_latest_news_window (rng : nat -> nat) w s :
  (length (window "recent_news" s) ≤ 10)%nat →
  ∃ item s',
    FactsViews.get_latest_news rng w s =
      (Ret (FactsViews.Response item 200), s')
    ∧ (FactsViews.title item ∉ window "recent_news" s)
    ∧ window "recent_news" s' =
        Py.last_n 10 (window "recent_news" s ++ [FactsViews.title item]).
Proof.
  intros Hlen.
  destruct (get_latest_news_step rng w s Hlen) as ([item code] & s1 & -> & Hcode & ?).
  simpl in *. subst code. eexists item, _. split_and!; [done..|].
  by rewrite window_stored, record_served_eq.
Qed.

Lemma facts_run_window (rng : nat -> nat) n : ∀ s titles s',
  (length (window "recent_facts" s) ≤ 5)%nat →
  facts_run rng n s = (titles, s') →
  length titles = n
  ∧ window "recent_facts" s' = Py.last_n 5 (window "recent_facts" s ++ titles).
Proof.
  induction n as [|n IH]; intros s titles s' Hlen; simpl.
  - intros [= <- <-]. split; [done|]. by rewrite app_nil_r, last_n_all.
  - destruct (get_extinct_fact_step rng s) as (fact & s1 & _ & -> & Hwindow).
    destruct (facts_run rng n s1) as [titles' s2] eqn:Hrest.
    intros [= <- <-].
    destruct (IH s1 titles' s2) as [Hlength ->];
      [rewrite Hwindow; apply last_n_length | done |].
    split; [simpl; by f_equal|].
    by rewrite Hwindow, last_n_absorb, <- app_assoc.
Qed.

Lemma latest_news_run_window (rng : nat -> nat) worlds : ∀ s titles s',
  (length (window "recent_news" s) ≤ 10)%nat →
  latest_news_run rng worlds s = (titles, s') →
  length titles = length worlds
  ∧ window "recent_news" s' = Py.last_n 10 (window "recent_news" s ++ titles).
Proof.
  induction worlds as [|w rest IH]; intros s titles s' Hlen; simpl.
  - intros [= <- <-]. split; [done|]. by rewrite app_nil_r, last_n_all.
  - destruct (get_latest_news_window rng w s Hlen)
      as (item & s1 & -> & _ & Hwindow).
    destruct (latest_news_run rng rest s1) as [titles' s2] eqn:Hrest.
    intros [= <- <-].
    destruct (IH s1 titles' s2) as [Hlength ->];
      [rewrite Hwindow; apply last_n_length | done |].
    split; [simpl; by f_equal|].
    by rewrite Hwindow, last_n_absorb, <- app_assoc.
Qed.

(** Once more than [k] pairwise distinct titles have been recorded, the
    oldest of them is outside the last [k] entries. *)
Lemma oldest_left (k : nat) (recent titles : list string) oldest :
  NoDup titles → (k < length titles)%nat → head titles = Some oldest →
  oldest ∉ Py.last_n k (recent ++ titles).
Proof.
  intros Hnodup Hlen Hhead.
  assert (Py.last_n k (recent ++ titles) = Py.last_n k titles) as ->.
  { unfold Py.last_n. rewrite length_app.
    replace (length recent + length titles - k)%nat
      with (length recent + (length titles - k))%nat by lia.
    by rewrite drop_app_add. }
  by apply oldest_evicted.
Qed.


(** C3.  In [get_extinct_fact], when the facts the service returns in the
    ten attempts all have their title in the session window, the view
    answers 200 with the tenth of them and records its title in the
    window.  (The news views draw once and have no bounded redraw.) *)
Theorem get_extinct_fact_accepts_tenth_draw (rng : nat -> nat) s facts s' :
  service_draws rng 10 (fresh_service s) = (facts, s') →
  (∀ fact, fact ∈ facts →
           WikidataService.title fact ∈ window "recent_facts" s) →
  ∃ fact, facts !! 9%nat = Some fact
    ∧ FactsViews.get_extinct_fact rng s =
        (Ret (FactsViews.Response fact 200),
         stored "recent_facts"
           (FactsViews.record_served 5 (window "recent_facts" s)
              (WikidataService.title fact)) s')
    ∧ last (FactsViews.record_served 5 (window "recent_facts" s)
              (WikidataService.title fact))
      = Some (WikidataService.title fact).
Proof.
  intros Hdraws Hcollide.
  destruct (attempt_loop_collide rng 10 0 (window "recent_facts" s) None
              (fresh_service s) facts s') as (fact & Hlast & Hloop);
    [done | lia | done | done |].
  destruct (service_draws_ok rng _ _ _ _ Hdraws) as (Hlen & _ & _).
  exists fact. split_and!.
  - rewrite last_lookup, Hlen in Hlast. done.
  - unfold FactsViews.get_extinct_fact, FactsService.init,
      WikidataService.init, set_recent_facts, session_get. run.
    fold (fresh_service s).
    change (default [] (session (fresh_service s) !! "recent_facts"))
      with (window "recent_facts" s).
    by rewrite Hloop.
  - rewrite record_served_eq. unfold Py.last_n.
    rewrite length_app. simpl.
    rewrite drop_app_le by lia. by rewrite last_snoc.
Qed.

(** C4.  Each request of the facts view stores the window it read,
    extended by the served title and cut to its last five entries; the
    news view does the same with ten entries on a window within capacity,
    and never stores more than ten.  So after any sequence of requests of
    one consumer the window is the last five (ten) entries of the initial
    window extended by the served titles, in order, and once more than
    five (ten) pairwise distinct titles have been served the oldest of them
    is no longer in the window. *)
Theorem novelty_window_capacity (rng : nat -> nat) :
  (∀ s, ∃ fact s',
     FactsViews.get_extinct_fact rng s = (Ret (FactsViews.Response fact 200), s')
     ∧ window "recent_facts" s' =
         Py.last_n 5 (window "recent_facts" s ++ [WikidataService.title fact])
     ∧ (length (window "recent_facts" s') ≤ 5)%nat)
  ∧ (∀ w s, ∃ item s',
     FactsViews.get_latest_news rng w s =
       (Ret (FactsViews.Response item 200), s')
     ∧ (length (window "recent_news" s') ≤ 10)%nat
     ∧ ((length (window "recent_news" s) ≤ 10)%nat →
        window "recent_news" s' =
          Py.last_n 10 (window "recent_news" s ++ [FactsViews.title item])))
  ∧ (∀ n s titles s',
     (length (window "recent_facts" s) ≤ 5)%nat →
     facts_run rng n s = (titles, s') →
     length titles = n
     ∧ window "recent_facts" s' =
         Py.last_n 5 (window "recent_facts" s ++ titles)
     ∧ (length (window "recent_facts" s') ≤ 5)%nat
     ∧ ∀ oldest, NoDup titles → (5 < length titles)%nat →
                 head titles = Some oldest →
                 oldest ∉ window "recent_facts" s')
  ∧ (∀ worlds s titles s',
     (length (window "recent_news" s) ≤ 10)%nat →
     latest_news_run rng worlds s = (titles, s') →
     length titles = length worlds
     ∧ window "recent_news" s' =
         Py.last_n 10 (window "recent_news" s ++ titles)
     ∧ (length (window "recent_news" s') ≤ 10)%nat
     ∧ ∀ oldest, NoDup titles → (10 < length titles)%nat →
                 head titles = Some oldest →
                 oldest ∉ window "recent_news" s').
Proof.
  split_and!.
  - intros s.
    destruct (get_extinct_fact_step rng s) as (fact & s' & _ & Hrun & Hwindow).
    exists fact, s'. split_and!; [done..|].
    rewrite Hwindow. apply last_n_length.
  - intros w s.
    destruct (get_latest_news_ok rng w s)
      as ([item code] & s1 & stored_window & Hrun & Hcode & Hlen & _).
    simpl in Hcode. subst code.
    exists item. eexists. split_and!; [exact Hrun | by rewrite window_stored |].
    intros Hwithin.
    destruct (get_latest_news_window rng w s Hwithin)
      as (item' & s' & Hrun' & _ & Hwindow).
    rewrite Hrun in Hrun'. injection Hrun' as <- <-. done.
  - intros n s titles s' Hlen Hrun.
    destruct (facts_run_window rng n s titles s' Hlen Hrun) as [Hlength Hwindow].
    split_and!; [done | done | rewrite Hwindow; apply last_n_length |].
    intros oldest ???. rewrite Hwindow. by apply oldest_left.
  - intros worlds s titles s' Hlen Hrun.
    destruct (latest_news_run_window rng worlds s titles s' Hlen Hrun)
      as [Hlength Hwindow].
    split_and!; [done | done | rewrite Hwindow; apply last_n_length |].
    intros oldest ???. rewrite Hwindow. by apply oldest_left.
Qed.

End Novelty.


Lemma get_extinct_fact_accepts_tenth_draw_witness :
  ∃ fact,
    (Aux.service_draws Samples.zeros 10
       (Aux.fresh_service Samples.served_python)).1 !! 9%nat = Some fact
    ∧ FactsViews.get_extinct_fact Samples.zeros Samples.served_python =
        (Ret (FactsViews.Response fact 200),
         Aux.stored "recent_facts"
           (FactsViews.record_served 5
              (Aux.window "recent_facts" Samples.served_python)
              (WikidataService.title fact))
           (Aux.service_draws Samples.zeros 10
              (Aux.fresh_service Samples.served_python)).2)
    ∧ last (FactsViews.record_served 5
              (Aux.window "recent_facts" Samples.served_python)
              (WikidataService.title fact))
      = Some (WikidataService.title fact).
Proof.
  apply (get_extinct_fact_accepts_tenth_draw Samples.zeros
           Samples.served_python).
  - apply surjective_pairing.
  - apply Forall_forall, (bool_decide_unpack _). vm_compute. exact I.
Defined.

Lemma novelty_window_capacity_witness :
  length (Aux.facts_run Samples.counting 6 Closed.newcomer).1 = 6%nat
  ∧ Aux.window "recent_facts"
      (Aux.facts_run Samples.counting 6 Closed.newcomer).2
    = Py.last_n 5 (Aux.window "recent_facts" Closed.newcomer
                     ++ (Aux.facts_run Samples.counting 6 Closed.newcomer).1)
  ∧ Samples.python_title
      ∉ Aux.window "recent_facts"
          (Aux.facts_run Samples.counting 6 Closed.newcomer).2.
Proof.
  destruct (novelty_window_capacity Samples.counting) as (_ & _ & Hfacts & _).
  destruct (Hfacts 6%nat Closed.newcomer
              (Aux.facts_run Samples.counting 6 Closed.newcomer).1
              (Aux.facts_run Samples.counting 6 Closed.newcomer).2)
    as (Hlength & Hwindow & _ & Hevict).
  - vm_compute. lia.
  - apply surjective_pairing.
  - split_and!; [exact Hlength | exact Hwindow |].
    apply Hevict.
    + apply (bool_decide_unpack _). vm_compute. exact I.
    + vm_compute. lia.
    + vm_compute. reflexivity.
Defined.

Lemma fetch_tech_news_never_repeats_witness :
  (∃ found s',
     FactsViews.fetch_tech_news Samples.zeros Samples.no_feeds
       (Aux.window "recent_news" Samples.saturated_news) Samples.saturated_news
     = (Ret found, s')
     ∧ ∀ item, found = Some item →
               FactsViews.title item
                 ∉ Aux.window "recent_news" Samples.saturated_news)
  ∧ (FactsViews.fetch_tech_news Samples.zeros Samples.no_feeds
       (Aux.window "recent_news" Samples.seen_all_news)
       Samples.seen_all_news).1 = Ret None.
Proof.
  split.
  - apply (fetch_tech_news_never_repeats Samples.zeros Samples.no_feeds
             (Aux.window "recent_news" Samples.saturated_news)
             Samples.saturated_news).
  - destruct (fetch_tech_news_never_repeats Samples.zeros Samples.no_feeds
                [] Samples.seen_all_news) as [_ (r & s' & Hrun & Hrepeat)].
    apply Hrepeat.
    vm_compute in Hrun. injection Hrun as <- _.
    apply (bool_decide_unpack _). vm_compute. exact I.
Defined.

(** ** The search view *)

Section SearchView.
Import Web.
Variable e : env.

(** C9.  A POST whose body is a JSON object with a ['query'] that is
    absent or a string of white space only (whatever [str.strip] removes,
    ASCII or not) is answered with status 400 and an error body, by both
    versions of the view, and the event log is left as it was: nothing was
    requested, created or written. *)
Theorem search_images_rejects_empty_query r members q (l : log) :
  parsed r = Ret (JObject members) →
  default (JString "") (lookup_member "query" members) = JString q →
  Py.strip q = "" →
  ViewsNew.search_images e r l =
    (Ret (Response (Error "Please provide a prompt for image generation") 400),
     l)
  ∧ ViewsBackup.search_images e r l =
      (Ret (Response (Error "Prompt parameter is required") 400), l).
Proof.
  intros Hbody Hquery Hempty.
  unfold ViewsNew.search_images, ViewsBackup.search_images, json_loads,
    query_of.
  rewrite Hbody. run. rewrite Hquery. run. rewrite Hempty. run.
  by destruct (decide ("" = "")).
Qed.

End SearchView.

Lemma search_images_rejects_empty_query_witness :
  ViewsNew.search_images Samples.generous (Samples.post Samples.blank) [] =
    (Ret (Web.Response
            (Web.Error "Please provide a prompt for image generation") 400),
     [])
  ∧ ViewsBackup.search_images Samples.generous (Samples.post Samples.blank) [] =
      (Ret (Web.Response (Web.Error "Prompt parameter is required") 400), []).
Proof.
  apply (search_images_rejects_empty_query Samples.generous
           (Samples.post Samples.blank)
           [("query", Web.JString Samples.blank)] Samples.blank []);
    reflexivity.
Defined.

(** With a query that is not empty both views do reach the generator: six
    downloads, each followed by its file-system calls. *)
Lemma search_images_generates :
  length (ViewsNew.search_images Samples.generous (Samples.post "owl") []).2
    = 18%nat
  ∧ length (ViewsBackup.search_images Samples.generous (Samples.post "owl") []).2
    = 13%nat.
Proof. split; vm_compute; reflexivity. Qed.

(** * Further properties *)

(** ** search_images: result, bound, provenance, probes *)

Section SearchImages.
Import ImageService Aux Closed.
Variable c : Py.casing.

Implicit Types (images unique validated : list image) (l : log).

Lemma selection_length w query max_results unique :
  Py.len (selection c w query max_results unique) ≤ Z.max 1 max_results.
Proof.
  unfold selection, needed, Py.len. simpl.
  set (validated := take _ _).
  assert (length validated ≤ Z.to_nat (Z.max 1 (max_results - 0)))%nat
    as Hlen by (unfold validated; rewrite length_take; lia).
  destruct (_ <? 5); [|lia].
  rewrite length_app, length_take. lia.
Qed.

Lemma elem_of_take_in {A} (x : A) (n : nat) (k : list A) :
  x ∈ take n k → x ∈ k.
Proof. intros Hin. eapply elem_of_sublist; [done | apply sublist_take]. Qed.

Lemma selection_provenance w query max_results unique image :
  image ∈ selection c w query max_results unique →
  (image ∈ unique ∧ accepts c w query image = true)
  ∨ image ∈ get_curated_images c query.
Proof.
  unfold selection.
  assert (∀ n, image ∈ take n (filter (accepts c w query) unique) →
               image ∈ unique ∧ accepts c w query image = true) as Hvalid.
  { intros n [Hacc Hin]%elem_of_take_in%list_elem_of_filter.
    split; [done|]. by apply Is_true_true. }
  destruct (_ <? 5).
  - intros [Hin|Hin]%elem_of_app.
    + left. by eapply Hvalid.
    + right. by eapply elem_of_take_in.
  - intros Hin. left. by eapply Hvalid.
Qed.

Lemma urls_fmap images :
  Forall has_url images → url <$> images = Some <$> urls images.
Proof.
  induction 1 as [|image rest [u Hu] _ IH]; [done|].
  rewrite (urls_cons _ _ _ Hu), !fmap_cons, Hu. by f_equal.
Qed.

Lemma kept_urls_NoDup images :
  Forall has_url images → NoDup (urls (kept ∅ images)).
Proof.
  intros Hall. apply (NoDup_fmap_1 Some).
  rewrite <- urls_fmap by by apply kept_has_url. apply kept_NoDup.
Qed.

Lemma EvHead_inj : Inj (=) (=) EvHead.
Proof. by intros ?? [= ->]. Qed.

Lemma elem_of_urls u images :
  u ∈ urls images → ∃ image, image ∈ images ∧ url image = Some u.
Proof. intros (image & ? & ?)%list_elem_of_omap. by exists image. Qed.

Lemma accepted_accepts w query image :
  accepted c w query image ↔ accepts c w query image.
Proof.
  unfold accepted, accepts. rewrite validate_image_eq.
  destruct (url image) as [u|]; simpl; [|done].
  destruct (verdict c w image query u); simpl; split; (done || by intros [=]).
Qed.

(** X1.  When the concatenated provider results deduplicate to [unique],
    [search_images] returns the first candidates of [unique] that
    [validate_image] accepts, at most [max_results] of them but at least
    one if any is accepted, and, when these are fewer than five, appends
    curated images as long as the total stays below [max_results]. *)
Theorem search_images_selects w sources query max_results l unique :
  remove_duplicates (concat sources) = Ret unique →
  (search_images_from c w sources query max_results l).1 =
  Ret (let validated :=
         take (Z.to_nat (Z.max 1 max_results))
              (filter (accepted c w query) unique) in
       if Py.len validated <? 5
       then validated
              ++ take (Z.to_nat max_results - length validated)
                      (get_curated_images c query)
       else validated).
Proof.
  intros Hunique.
  destruct (search_images_from_eq c w sources query max_results l unique Hunique)
    as [n ->].
  simpl. unfold selection, needed, Py.len. simpl length.
  rewrite Z.sub_0_r.
  by rewrite (list_filter_iff (accepted c w query) (accepts c w query))
    by apply accepted_accepts.
Qed.

(** X2.  A result of [search_images] has at most [max_results] images when
    [max_results] is positive, and at most one otherwise: the validation
    loop tests the bound only after it has appended. *)
Theorem search_images_length w sources query max_results l images l' :
  search_images_from c w sources query max_results l = (Ret images, l') →
  Py.len images ≤ Z.max 1 max_results.
Proof.
  intros Hrun.
  destruct (remove_duplicates (concat sources)) as [unique|e] eqn:Hunique.
  - destruct (search_images_from_eq c w sources query max_results l unique
                Hunique) as [n Heq].
    rewrite Heq in Hrun. injection Hrun as <- _. apply selection_length.
  - unfold search_images_from in Hrun.
    rewrite concat_nonempty, Hunique in Hrun. by run.
Qed.

(** X3.  Every image that [search_images] returns is either a provider
    image that [validate_image] accepts for the query or one of the curated
    images of the query. *)
Theorem search_images_provenance w sources query max_results l images l' image :
  search_images_from c w sources query max_results l = (Ret images, l') →
  image ∈ images →
  (image ∈ concat sources ∧ ∀ l0, (validate_image c w image query l0).1 = Ret true)
  ∨ image ∈ get_curated_images c query.
Proof.
  intros Hrun Hin.
  destruct (remove_duplicates (concat sources)) as [unique|e] eqn:Hunique.
  - destruct (search_images_from_eq c w sources query max_results l unique
                Hunique) as [n Heq].
    rewrite Heq in Hrun. injection Hrun as <- _.
    apply selection_provenance in Hin as [[Hin Hacc]|Hin]; [left | by right].
    destruct (remove_duplicates_has_url _ _ Hunique) as [Hall ->].
    assert (image ∈ concat sources) as Hsource
      by (eapply elem_of_sublist; [done | apply kept_sublist]).
    split; [done|]. intros l0.
    destruct (proj1 (Forall_forall _ _) Hall image Hsource) as [u Hu].
    rewrite (accepts_validate _ _ _ _ _ _ Hu). simpl. by rewrite Hacc.
  - unfold search_images_from in Hrun.
    rewrite concat_nonempty, Hunique in Hrun. by run.
Qed.

(** X4.  In one call of [search_images] no URL is probed twice, and every
    probed URL is the URL of a provider image. *)
Theorem search_images_probes_once w sources query max_results r (l' : log) :
  search_images_from c w sources query max_results [] = (r, l') →
  NoDup l'
  ∧ ∀ u, EvHead u ∈ l' → ∃ image, image ∈ concat sources ∧ url image = Some u.
Proof.
  intros Hrun.
  destruct (remove_duplicates (concat sources)) as [unique|e] eqn:Hunique.
  - destruct (search_images_from_eq c w sources query max_results [] unique
                Hunique) as [n Heq].
    rewrite Heq in Hrun. injection Hrun as _ <-. simpl.
    destruct (remove_duplicates_has_url _ _ Hunique) as [Hall ->].
    split.
    + apply NoDup_fmap_2; [apply EvHead_inj|].
      eapply sublist_NoDup; [by apply kept_urls_NoDup | apply sublist_take].
    + intros u (u' & [= <-] & Hu)%list_elem_of_fmap.
      apply elem_of_take_in, elem_of_urls in Hu as (image & Hin & Hurl).
      exists image. split; [|done].
      eapply elem_of_sublist; [done | apply kept_sublist].
  - unfold search_images_from in Hrun.
    rewrite concat_nonempty, Hunique in Hrun. revert Hrun. run.
    intros [= _ <-]. split; [constructor|]. by intros ? ?%elem_of_nil.
Qed.

(** X5.  [search_images] leaves with [KeyError] exactly when some provider
    image has no ['url'] key, and then it has probed nothing. *)
Theorem search_images_key_error w sources query max_results l :
  ((search_images_from c w sources query max_results l).1 = Raise KeyError
   ↔ ∃ image, image ∈ concat sources ∧ url image = None)
  ∧ ((search_images_from c w sources query max_results l).1 = Raise KeyError →
     (search_images_from c w sources query max_results l).2 = l).
Proof.
  destruct (decide (Forall has_url (concat sources))) as [Hall|Hnot].
  - destruct (search_images_from_eq c w sources query max_results l
                (kept ∅ (concat sources))) as [n ->];
      [by apply remove_duplicates_kept|].
    simpl. split; [split|]; [done| |done].
    intros (image & Hin & Hnone).
    destruct (proj1 (Forall_forall _ _) Hall image Hin) as [u Hu]. congruence.
  - rewrite search_images_from_raises by done. simpl.
    split; [split|]; [|done..]. intros _.
    apply not_Forall_Exists in Hnot; [|apply _].
    apply Exists_exists in Hnot as (image & Hin & Hnone).
    exists image. split; [done|].
    destruct (url image) eqn:Hu; [|done]. destruct Hnone. by eexists.
Qed.

End SearchImages.

Lemma search_images_selects_witness :
  (ImageService.search_images_from Py.ascii_casing Samples.jpeg_world Closed.fox_sources
     "red fox" 2 []).1 =
  Ret [Samples.photo "https://images.example.org/fox.jpg" "Red fox at dawn";
       Samples.photo "https://images.example.org/cub.jpg" "Fox cub"].
Proof.
  rewrite (search_images_selects Py.ascii_casing Samples.jpeg_world Closed.fox_sources
             "red fox" 2 []
             [Samples.photo "https://images.example.org/fox.jpg"
                            "Red fox at dawn";
              Samples.photo "https://images.example.org/cub.jpg" "Fox cub";
              Samples.photo "https://images.example.org/owl.jpg" "Barn owl"]);
    reflexivity.
Defined.

Lemma search_images_length_witness :
  Py.len [Samples.photo "https://images.example.org/fox.jpg" "Red fox at dawn"]
  ≤ Z.max 1 0.
Proof.
  apply (search_images_length Py.ascii_casing Samples.jpeg_world Closed.fox_sources
           "red fox" 0 []
           [Samples.photo "https://images.example.org/fox.jpg" "Red fox at dawn"]
           [ImageService.EvHead (Py.PyStr "https://images.example.org/fox.jpg")]).
  reflexivity.
Defined.

Lemma search_images_provenance_witness :
  (Samples.photo "https://images.example.org/cub.jpg" "Fox cub"
     ∈ concat Closed.fox_sources
   ∧ ∀ l0, (ImageService.validate_image Py.ascii_casing Samples.jpeg_world
              (Samples.photo "https://images.example.org/cub.jpg" "Fox cub")
              "red fox" l0).1 = Ret true)
  ∨ Samples.photo "https://images.example.org/cub.jpg" "Fox cub"
      ∈ ImageService.get_curated_images Py.ascii_casing "red fox".
Proof.
  apply (search_images_provenance Py.ascii_casing Samples.jpeg_world Closed.fox_sources
           "red fox" 20 []
           [Samples.photo "https://images.example.org/fox.jpg"
                          "Red fox at dawn";
            Samples.photo "https://images.example.org/cub.jpg" "Fox cub"]
           (ImageService.search_images_from Py.ascii_casing Samples.jpeg_world
              Closed.fox_sources "red fox" 20 []).2).
  - reflexivity.
  - apply elem_of_cons. right. apply elem_of_cons. by left.
Defined.


Lemma search_images_probes_once_witness :
  NoDup (ImageService.search_images_from Py.ascii_casing Samples.jpeg_world
           Closed.fox_sources "red fox" 20 []).2
  ∧ ∀ u, ImageService.EvHead u
           ∈ (ImageService.search_images_from Py.ascii_casing Samples.jpeg_world
                Closed.fox_sources "red fox" 20 []).2 →
         ∃ image, image ∈ concat Closed.fox_sources
                  ∧ ImageService.url image = Some u.
Proof.
  apply (search_images_probes_once Py.ascii_casing Samples.jpeg_world Closed.fox_sources
           "red fox" 20
           (ImageService.search_images_from Py.ascii_casing Samples.jpeg_world
              Closed.fox_sources "red fox" 20 []).1).
  apply surjective_pairing.
Defined.

Lemma search_images_key_error_witness :
  (ImageService.search_images_from Py.ascii_casing Samples.jpeg_world Closed.broken_sources
     "red fox" 20 []).1 = Raise KeyError
  ∧ (ImageService.search_images_from Py.ascii_casing Samples.jpeg_world Closed.broken_sources
       "red fox" 20 []).2 = [].
Proof.
  destruct (search_images_key_error Py.ascii_casing Samples.jpeg_world Closed.broken_sources
              "red fox" 20 []) as [[_ Hraise] Hlog].
  assert ((ImageService.search_images_from Py.ascii_casing Samples.jpeg_world
             Closed.broken_sources "red fox" 20 []).1 = Raise KeyError)
    as Herr.
  { apply Hraise. eexists. split.
    - apply elem_of_cons. right. apply elem_of_cons. left. reflexivity.
    - reflexivity. }
  split; [exact Herr | exact (Hlog Herr)].
Defined.

(** ** validate_image and remove_duplicates *)

Section Acceptance.
Import ImageService Aux Closed.
Variable c : Py.casing.

Lemma relevant_true (words : list string) (t : string) :
  relevant words t = true ↔
  ∃ word, word ∈ words ∧ (2 < Py.len_str word)%nat
          ∧ Py.contains word t = true.
Proof.
  unfold relevant. rewrite existsb_exists. split.
  - intros (word & [Hlen Hin]%list_elem_of_In%list_elem_of_filter & Hc).
    by exists word.
  - intros (word & Hin & Hlen & Hc). exists word. split; [|done].
    by apply list_elem_of_In, list_elem_of_filter.
Qed.

(** X6.  [validate_image] returns [True] exactly when the image has a URL
    whose HEAD request is answered with status 200 and a content type that
    names one of the five image types, the [content-length] header is
    absent, empty or at least 5000, and the title is a string in which some
    query word of more than two characters occurs, case ignored.  A missing
    size header does not reject; an unreadable one does. *)
Theorem validate_image_accepts_iff w image query l :
  (validate_image c w image query l).1 = Ret true ↔
  ∃ link r t,
    url image = Some (Py.PyStr link) ∧ head w link = Some r
    ∧ status_code r = 200
    ∧ (∃ img_type, img_type ∈ image_types
         ∧ Py.contains img_type (Py.lower c (default "" (content_type r))) = true)
    ∧ (content_length r = LengthFalsy
       ∨ ∃ n, content_length r = LengthInt n ∧ 5000 ≤ n)
    ∧ get_title image = Py.PyStr t
    ∧ ∃ word, word ∈ Py.split (Py.lower c query) ∧ (2 < Py.len_str word)%nat
              ∧ Py.contains word (Py.lower c t) = true.
Proof.
  rewrite validate_image_eq. split.
  - destruct (url image) as [[|link]|]; cbn [fst]; unfold verdict;
      [by intros [=] | | by intros [=]].
    destruct (head w link) as [r|] eqn:Hhead; [|by intros [=]].
    intros [= Hv].
    apply andb_true_iff in Hv as [Hv Hrel].
    apply andb_true_iff in Hv as [Hv Hsize].
    apply andb_true_iff in Hv as [Hstatus Htype].
    destruct (get_title image) as [|t] eqn:Ht; [done|].
    exists link, r, t. split_and!; [done | done | by apply Z.eqb_eq | | | done |].
    + assert (existsb (fun img_type =>
                Py.contains img_type
                  (Py.lower c (default "" (content_type r)))) image_types = true)
        as (img_type & Hin & Hc)%existsb_exists by exact Htype.
      exists img_type. by rewrite list_elem_of_In.
    + destruct (content_length r) as [|n|]; [by left | right | done].
      exists n. split; [done|]. apply negb_true_iff, Z.ltb_ge in Hsize. lia.
    + by apply relevant_true.
  - intros (link & r & t & -> & Hhead & Hstatus & Htype & Hsize & Ht & Hrel).
    cbn [fst]. unfold verdict. rewrite Hhead, Ht. f_equal.
    apply andb_true_iff. split; [|by apply relevant_true].
    apply andb_true_iff. split.
    + apply andb_true_iff. split; [by apply Z.eqb_eq|].
      destruct Htype as (img_type & Hin & Hc).
      apply existsb_exists. exists img_type. by rewrite <- list_elem_of_In.
    + destruct Hsize as [->|(n & -> & Hn)]; [done|].
      apply negb_true_iff, Z.ltb_ge. lia.
Qed.

Lemma urls_kept images : ∀ seen u,
  Forall has_url images →
  u ∈ urls (kept seen images) ↔ u ∈ urls images ∧ u ∉ seen.
Proof.
  induction images as [|image rest IH]; intros seen u Hall.
  - simpl. split; [by intros ?%elem_of_nil | by intros [?%elem_of_nil _]].
  - apply Forall_cons in Hall as [[v Hv] Hrest]. cbn [kept]. rewrite Hv.
    rewrite (urls_cons _ _ rest Hv), elem_of_cons.
    destruct (decide (v ∈ seen)) as [Hin|Hnin].
    + rewrite IH by done. split; [tauto|].
      intros [[->|?] ?]; [done | tauto].
    + rewrite (urls_cons _ _ _ Hv), elem_of_cons, IH, not_elem_of_add by done.
      split.
      * intros [->|(? & ? & ?)]; [split; [by left | done] | split; [by right | done]].
      * intros [[->|?] ?]; [by left|].
        destruct (decide (u = v)) as [->|]; [by left | by right].
Qed.

(** X7.  [remove_duplicates] returns as many images as the input has
    distinct URLs. *)
Theorem remove_duplicates_counts_urls images unique :
  remove_duplicates images = Ret unique →
  length unique = size (list_to_set (urls images) : gset Py.val).
Proof.
  intros [Hall ->]%remove_duplicates_has_url.
  assert (length (kept ∅ images) = length (urls (kept ∅ images))) as ->.
  { pose proof (urls_fmap _ (kept_has_url images ∅ Hall)) as Hlen.
    apply (f_equal length) in Hlen. by rewrite !length_fmap in Hlen. }
  rewrite <- (size_list_to_set (C:=gset Py.val)) by by apply kept_urls_NoDup.
  f_equal. apply set_eq. intros u. rewrite !elem_of_list_to_set.
  rewrite urls_kept by done. split; [tauto|]. intros ?. split; [done|].
  apply not_elem_of_empty.
Qed.

End Acceptance.

Lemma validate_image_accepts_iff_witness :
  (ImageService.validate_image Py.ascii_casing Samples.jpeg_world
     (Samples.photo "https://images.example.org/cub.jpg" "Fox cub")
     "red fox" []).1 = Ret true.
Proof.
  apply (validate_image_accepts_iff Py.ascii_casing Samples.jpeg_world
           (Samples.photo "https://images.example.org/cub.jpg" "Fox cub")
           "red fox" []).
  exists "https://images.example.org/cub.jpg",
    {| ImageService.status_code := 200;
       ImageService.content_type := Some "image/jpeg";
       ImageService.content_length := ImageService.LengthInt 250000 |},
    "Fox cub".
  split_and!; [reflexivity | reflexivity | reflexivity | | | reflexivity |].
  - exists "image/jpeg". split; [apply elem_of_cons; by left | reflexivity].
  - right. exists 250000. split; [reflexivity | lia].
  - exists "fox". split_and!; [|simpl; lia | reflexivity].
    apply elem_of_cons. right. apply elem_of_cons. by left.
Defined.

Lemma remove_duplicates_counts_urls_witness :
  length [Samples.photo "https://images.example.org/fox.jpg" "Red fox at dawn";
          Samples.photo "https://images.example.org/cub.jpg" "Fox cub";
          Samples.photo "https://images.example.org/owl.jpg" "Barn owl"]
  = size (list_to_set (Closed.urls (concat Closed.fox_sources)) : gset Py.val).
Proof.
  apply (remove_duplicates_counts_urls (concat Closed.fox_sources)).
  reflexivity.
Defined.

(** ** Titles built from the query *)

Section Strings.

Lemma append_nil_l (b : string) : "" +:+ b = b.
Proof. reflexivity. Qed.

Lemma append_cons (x : ascii) (a b : string) :
  String x a +:+ b = String x (a +:+ b).
Proof. reflexivity. Qed.

Lemma append_assoc (a b c : string) : (a +:+ b) +:+ c = a +:+ (b +:+ c).
Proof.
  induction a as [|x a IH]; [done|]. rewrite !append_cons. by f_equal.
Qed.

Lemma append_nil_r (a : string) : a +:+ "" = a.
Proof.
  induction a as [|x a IH]; [done|]. rewrite append_cons. by f_equal.
Qed.

Lemma prefix_append (word s : string) : String.prefix word (word +:+ s) = true.
Proof.
  induction word as [|x word IH].
  - rewrite append_nil_l. by destruct s.
  - rewrite append_cons. simpl. by destruct (ascii_dec x x).
Qed.

Lemma contains_prefix (word s : string) :
  String.prefix word s = true → Py.contains word s = true.
Proof. intros Hp. destruct s; cbn [Py.contains]; by rewrite Hp. Qed.

(** A string that occurs somewhere in [s] is found by [in]. *)
Lemma contains_infix (word a b : string) :
  Py.contains word (a +:+ word +:+ b) = true.
Proof.
  induction a as [|x a IH].
  - rewrite append_nil_l. apply contains_prefix, prefix_append.
  - rewrite append_cons. cbn [Py.contains]. rewrite IH. apply orb_true_r.
Qed.

Lemma after_prefix_spec (sub : string) : ∀ s rest,
  Py.after_prefix sub s = Some rest → s = sub +:+ rest.
Proof.
  induction sub as [|x sub IH]; intros s rest; simpl.
  - by intros [= ->].
  - destruct s as [|y s]; [done|].
    destruct (decide (x = y)) as [->|]; [|done].
    intros ->%IH. by rewrite append_cons.
Qed.

Lemma after_space_spec (spaces : list string) (s rest : string) :
  Py.after_space spaces s = Some rest → ∃ space, s = space +:+ rest.
Proof.
  induction spaces as [|space others IH]; simpl; [done|].
  destruct (Py.after_prefix space s) as [rest'|] eqn:Hprefix; [|done].
  intros [= ->]. exists space. by apply after_prefix_spec.
Qed.

(** Every word that [split] returns occurs in the string. *)
Lemma split_from_infix (fuel : nat) : ∀ acc s word,
  word ∈ Py.split_from fuel acc s → ∃ a b, acc +:+ s = a +:+ word +:+ b.
Proof.
  assert (∀ acc s word,
            word ∈ (if decide (acc = "") then [] else [acc]) →
            ∃ a b, acc +:+ s = a +:+ word +:+ b) as Hlast.
  { intros acc s word. destruct (decide (acc = "")); [by intros ?%elem_of_nil|].
    intros ->%list_elem_of_singleton. exists "", s.
    by rewrite append_nil_l. }
  induction fuel as [|fuel IH]; intros acc s word; cbn [Py.split_from];
    [apply Hlast|].
  destruct (Py.after_space Py.whitespace s) as [rest|] eqn:Hspace.
  - apply after_space_spec in Hspace as [space ->].
    destruct (decide (acc = "")) as [->|].
    + intros (a & b & Heq)%IH. rewrite append_nil_l in Heq.
      exists (space +:+ a), b.
      by rewrite append_nil_l, Heq, !append_assoc.
    + intros [->|(a & b & Heq)%IH]%elem_of_cons.
      * exists "", (space +:+ rest). by rewrite append_nil_l.
      * rewrite append_nil_l in Heq. exists (acc +:+ space +:+ a), b.
        by rewrite Heq, !append_assoc.
  - destruct s as [|x s]; [apply Hlast|].
    intros (a & b & Heq)%IH. exists a, b.
    by rewrite <- Heq, append_assoc.
Qed.

Lemma split_contains (s suffix word : string) :
  word ∈ Py.split s → Py.contains word (s +:+ suffix) = true.
Proof.
  intros (a & b & Heq)%split_from_infix. rewrite append_nil_l in Heq.
  rewrite Heq, !append_assoc. apply contains_infix.
Qed.

Lemma ascii_lower_append (a b : string) :
  Py.ascii_lower (a +:+ b) = Py.ascii_lower a +:+ Py.ascii_lower b.
Proof.
  induction a as [|x a IH]; [done|].
  rewrite append_cons. cbn [Py.ascii_lower]. rewrite append_cons. by f_equal.
Qed.

Lemma is_ascii_append (a b : string) :
  Py.is_ascii (a +:+ b) = Py.is_ascii a && Py.is_ascii b.
Proof.
  induction a as [|x a IH]; [done|].
  rewrite append_cons. cbn [Py.is_ascii]. by rewrite IH, andb_assoc.
Qed.

Lemma char_cases (x : ascii) :
  Py.lower_char (Py.upper_char x) = Py.lower_char x
  ∧ Py.lower_char (Py.lower_char x) = Py.lower_char x
  ∧ ((Py.code x <? 128)%nat = true →
     (Py.code (Py.upper_char x) <? 128)%nat = true
     ∧ (Py.code (Py.lower_char x) <? 128)%nat = true).
Proof.
  destruct x as [[] [] [] [] [] [] [] []]; vm_compute; by split_and!.
Qed.

(** On ASCII text, lower-casing undoes [title]. *)
Lemma ascii_lower_title_from (s : string) : ∀ cased,
  Py.ascii_lower (Py.ascii_title_from cased s) = Py.ascii_lower s.
Proof.
  induction s as [|x s IH]; intros cased; [done|].
  cbn [Py.ascii_title_from].
  destruct (char_cases x) as (Hupper & Hlower & _).
  destruct (Py.is_lower x), (Py.is_upper x), cased; cbn [Py.ascii_lower];
    by rewrite ?Hupper, ?Hlower, IH.
Qed.

Lemma is_ascii_title_from (s : string) : ∀ cased,
  Py.is_ascii s = true → Py.is_ascii (Py.ascii_title_from cased s) = true.
Proof.
  induction s as [|x s IH]; intros cased; [done|].
  cbn [Py.is_ascii Py.ascii_title_from].
  intros [Hx Hs]%andb_true_iff.
  destruct (char_cases x) as (_ & _ & Hascii).
  destruct (Hascii Hx) as [Hupper Hlower].
  destruct (Py.is_lower x), (Py.is_upper x), cased; cbn [Py.is_ascii];
    by rewrite ?Hupper, ?Hlower, ?Hx, IH.
Qed.

(** On an ASCII query, the lower-cased title built from the query starts
    with the lower-cased query. *)
Lemma lower_title (c : Py.casing) (query suffix : string) :
  Py.is_ascii query = true → Py.is_ascii suffix = true →
  Py.lower c (Py.title c query +:+ suffix)
  = Py.lower c query +:+ Py.ascii_lower suffix.
Proof.
  intros Hquery Hsuffix.
  rewrite (Py.title_ascii c query Hquery), (Py.lower_ascii c query Hquery).
  rewrite Py.lower_ascii
    by (rewrite is_ascii_append, Hsuffix, andb_true_r;
        by apply is_ascii_title_from).
  unfold Py.ascii_title.
  by rewrite ascii_lower_append, ascii_lower_title_from.
Qed.

End Strings.

Section SampleProviders.
Import ImageService Aux Closed.
Variable c : Py.casing.

Lemma built_title_relevant (query suffix word : string) :
  Py.is_ascii query = true → Py.is_ascii suffix = true →
  word ∈ Py.split (Py.lower c query) → (2 < Py.len_str word)%nat →
  relevant (Py.split (Py.lower c query))
           (Py.lower c (Py.title c query +:+ suffix)) = true.
Proof.
  intros Hquery Hsuffix Hin Hlen. apply relevant_true.
  exists word. split_and!; [done..|].
  rewrite lower_title by done. by apply split_contains.
Qed.

Lemma sample_titles query image :
  image ∈ search_pixabay c query ++ search_pexels c query
            ++ get_curated_images c query →
  ∃ suffix, Py.is_ascii suffix = true
            ∧ get_title image = Py.PyStr (Py.title c query +:+ suffix).
Proof.
  intros [Hin|[Hin|Hin]%elem_of_app]%elem_of_app.
  - apply list_elem_of_fmap in Hin as (i & -> & _).
    by exists " - High Quality Photo".
  - apply list_elem_of_fmap in Hin as (i & -> & _).
    by exists " - Professional Photography".
  - unfold get_curated_images in Hin.
    destruct (any_in nature_words _);
      [apply list_elem_of_singleton in Hin as ->;
       by exists " - Nature Photography"|].
    destruct (any_in technology_words _);
      [apply list_elem_of_singleton in Hin as ->; by exists " - Technology"|].
    destruct (any_in landscape_words _);
      [apply list_elem_of_singleton in Hin as ->; by exists " - Landscape"|].
    by apply elem_of_nil in Hin.
Qed.

(** X8.  For a query of ASCII characters, the titles that
    [search_pixabay], [search_pexels] and [get_curated_images] build from
    the query pass the relevance test of [validate_image] for that query,
    as soon as the query has a word of more than two characters.  (Beyond
    ASCII, [str.title] followed by [str.lower] need not give back the
    lower-cased query.) *)
Theorem query_titles_are_relevant query image :
  Py.is_ascii query = true →
  (∃ word, word ∈ Py.split (Py.lower c query) ∧ (2 < Py.len_str word)%nat) →
  image ∈ search_pixabay c query ++ search_pexels c query
            ++ get_curated_images c query →
  ∃ t, get_title image = Py.PyStr t
       ∧ relevant (Py.split (Py.lower c query)) (Py.lower c t) = true.
Proof.
  intros Hascii (word & Hin & Hlen) (suffix & Hsuffix & Ht)%sample_titles.
  eexists. split; [done|]. by eapply built_title_relevant.
Qed.

Lemma sample_urls_NoDup query :
  NoDup (url <$> (search_pixabay c query ++ search_pexels c query)).
Proof.
  unfold search_pixabay, search_pexels. cbn [map app fmap list_fmap url].
  set (query_clean := Py.lower c _).
  repeat (apply NoDup_cons; split;
          [rewrite ?elem_of_cons, elem_of_nil; vm_compute; intuition discriminate|]).
  constructor.
Qed.

Lemma sample_has_url query :
  Forall has_url (search_pixabay c query ++ search_pexels c query).
Proof. repeat constructor; by eexists. Qed.

Lemma sample_items_distinct_aux query :
  remove_duplicates (search_pixabay c query ++ search_pexels c query)
  = Ret (search_pixabay c query ++ search_pexels c query).
Proof.
  rewrite remove_duplicates_kept by apply sample_has_url. f_equal.
  apply kept_id; [apply sample_has_url | apply sample_urls_NoDup |].
  intros ????. apply not_elem_of_empty.
Qed.

(** X9.  Whatever the query, the five items of [search_pixabay] and
    [search_pexels] carry five different URLs, so [remove_duplicates]
    returns them unchanged. *)
Theorem sample_items_are_distinct query :
  remove_duplicates (search_pixabay c query ++ search_pexels c query)
  = Ret (search_pixabay c query ++ search_pexels c query).
Proof. apply sample_items_distinct_aux. Qed.

Lemma filter_all {A} (P : A → Prop) `{∀ x, Decision (P x)} (k : list A) :
  Forall P k → filter P k = k.
Proof.
  induction 1 as [|x k Hx _ IH]; [done|].
  rewrite filter_cons_True by done. by f_equal.
Qed.

Lemma sample_links query image :
  image ∈ search_pixabay c query ++ search_pexels c query →
  ∃ link, url image = Some (Py.PyStr link).
Proof.
  intros [Hin|Hin]%elem_of_app;
    apply list_elem_of_fmap in Hin as (i & -> & _); by eexists.
Qed.

(** X10.  On a network where every HEAD request is answered with status
    200, an image content type and no size below 5000, for a query of ASCII
    characters with a word of more than two characters and with the three
    fetched providers finding nothing, [search_images] returns the sample
    items of [search_pixabay] and [search_pexels], cut to [max_results]
    (but at least one), and no curated image. *)
Theorem search_images_on_healthy_network w query max_results l :
  Py.is_ascii query = true →
  (∀ link, ∃ r, head w link = Some r ∧ status_code r = 200
     ∧ existsb (fun img_type =>
                  Py.contains img_type (Py.lower c (default "" (content_type r))))
               image_types = true
     ∧ (content_length r = LengthFalsy
        ∨ ∃ n, content_length r = LengthInt n ∧ 5000 ≤ n)) →
  search_unsplash w query = [] →
  search_reddit w query = [] →
  search_wikimedia w query = [] →
  (∃ word, word ∈ Py.split (Py.lower c query) ∧ (2 < Py.len_str word)%nat) →
  (search_images c w query max_results l).1 =
  Ret (take (Z.to_nat (Z.max 1 max_results))
            (search_pixabay c query ++ search_pexels c query)).
Proof.
  intros Hascii Hhealthy Hunsplash Hreddit Hwikimedia Hword.
  unfold search_images. rewrite Hunsplash, Hreddit, Hwikimedia.
  set (samples := search_pixabay c query ++ search_pexels c query).
  assert (concat [[]; search_pixabay c query; search_pexels c query; []; []]
          = samples) as Hconcat.
  { unfold samples. cbn [concat]. by rewrite !app_nil_r. }
  destruct (search_images_from_eq c w
              [[]; search_pixabay c query; search_pexels c query; []; []]
              query max_results l samples) as [n ->].
  { rewrite Hconcat. apply sample_items_distinct_aux. }
  cbn [fst]. f_equal. unfold selection.
  assert (filter (accepts c w query) samples = samples) as ->.
  { apply filter_all, Forall_forall. intros image Hin.
    destruct (sample_links query image Hin) as [link Hlink].
    destruct (sample_titles query image) as (suffix & Hsuffix & Ht);
      [rewrite app_assoc; apply elem_of_app; by left|].
    destruct Hword as (word & Hw & Hlen).
    destruct (Hhealthy link) as (r & Hhead & Hstatus & Htype & Hsize).
    apply Is_true_true_2. unfold accepts, verdict.
    rewrite Hlink, Hhead, Hstatus, Htype, Ht.
    rewrite (built_title_relevant query suffix word Hascii Hsuffix Hw Hlen).
    by destruct Hsize as [->|(m & -> & ->%Z.ltb_ge)]. }
  assert (length samples = 5%nat) as Hfive by done.
  unfold needed, Py.len. simpl length. rewrite Z.sub_0_r.
  set (m := Z.to_nat (Z.max 1 max_results)).
  destruct (Z.ltb_spec (Z.of_nat (length (take m samples))) 5); [|done].
  rewrite length_take, Hfive in *.
  replace (Z.to_nat max_results - m `min` 5)%nat with 0%nat by lia.
  by rewrite take_0, app_nil_r.
Qed.

End SampleProviders.

Lemma query_titles_are_relevant_witness :
  ∃ t, ImageService.get_title
         {| ImageService.url := Some (Py.PyStr
              "https://images.pexels.com/photos/2000001/red-fox.jpeg?auto=compress&cs=tinysrgb&w=1260&h=750&dpr=1");
            ImageService.thumbnail :=
              "https://images.pexels.com/photos/2000001/red-fox.jpeg?auto=compress&cs=tinysrgb&w=350&h=200&dpr=1";
            ImageService.title :=
              Some (Py.PyStr "Red Fox - Professional Photography");
            ImageService.source := "Pexels";
            ImageService.source_url :=
              "https://www.pexels.com/photo/red-fox-2000001/";
            ImageService.author := "Professional Photographer 2";
            ImageService.width := 1260;
            ImageService.height := 750 |} = Py.PyStr t
       ∧ ImageService.relevant (Py.split (Py.lower Py.ascii_casing "red FOX"))
                               (Py.lower Py.ascii_casing t) = true.
Proof.
  apply (query_titles_are_relevant Py.ascii_casing "red FOX").
  - reflexivity.
  - exists "fox". split; [|vm_compute; lia].
    apply elem_of_cons. right. apply elem_of_cons. by left.
  - vm_compute. do 4 (apply elem_of_cons; right). apply elem_of_cons. by left.
Defined.

Lemma search_images_on_healthy_network_witness :
  (ImageService.search_images Py.ascii_casing Samples.jpeg_world "red FOX" 4 []).1 =
  Ret (take (Z.to_nat (Z.max 1 4))
            (ImageService.search_pixabay Py.ascii_casing "red FOX"
               ++ ImageService.search_pexels Py.ascii_casing "red FOX")).
Proof.
  apply (search_images_on_healthy_network Py.ascii_casing Samples.jpeg_world
           "red FOX" 4 []).
  - reflexivity.
  - intros link. eexists. split; [reflexivity|].
    split_and!; [reflexivity | reflexivity |].
    right. exists 250000. split; [reflexivity | lia].
  - reflexivity.
  - reflexivity.
  - reflexivity.
  - exists "fox". split; [|vm_compute; lia].
    apply elem_of_cons. right. apply elem_of_cons. by left.
Defined.

(** ** The facts service and view: freshness *)

Section FactsFreshness.
Import Extinct Aux.
Variable rng : nat -> nat.

Lemma titles_nonempty fact :
  fact ∈ WikidataService.all_facts → WikidataService.title fact <> "".
Proof.
  revert fact. apply Forall_forall, (bool_decide_unpack _).
  vm_compute. exact I.
Qed.

Lemma choice_state {A} (seq : list A) s x s' :
  choice rng seq s = (Ret x, s') → s' = drawn s ∧ x ∈ seq.
Proof.
  unfold choice. destruct (seq !! _) as [y|] eqn:Hy; [|done].
  intros [= <- <-]. split; [done|]. by eapply list_elem_of_lookup_2.
Qed.

Lemma add_to_recent_eq title s :
  title <> "" →
  WikidataService._add_to_recent title s =
  (Ret tt,
   {| draws := draws s;
      recent_facts :=
        (let recent := recent_facts s ++ [title] in
         if 5 <? Py.len recent then tail recent else recent);
      session := session s |}).
Proof.
  intros Hne. unfold WikidataService._add_to_recent, set_recent_facts.
  destruct (decide (title = "")); [done|]. run.
  change WikidataService.max_recent with 5.
  by destruct (5 <? _).
Qed.

Lemma draw_loop_spec attempts : ∀ s found s',
  WikidataService.draw_loop rng attempts s = (Ret found, s') →
  match found with
  | Some fact =>
      fact ∈ WikidataService.all_facts
      ∧ (WikidataService.title fact ∉ recent_facts s)
      ∧ recent_facts s' =
          (let recent := recent_facts s ++ [WikidataService.title fact] in
           if 5 <? Py.len recent then tail recent else recent)
  | None => recent_facts s' = recent_facts s
            ∧ draws s' = (draws s + attempts)%nat
  end.
Proof.
  induction attempts as [|attempts IH]; intros s found s'.
  - simpl. run. intros [= <- <-]. split; [done | simpl; lia].
  - cbn [WikidataService.draw_loop]. run.
    destruct (choice rng WikidataService.all_facts s) as [[fact|e] s1] eqn:Hc;
      [|done].
    apply choice_state in Hc as [-> Hin].
    destruct (decide (_ ∈ recent_facts (drawn s))) as [Hseen|Hfresh].
    + intros Hrest. apply IH in Hrest. destruct found; simpl in *.
      * done.
      * destruct Hrest as [-> ->]. split; [done | lia].
    + rewrite add_to_recent_eq by by apply titles_nonempty.
      intros [= <- <-]. by split_and!.
Qed.

(** X11.  [get_fallback_it_ai_fact] returns a curated fact.  Either its
    title was not in [recent_facts], and it is appended there, the oldest
    entry being dropped once there are more than five; or ten draws in a
    row hit recent titles, and the fact is an eleventh draw that is not
    recorded.  A list of at most five recent titles stays so. *)
Theorem get_fallback_it_ai_fact_fresh s fact s' :
  WikidataService.get_fallback_it_ai_fact rng s = (Ret fact, s') →
  fact ∈ WikidataService.all_facts
  ∧ (((WikidataService.title fact ∉ recent_facts s)
      ∧ recent_facts s' =
          (let recent := recent_facts s ++ [WikidataService.title fact] in
           if 5 <? Py.len recent then tail recent else recent))
     ∨ ((WikidataService.draw_loop rng 10 s).1 = Ret None
        ∧ recent_facts s' = recent_facts s
        ∧ draws s' = (draws s + 11)%nat))
  ∧ ((length (recent_facts s) ≤ 5)%nat → (length (recent_facts s') ≤ 5)%nat).
Proof.
  unfold WikidataService.get_fallback_it_ai_fact. run.
  destruct (WikidataService.draw_loop rng 10 s) as [[found|e] s1] eqn:Hloop;
    [|done].
  pose proof (draw_loop_spec _ _ _ _ Hloop) as Hspec.
  destruct found as [fact'|].
  - intros [= <- <-]. destruct Hspec as (Hin & Hfresh & Hrecent).
    split_and!; [done | by left |].
    intros Hlen. rewrite Hrecent. cbn zeta. unfold Py.len.
    destruct (Z.ltb_spec 5 (Z.of_nat (length (recent_facts s ++ [WikidataService.title fact']))))
      as [Hlt|Hle].
    + destruct (recent_facts s) as [|oldest others]; simpl in *;
        rewrite ?length_app; simpl; lia.
    + rewrite length_app in Hle |- *. simpl in Hle |- *. lia.
  - intros [-> Hin]%choice_state. destruct Hspec as [Hrecent Hdraws].
    split_and!; [done | right | ].
    + split_and!; [done | done | simpl; lia].
    + simpl. by rewrite Hrecent.
Qed.

(** The view's loop returns one of the facts the service draws, and one
    whose title is in the window only when all of them are. *)
Lemma attempt_loop_first n : ∀ a recent fact_data s facts s',
  (a + n = 10)%nat → (0 < n)%nat →
  service_draws rng n s = (facts, s') →
  ∃ fact s1,
    FactsViews.attempt_loop rng (map Z.of_nat (seq a n)) recent fact_data s =
      (Ret (Some fact),
       stored "recent_facts"
         (FactsViews.record_served 5 recent (WikidataService.title fact)) s1)
    ∧ fact ∈ facts
    ∧ (WikidataService.title fact ∈ recent →
       ∀ f, f ∈ facts → WikidataService.title f ∈ recent).
Proof.
  induction n as [|n IH]; intros a recent fact_data s facts s' Ha Hn; [lia|].
  simpl. destruct (service_get_extinct_fact_ok rng s)
    as (fact & s1 & Hcall & _ & _).
  rewrite Hcall.
  destruct (service_draws rng n s1) as [facts' s2] eqn:Hrest.
  intros [= <- <-].
  pose proof (attempt_loop_cons rng (Z.of_nat a) (map Z.of_nat (seq (S a) n))
                recent fact_data s fact s1 Hcall) as Hstep.
  simpl in Hstep. rewrite Hstep. clear Hstep.
  destruct (decide (WikidataService.title fact ∈ recent)) as [Hseen|Hfresh].
  - rewrite bool_decide_eq_true_2 by done. cbn [negb orb].
    destruct n as [|n].
    + assert (a = 9)%nat as -> by lia. simpl in Hrest.
      injection Hrest as <- <-. exists fact, s1.
      split_and!; [done | apply elem_of_cons; by left |].
      by intros _ f ->%list_elem_of_singleton.
    + assert ((Z.of_nat a =? 9) = false) as -> by (apply Z.eqb_neq; lia).
      destruct (IH (S a) recent (Some fact) s1 facts' s2)
        as (fact' & s3 & -> & Hin & Hall); [lia | lia | done |].
      exists fact', s3. split_and!; [done | apply elem_of_cons; by right |].
      intros Hseen' f [->|Hf]%elem_of_cons; [done | by apply Hall].
  - rewrite bool_decide_eq_false_2 by done. cbn [negb orb].
    exists fact, s1. split_and!; [done | apply elem_of_cons; by left | done].
Qed.

(** X12.  [get_extinct_fact] answers 200 with one of the facts its ten
    service calls can return, and serves a title of the session window
    only if every one of the ten had its title in the window. *)
Theorem get_extinct_fact_serves_unseen s :
  ∃ fact s',
    FactsViews.get_extinct_fact rng s = (Ret (FactsViews.Response fact 200), s')
    ∧ fact ∈ (service_draws rng 10 (fresh_service s)).1
    ∧ (WikidataService.title fact ∈ window "recent_facts" s →
       ∀ f, f ∈ (service_draws rng 10 (fresh_service s)).1 →
            WikidataService.title f ∈ window "recent_facts" s).
Proof.
  destruct (service_draws rng 10 (fresh_service s)) as [facts s2] eqn:Hdraws.
  destruct (attempt_loop_first 10 0 (window "recent_facts" s) None
              (fresh_service s) facts s2) as (fact & s1 & Hloop & Hin & Hall);
    [done | lia | done |].
  exists fact. eexists. split_and!; [|done..].
  unfold FactsViews.get_extinct_fact, FactsService.init,
    WikidataService.init, set_recent_facts, session_get. run.
  fold (fresh_service s).
  change (default [] (session (fresh_service s) !! "recent_facts"))
    with (window "recent_facts" s).
  by rewrite Hloop.
Qed.

End FactsFreshness.

(** ** The news views: candidates and repeats *)

Section NewsFreshness.
Import Extinct FactsViews Aux Closed.
Variable rng : nat -> nat.
Implicit Types (recent : list string) (s : state).

(** X13.  [fetch_tech_news] returns one of its four candidates (the three
    live feeds' items and the policy item it drew) with a title that was
    not shown recently, and returns [None] only when every candidate that
    exists was shown recently. *)
Theorem fetch_tech_news_candidates w recent s :
  ∃ policy found,
    policy ∈ current_policy_news
    ∧ (fetch_tech_news rng w recent s).1 = Ret found
    ∧ (∀ item, found = Some item →
         Some item ∈ [fetch_hacker_news w; fetch_github_trending w;
                      fetch_dev_to_articles w; Some policy]
         ∧ title item ∉ recent)
    ∧ (found = None →
       title policy ∈ recent
       ∧ ∀ item, Some item ∈ [fetch_hacker_news w; fetch_github_trending w;
                              fetch_dev_to_articles w] →
                 title item ∈ recent).
Proof.
  destruct (fetch_tech_news_cases rng w recent s)
    as (policy & found & s' & Hpolicy & -> & _ & Hfound).
  exists policy, found. split_and!; [done | done | |].
  - by intros item ->.
  - intros ->. split.
    + apply Hfound. do 3 (apply elem_of_cons; right). apply elem_of_cons. by left.
    + intros item Hin. apply Hfound.
      rewrite !elem_of_cons. rewrite !elem_of_cons in Hin.
      rewrite elem_of_nil in Hin. tauto.
Qed.

(** X14.  While the session window holds at most ten titles,
    [get_latest_news] answers 200 with a title that is not in the window,
    and stores the window extended by that title, cut to its last ten
    entries: the reset branch of the fallback is never reached. *)
Theorem get_latest_news_never_repeats w s :
  (length (window "recent_news" s) ≤ 10)%nat →
  ∃ r s',
    get_latest_news rng w s = (Ret r, s')
    ∧ status r = 200
    ∧ (title (body r) ∉ window "recent_news" s)
    ∧ window "recent_news" s' =
        Py.last_n 10 (window "recent_news" s ++ [title (body r)]).
Proof.
  intros Hlen. destruct (get_latest_news_step rng w s Hlen) as (r & s1 & -> & ? & ?).
  eexists r, _. split_and!; [done..|].
  by rewrite window_stored, record_served_eq.
Qed.

Lemma lookup_last_n {A} (k : nat) (pre m : list A) (i : nat) (x : A) :
  m !! i = Some x → (length m - i ≤ k)%nat → x ∈ Py.last_n k (pre ++ m).
Proof.
  intros Hx Hk. unfold Py.last_n.
  pose proof (lookup_lt_Some _ _ _ Hx) as Hi.
  apply list_elem_of_lookup.
  exists (length pre + i - (length (pre ++ m) - k))%nat.
  rewrite lookup_drop, length_app.
  replace (length pre + length m - k
           + (length pre + i - (length pre + length m - k)))%nat
    with (length pre + i)%nat by lia.
  by rewrite lookup_app_r, Nat.add_comm, Nat.add_sub by lia.
Qed.

(** Each title of a run is outside the last ten entries of the window
    extended by the titles served before it. *)
Lemma latest_news_run_fresh worlds : ∀ s titles s',
  (length (window "recent_news" s) ≤ 10)%nat →
  latest_news_run rng worlds s = (titles, s') →
  length titles = length worlds
  ∧ ∀ j t, titles !! j = Some t →
           t ∉ Py.last_n 10 (window "recent_news" s ++ take j titles).
Proof.
  induction worlds as [|w rest IH]; intros s titles s' Hlen; simpl.
  - intros [= <- <-]. split; [done|]. intros j t Ht. by rewrite lookup_nil in Ht.
  - destruct (get_latest_news_step rng w s Hlen) as (r & s1 & -> & _ & Hfresh).
    set (s1' := stored _ _ s1).
    destruct (latest_news_run rng rest s1') as [titles' s2] eqn:Hrest.
    intros [= <- <-].
    assert (window "recent_news" s1'
            = Py.last_n 10 (window "recent_news" s ++ [title (body r)]))
      as Hwindow by (unfold s1'; by rewrite window_stored, record_served_eq).
    destruct (IH s1' titles' s2) as [Hlength Htitles];
      [rewrite Hwindow; apply last_n_length | done |].
    split; [simpl; by f_equal|].
    intros [|j] t Ht; simpl in Ht.
    + injection Ht as <-. rewrite take_0, app_nil_r, last_n_all by done. done.
    + specialize (Htitles j t Ht).
      rewrite Hwindow, last_n_absorb, <- app_assoc in Htitles. done.
Qed.

(** X15.  Successive calls of [get_latest_news] for one consumer, from a
    window of at most ten titles and whatever the feeds return, never serve
    the same title twice within ten consecutive answers. *)
Theorem latest_news_spaced worlds s titles s' i j ti tj :
  (length (window "recent_news" s) ≤ 10)%nat →
  latest_news_run rng worlds s = (titles, s') →
  titles !! i = Some ti → titles !! j = Some tj →
  (i < j ≤ i + 10)%nat →
  length titles = length worlds ∧ ti <> tj.
Proof.
  intros Hlen Hrun Hi Hj Hij.
  destruct (latest_news_run_fresh worlds s titles s' Hlen Hrun)
    as [Hlength Hfresh].
  split; [done|]. intros ->. apply (Hfresh j tj Hj).
  apply lookup_last_n with (i := i).
  - rewrite lookup_take_lt by lia. done.
  - rewrite length_take. lia.
Qed.

End NewsFreshness.

(** ** The search views: errors and downloads *)

Section SearchViews.
Import Web Closed.
Variable e : env.

(** X16.  When [json.loads] refuses the body, [views_new] answers 400 if
    the exception is [JSONDecodeError] (a text that is not JSON) and 500
    for any other exception (as [UnicodeDecodeError], for bytes that are no
    UTF-8 text); [views_backup] answers 500 in both cases; neither requests
    nor writes anything. *)
Theorem search_images_invalid_json r ex (l : log) :
  parsed r = Raise ex →
  ViewsNew.search_images e r l =
    (Ret (if decide (ex = JSONDecodeError)
          then Response (Error "Invalid JSON in request body") 400
          else Response
                 (Error "An unexpected error occurred. Please try again.") 500),
     l)
  ∧ ViewsBackup.search_images e r l =
      (Ret (Response (Error "Failed to generate images. Please try again.") 500),
       l).
Proof.
  intros Hbody.
  unfold ViewsNew.search_images, ViewsBackup.search_images, json_loads.
  rewrite Hbody. run. by destruct ex.
Qed.

(** X17.  A JSON body that is not an object, or whose ['query'] is not a
    string, is answered with 500 by both views; neither requests nor writes
    anything. *)
Theorem search_images_malformed_query r data (l : log) :
  parsed r = Ret data →
  query_of data = Raise AttributeError →
  ViewsNew.search_images e r l =
    (Ret (Response (Error "An unexpected error occurred. Please try again.") 500),
     l)
  ∧ ViewsBackup.search_images e r l =
      (Ret (Response (Error "Failed to generate images. Please try again.") 500),
       l).
Proof.
  intros Hbody Hquery.
  unfold ViewsNew.search_images, ViewsBackup.search_images, json_loads.
  rewrite Hbody. run. rewrite Hquery. by run.
Qed.

Lemma query_of_cases data :
  (∃ prompt, query_of data = Ret prompt)
  ∨ query_of data = Raise AttributeError.
Proof.
  destruct data as [| | | |items|members]; simpl; try by right.
  destruct (default _ _); simpl; try by right. left. by eexists.
Qed.

Lemma count_gets_app (l k : log) :
  count_gets (l ++ k) = (count_gets l + count_gets k)%nat.
Proof. unfold count_gets. by rewrite filter_app, length_app. Qed.





Lemma handled_is_total {A} (body : M log A) (x : A) (l : log) :
  ∃ a l', try_except body (fun _ => mret x) l = (Ret a, l').
Proof.
  unfold try_except. destruct (body l) as [[a|ex] l']; run; by eexists _, _.
Qed.

Lemma generate_images_total prompt num_images (l : log) :
  ∃ images l',
    AIImageGenerator.generate_images e prompt num_images l = (Ret images, l')
    ∧ Py.len images ≤ Z.max 0 num_images.
Proof.
  destruct (handled_is_total
              (AIImageGenerator.pollinations_loop e prompt
                 (AIImageGenerator.enhance_prompt prompt) (range num_images) [])
              [] l) as (first & l1 & Hfirst).
  destruct (handled_is_total
              (AIImageGenerator.variations_loop e prompt
                 (range (num_images - Py.len first)) []) [] l1)
    as (second & l2 & Hsecond).
  unfold AIImageGenerator.generate_images.
  fold (AIImageGenerator.generate_with_pollinations e prompt num_images) in Hfirst.
  fold (AIImageGenerator.generate_variations e prompt
          (num_images - Py.len first)) in Hsecond.
  run. rewrite Hfirst.
  destruct (Py.len first <? num_images).
  - rewrite Hsecond. eexists _, _. split; [done|].
    unfold Py.len. rewrite length_take. lia.
  - eexists _, _. split; [done|]. unfold Py.len. rewrite length_take. lia.
Qed.

(** X19.  For a non-empty prompt [views_backup] answers 500 when the image
    directory cannot be created, before any download.  Otherwise it
    answers 200 with at most six images, also when none could be
    generated. *)
Theorem views_backup_answers r data prompt (l : log) :
  parsed r = Ret data →
  query_of data = Ret prompt →
  prompt <> "" →
  (writable e "static/generated_images" = false →
   ViewsBackup.search_images e r l =
     (Ret (Response (Error "Failed to generate images. Please try again.") 500),
      l ++ [EvMakedirs "static/generated_images"]))
  ∧ (writable e "static/generated_images" = true →
     ∃ images l',
       ViewsBackup.search_images e r l =
         (Ret (Response (Results prompt (Py.len images) images) 200), l')
       ∧ 0 ≤ Py.len images ≤ 6).
Proof.
  intros Hbody Hquery Hprompt.
  unfold ViewsBackup.search_images, json_loads, AIImageGenerator.init,
    makedirs.
  rewrite Hbody. run. rewrite Hquery. run.
  destruct (decide (prompt = "")); [done|].
  change AIImageGenerator.images_dir with "static/generated_images".
  split; intros ->; run; [done|].
  destruct (generate_images_total prompt 6
              (l ++ [EvMakedirs "static/generated_images"]))
    as (images & l' & -> & Hlen).
  exists images, l'. split; [done|]. unfold Py.len in *. lia.
Qed.

End SearchViews.

Section FallbackNews.
Import Extinct FactsViews Aux.

(** X20.  When some curated fallback item has a title outside
    [recent_news], [get_fallback_news] answers 200 with such an item after
    one random draw and appends its title to the window kept in the
    session, cut to the last ten entries. *)
Theorem get_fallback_news_serves_unseen (rng : nat -> nat)
    (recent : list string) s unseen :
  unseen ∈ fallback_news → title unseen ∉ recent →
  ∃ item s',
    get_fallback_news rng recent s = (Ret (Response item 200), s')
    ∧ item ∈ fallback_news
    ∧ (title item ∉ recent)
    ∧ window "recent_news" s' =
        Py.last_n 10 (window "recent_news" s ++ [title item])
    ∧ draws s' = S (draws s).
Proof.
  intros Hin Hfresh.
  destruct (get_fallback_news_available rng recent s)
    as (item & Hitem & Hunseen & ->).
  { intros Hnone. by apply (filter_nil_not_elem_of _ _ _ Hnone Hfresh). }
  eexists item, _. split_and!; [done..| |done].
  by rewrite window_stored, record_served_eq.
Qed.

End FallbackNews.

Lemma get_fallback_it_ai_fact_fresh_witness :
  Closed.returned FactsViews.error_fact
    (WikidataService.get_fallback_it_ai_fact Samples.ten_zeros
       Samples.returned_python).1 ∈ WikidataService.all_facts
  ∧ (WikidataService.draw_loop Samples.ten_zeros 10 Samples.returned_python).1
    = Ret None
  ∧ Extinct.recent_facts
      (WikidataService.get_fallback_it_ai_fact Samples.ten_zeros
         Samples.returned_python).2 = [Samples.python_title].
Proof.
  destruct (get_fallback_it_ai_fact_fresh Samples.ten_zeros
              Samples.returned_python
              (Closed.returned FactsViews.error_fact
                 (WikidataService.get_fallback_it_ai_fact Samples.ten_zeros
                    Samples.returned_python).1)
              (WikidataService.get_fallback_it_ai_fact Samples.ten_zeros
                 Samples.returned_python).2)
    as (Hin & Hcases & _); [reflexivity|].
  split; [exact Hin|]. split; reflexivity.
Defined.

Lemma get_extinct_fact_serves_unseen_witness :
  ∃ fact s',
    FactsViews.get_extinct_fact Samples.zeros Samples.served_python
      = (Ret (FactsViews.Response fact 200), s')
    ∧ fact ∈ (Aux.service_draws Samples.zeros 10
                (Aux.fresh_service Samples.served_python)).1
    ∧ (WikidataService.title fact
         ∈ Aux.window "recent_facts" Samples.served_python →
       ∀ f, f ∈ (Aux.service_draws Samples.zeros 10
                   (Aux.fresh_service Samples.served_python)).1 →
            WikidataService.title f
              ∈ Aux.window "recent_facts" Samples.served_python).
Proof.
  apply (get_extinct_fact_serves_unseen Samples.zeros Samples.served_python).
Defined.

Lemma fetch_tech_news_candidates_witness :
  ∃ policy found,
    policy ∈ FactsViews.current_policy_news
    ∧ (FactsViews.fetch_tech_news Samples.zeros Samples.no_feeds []
         Closed.newcomer).1 = Ret found
    ∧ (∀ item, found = Some item →
         Some item ∈ [FactsViews.fetch_hacker_news Samples.no_feeds;
                      FactsViews.fetch_github_trending Samples.no_feeds;
                      FactsViews.fetch_dev_to_articles Samples.no_feeds;
                      Some policy]
         ∧ FactsViews.title item ∉ [])
    ∧ (found = None →
       FactsViews.title policy ∈ []
       ∧ ∀ item, Some item
                   ∈ [FactsViews.fetch_hacker_news Samples.no_feeds;
                      FactsViews.fetch_github_trending Samples.no_feeds;
                      FactsViews.fetch_dev_to_articles Samples.no_feeds] →
                 FactsViews.title item ∈ []).
Proof.
  apply (fetch_tech_news_candidates Samples.zeros Samples.no_feeds []
           Closed.newcomer).
Defined.

Lemma get_latest_news_never_repeats_witness :
  ∃ r s',
    FactsViews.get_latest_news Samples.zeros Samples.no_feeds
      Samples.saturated_news = (Ret r, s')
    ∧ FactsViews.status r = 200
    ∧ (FactsViews.title (FactsViews.body r)
         ∉ Aux.window "recent_news" Samples.saturated_news)
    ∧ Aux.window "recent_news" s' =
        Py.last_n 10 (Aux.window "recent_news" Samples.saturated_news
                        ++ [FactsViews.title (FactsViews.body r)]).
Proof.
  apply (get_latest_news_never_repeats Samples.zeros Samples.no_feeds
           Samples.saturated_news).
  vm_compute. lia.
Defined.

Lemma latest_news_spaced_witness :
  length (Closed.latest_news_run Samples.zeros
            (replicate 12 Samples.no_feeds) Closed.newcomer).1 = 12%nat
  ∧ default "" ((Closed.latest_news_run Samples.zeros
                   (replicate 12 Samples.no_feeds) Closed.newcomer).1 !! 1%nat)
    <> default "" ((Closed.latest_news_run Samples.zeros
                      (replicate 12 Samples.no_feeds) Closed.newcomer).1 !! 11%nat).
Proof.
  apply (latest_news_spaced Samples.zeros (replicate 12 Samples.no_feeds)
           Closed.newcomer
           (Closed.latest_news_run Samples.zeros
              (replicate 12 Samples.no_feeds) Closed.newcomer).1
           (Closed.latest_news_run Samples.zeros
              (replicate 12 Samples.no_feeds) Closed.newcomer).2
           1%nat 11%nat).
  - vm_compute. lia.
  - apply surjective_pairing.
  - reflexivity.
  - reflexivity.
  - lia.
Defined.

Lemma get_fallback_news_serves_unseen_witness :
  ∃ item s',
    FactsViews.get_fallback_news Samples.zeros [] Closed.newcomer
      = (Ret (FactsViews.Response item 200), s')
    ∧ item ∈ FactsViews.fallback_news
    ∧ (FactsViews.title item ∉ [])
    ∧ Aux.window "recent_news" s' =
        Py.last_n 10 (Aux.window "recent_news" Closed.newcomer
                        ++ [FactsViews.title item])
    ∧ Extinct.draws s' = S (Extinct.draws Closed.newcomer).
Proof.
  apply (get_fallback_news_serves_unseen Samples.zeros [] Closed.newcomer
           (Closed.returned
              {| FactsViews.title := ""; FactsViews.description := "";
                 FactsViews.url := "" |}
              (match FactsViews.fallback_news with
               | item :: _ => Ret item
               | [] => Raise IndexError
               end))).
  - apply elem_of_cons. by left.
  - apply not_elem_of_nil.
Defined.

Lemma search_images_invalid_json_witness :
  (ViewsNew.search_images Samples.generous
     {| Web.parsed := Raise UnicodeDecodeError |} [] =
     (Ret (Web.Response
             (Web.Error "An unexpected error occurred. Please try again.") 500),
      [])
   ∧ ViewsBackup.search_images Samples.generous
       {| Web.parsed := Raise UnicodeDecodeError |} [] =
       (Ret (Web.Response
               (Web.Error "Failed to generate images. Please try again.") 500),
        []))
  ∧ ViewsNew.search_images Samples.generous
      {| Web.parsed := Raise JSONDecodeError |} [] =
      (Ret (Web.Response (Web.Error "Invalid JSON in request body") 400), []).
Proof.
  split.
  - apply (search_images_invalid_json Samples.generous
             {| Web.parsed := Raise UnicodeDecodeError |} UnicodeDecodeError []).
    reflexivity.
  - apply (search_images_invalid_json Samples.generous
             {| Web.parsed := Raise JSONDecodeError |} JSONDecodeError []).
    reflexivity.
Defined.

Lemma search_images_malformed_query_witness :
  ViewsNew.search_images Samples.generous
    {| Web.parsed := Ret (Web.JObject [("query", Web.JNumber 7)]) |} [] =
    (Ret (Web.Response
            (Web.Error "An unexpected error occurred. Please try again.") 500),
     [])
  ∧ ViewsBackup.search_images Samples.generous
      {| Web.parsed := Ret (Web.JObject [("query", Web.JNumber 7)]) |} [] =
      (Ret (Web.Response
              (Web.Error "Failed to generate images. Please try again.") 500),
       []).
Proof.
  apply (search_images_malformed_query Samples.generous
           {| Web.parsed := Ret (Web.JObject [("query", Web.JNumber 7)]) |}
           (Web.JObject [("query", Web.JNumber 7)]) []);
    reflexivity.
Defined.


Lemma views_backup_answers_witness :
  ∃ images l',
    ViewsBackup.search_images Closed.offline (Samples.post "owl") [] =
      (Ret (Web.Response (Web.Results "owl" (Py.len images) images) 200), l')
    ∧ 0 ≤ Py.len images ≤ 6.
Proof.
  destruct (views_backup_answers Closed.offline (Samples.post "owl")
              (Web.JObject [("query", Web.JString "owl")]) "owl" [])
    as [_ Hok]; [reflexivity | reflexivity | discriminate |].
  apply Hok. reflexivity.
Defined.

(** With every download failing, [views_backup] still answers 200, with
    no image. *)
Lemma views_backup_offline :
  (ViewsBackup.search_images Closed.offline (Samples.post "owl") []).1
  = Ret (Web.Response (Web.Results "owl" 0 []) 200).
Proof. reflexivity. Qed.

(** ** AIImageGenerator: downloads *)

Section Generator.
Import Web Closed.
Variable e : env.

(** One download and at most one more image. *)
Lemma fetch_and_save_spec url image_filename item images (l : log) :
  ∃ images' l',
    AIImageGenerator.fetch_and_save e url image_filename item images l
      = (Ret images', l')
    ∧ count_gets l' = S (count_gets l)
    ∧ (length images ≤ length images' ≤ S (length images))%nat.
Proof.
  unfold AIImageGenerator.fetch_and_save, requests_get, write_file. run.
  destruct (http_get e url) as [response|]; run;
    [destruct (status_code response =? 200); run;
     [destruct (writable e _); run|]|];
    (eexists _, _; split; [reflexivity|];
     rewrite ?length_app, ?count_gets_app; unfold count_gets; simpl; lia).
Qed.

Lemma pollinations_loop_spec prompt enhanced indices : ∀ images (l : log),
  (∀ i, i ∈ indices →
        ∃ quoted,
          quote e (AIImageGenerator.varied_prompt enhanced i) = Ret quoted) →
  ∃ images' l',
    AIImageGenerator.pollinations_loop e prompt enhanced indices images l
      = (Ret images', l')
    ∧ count_gets l' = (count_gets l + length indices)%nat
    ∧ (length images' ≤ length images + length indices)%nat.
Proof.
  induction indices as [|i rest IH]; intros images l Hquote; simpl.
  - exists images, l. run. split_and!; [done | lia | lia].
  - run. unfold AIImageGenerator.pollinations_one. cbv zeta.
    destruct (Hquote i) as [quoted ->]; [apply elem_of_cons; by left|]. run.
    match goal with
    | |- context [AIImageGenerator.fetch_and_save e ?u ?f ?it images l] =>
        destruct (fetch_and_save_spec u f it images l)
          as (images1 & l1 & -> & Hgets & Hlen)
    end.
    destruct (IH images1 l1) as (images' & l' & -> & Hgets' & Hlen').
    { intros j Hj. apply Hquote, elem_of_cons. by right. }
    exists images', l'. split_and!; [done | lia | lia].
Qed.

Lemma style_exists (i : Z) :
  ∃ style style_name,
    AIImageGenerator.styles
      !! Z.to_nat (i mod Py.len AIImageGenerator.styles)
    = Some (style, style_name)
    ∧ (style, style_name) ∈ AIImageGenerator.styles.
Proof.
  destruct (lookup_lt_is_Some_2 AIImageGenerator.styles
              (Z.to_nat (i mod Py.len AIImageGenerator.styles)))
    as [[style style_name] Hstyle].
  { change (Py.len AIImageGenerator.styles) with 6.
    change (length AIImageGenerator.styles) with 6%nat.
    pose proof (Z.mod_pos_bound i 6). lia. }
  exists style, style_name. split; [done|].
  by eapply list_elem_of_lookup_2.
Qed.

Lemma variations_loop_spec prompt indices : ∀ images (l : log),
  (∀ style style_name,
     (style, style_name) ∈ AIImageGenerator.styles →
     ∃ quoted,
       quote e (AIImageGenerator.styled_prompt prompt style) = Ret quoted) →
  ∃ images' l',
    AIImageGenerator.variations_loop e prompt indices images l
      = (Ret images', l')
    ∧ count_gets l' = (count_gets l + length indices)%nat
    ∧ (length images' ≤ length images + length indices)%nat.
Proof.
  induction indices as [|i rest IH]; intros images l Hquote; simpl.
  - exists images, l. run. split_and!; [done | lia | lia].
  - run. unfold AIImageGenerator.variation_one.
    destruct (style_exists i) as (style & style_name & -> & Hstyle). cbv zeta.
    destruct (Hquote style style_name Hstyle) as [quoted ->]. run.
    match goal with
    | |- context [AIImageGenerator.fetch_and_save e ?u ?f ?it images l] =>
        destruct (fetch_and_save_spec u f it images l)
          as (images1 & l1 & -> & Hgets & Hlen)
    end.
    destruct (IH images1 l1 Hquote) as (images' & l' & -> & Hgets' & Hlen').
    exists images', l'. split_and!; [done | lia | lia].
Qed.

Lemma range_length (n : Z) : length (range n) = Z.to_nat n.
Proof. unfold range. by rewrite length_map, length_seq. Qed.

Lemma range_positive (n : Z) :
  0 < n → range n = 0 :: map Z.of_nat (seq 1 (Z.to_nat n - 1)).
Proof.
  intros Hn. unfold range.
  replace (Z.to_nat n) with (S (Z.to_nat n - 1)) at 1 by lia. done.
Qed.

(** A prompt that cannot be quoted ends either generator at its first
    round, before any download. *)
Lemma generate_with_pollinations_raises prompt num_images (l : log) ex :
  0 < num_images →
  quote e (AIImageGenerator.varied_prompt
             (AIImageGenerator.enhance_prompt prompt) 0) = Raise ex →
  AIImageGenerator.generate_with_pollinations e prompt num_images l
  = (Ret [], l).
Proof.
  intros Hn Hquote. unfold AIImageGenerator.generate_with_pollinations.
  rewrite (range_positive _ Hn). cbn [AIImageGenerator.pollinations_loop].
  unfold AIImageGenerator.pollinations_one. cbv zeta. rewrite Hquote. by run.
Qed.

Lemma generate_variations_raises prompt num_images (l : log) ex :
  0 < num_images →
  quote e (AIImageGenerator.styled_prompt prompt
             "photorealistic, high detail, 4k") = Raise ex →
  AIImageGenerator.generate_variations e prompt num_images l = (Ret [], l).
Proof.
  intros Hn Hquote. unfold AIImageGenerator.generate_variations.
  rewrite (range_positive _ Hn). cbn [AIImageGenerator.variations_loop].
  unfold AIImageGenerator.variation_one.
  change (AIImageGenerator.styles
            !! Z.to_nat (0 mod Py.len AIImageGenerator.styles))
    with (Some ("photorealistic, high detail, 4k", "photorealistic")).
  cbv beta iota zeta. rewrite Hquote. by run.
Qed.

(** X21.  For a prompt that [quote] can encode, [generate_images] makes
    [num_images] downloads in the first generator and then, in the
    variation generator, exactly one download per image the first one did
    not save; it returns at most [num_images] images.  For a prompt on
    which [quote] raises [UnicodeEncodeError], both generators give up at
    their first round and [generate_images] returns no image without any
    download.  It never raises. *)
Theorem generate_images_downloads prompt num_images (l : log) :
  0 ≤ num_images →
  ((∀ i, i ∈ range num_images →
         ∃ quoted,
           quote e (AIImageGenerator.varied_prompt
                      (AIImageGenerator.enhance_prompt prompt) i)
           = Ret quoted) →
   (∀ style style_name,
      (style, style_name) ∈ AIImageGenerator.styles →
      ∃ quoted,
        quote e (AIImageGenerator.styled_prompt prompt style) = Ret quoted) →
   ∃ first l1 images l',
     AIImageGenerator.generate_with_pollinations e prompt num_images l
       = (Ret first, l1)
     ∧ Py.len first ≤ num_images
     ∧ count_gets l1 = (count_gets l + Z.to_nat num_images)%nat
     ∧ AIImageGenerator.generate_images e prompt num_images l
       = (Ret images, l')
     ∧ Py.len images ≤ num_images
     ∧ count_gets l' =
         (count_gets l1 + Z.to_nat (num_images - Py.len first))%nat)
  ∧ (0 < num_images →
     quote e (AIImageGenerator.varied_prompt
                (AIImageGenerator.enhance_prompt prompt) 0)
       = Raise UnicodeEncodeError →
     quote e (AIImageGenerator.styled_prompt prompt
                "photorealistic, high detail, 4k")
       = Raise UnicodeEncodeError →
     AIImageGenerator.generate_images e prompt num_images l = (Ret [], l)).
Proof.
  intros Hnum. split.
  - intros Hvaried Hstyled.
    unfold AIImageGenerator.generate_images,
      AIImageGenerator.generate_with_pollinations,
      AIImageGenerator.generate_variations.
    unfold try_except at 1 2 3. run.
    destruct (pollinations_loop_spec prompt
                (AIImageGenerator.enhance_prompt prompt) (range num_images)
                [] l Hvaried)
      as (first & l1 & -> & Hgets1 & Hlen1).
    rewrite range_length in Hgets1, Hlen1. simpl in Hlen1.
    exists first, l1. unfold Py.len.
    destruct (Z.ltb_spec (Z.of_nat (length first)) num_images) as [Hshort|Hfull].
    + destruct (variations_loop_spec prompt
                  (range (num_images - Z.of_nat (length first))) [] l1 Hstyled)
        as (second & l2 & -> & Hgets2 & Hlen2).
      rewrite range_length in Hgets2, Hlen2. simpl in Hlen2.
      eexists _, _. split_and!; [done | lia | done | done | | done].
      rewrite length_take, length_app. lia.
    + eexists _, _. split_and!; [done | lia | done | done | | lia].
      rewrite length_take. lia.
  - intros Hpositive Hvaried Hstyled.
    unfold AIImageGenerator.generate_images. run.
    rewrite (generate_with_pollinations_raises _ _ _ _ Hpositive Hvaried).
    change (Py.len []) with 0.
    destruct (Z.ltb_spec 0 num_images); [|lia].
    rewrite Z.sub_0_r.
    rewrite (generate_variations_raises _ _ _ _ Hpositive Hstyled).
    simpl app. by rewrite take_nil.
Qed.

End Generator.

Lemma generate_images_downloads_witness :
  (∃ first l1 images l',
     AIImageGenerator.generate_with_pollinations Closed.offline "owl" 6 []
       = (Ret first, l1)
     ∧ Py.len first ≤ 6
     ∧ Closed.count_gets l1 = (Closed.count_gets [] + Z.to_nat 6)%nat
     ∧ AIImageGenerator.generate_images Closed.offline "owl" 6 []
       = (Ret images, l')
     ∧ Py.len images ≤ 6
     ∧ Closed.count_gets l' =
         (Closed.count_gets l1 + Z.to_nat (6 - Py.len first))%nat)
  ∧ AIImageGenerator.generate_images Closed.strict Samples.lone_surrogate 6 []
    = (Ret [], []).
Proof.
  split.
  - destruct (generate_images_downloads Closed.offline "owl" 6 [])
      as [Hcount _]; [lia|].
    apply Hcount; intros; eexists; reflexivity.
  - destruct (generate_images_downloads Closed.strict Samples.lone_surrogate
                6 []) as [_ Hraise]; [lia|].
    apply Hraise; [lia | reflexivity | reflexivity].
Defined.
